(** * Weekly club leaderboard: a model of [weekly_report.py]

    The script refreshes a token, pages through a club's activity feed,
    aggregates distance, climb and ride count per athlete over last week
    (Monday to Monday, UTC+9), renders a ranking as text and posts it.

    The functions of the script that compute are embedded below under
    their own names. Python values are modelled as follows.
    - [int] is [Z]; [float] is the kernel's binary64 [float], whose
      operations are the IEEE ones CPython uses.
    - [str] is [string], the UTF-8 bytes of the text.
    - a raised exception is the [Raise] branch of [result].
    - a [dict] that is iterated is an association list in insertion order.
    - a [datetime] is the ordinal of its date (what [toordinal()]
      returns, 0001-01-01 being day 1) with its time-of-day fields; the
      library's own arithmetic goes through that ordinal, and
      [ord2ymd_ymd2ord] below shows that nothing is lost.
    - what the interpreter and the network supply (the ISO-8601 parser,
      float formatting, the builtin [sum], the servers) are Variables
      of the Sections that use them. *)

From Stdlib Require Import ZArith List Bool Ascii String Lia Permutation.
From Stdlib Require Import Floats DecimalString.
Import ListNotations.

Local Open Scope string_scope.
Local Open Scope list_scope.
Local Open Scope Z_scope.

(** ** JSON values and exceptions *)

#[local] Unset Elimination Schemes.
Inductive json : Type :=
| JNull
| JBool (b : bool)
| JInt (z : Z)
| JFloat (f : float)
| JStr (s : string)
| JArr (items : list json)
| JObj (members : list (string * json)).
#[local] Set Elimination Schemes.

Inductive exn : Type :=
| KeyError (key : string)
| ValueError
| OverflowError
| AttributeError
| JSONDecodeError
| ConnectionError
| HTTPError (status : Z)
| RuntimeError (message : string) (payload : json).

Inductive result (E A : Type) : Type :=
| Ok (a : A)
| Raise (e : E).
Arguments Ok {E A} a.
Arguments Raise {E A} e.

Definition bind {E A B} (m : result E A) (k : A -> result E B) : result E B :=
  match m with
  | Ok a => k a
  | Raise e => Raise e
  end.

Notation "x <- m ;; k" := (bind m (fun x => k))
  (at level 61, m at next level, right associativity).

(** ** The calendar of [datetime] *)

Module Calendar.

Definition MAXORDINAL : Z := 3652059.

Definition is_leap (year : Z) : bool :=
  (year mod 4 =? 0) && (negb (year mod 100 =? 0) || (year mod 400 =? 0)).

Definition days_before_year (year : Z) : Z :=
  let y := year - 1 in
  y * 365 + y / 4 - y / 100 + y / 400.

Definition DAYS_IN_MONTH : list Z :=
  [-1; 31; 28; 31; 30; 31; 30; 31; 31; 30; 31; 30; 31].

Definition DAYS_BEFORE_MONTH : list Z :=
  [-1; 0; 31; 59; 90; 120; 151; 181; 212; 243; 273; 304; 334].

Definition table (t : list Z) (month : Z) : Z := nth (Z.to_nat month) t 0.

Definition b2z (b : bool) : Z := if b then 1 else 0.

Definition days_before_month (year month : Z) : Z :=
  table DAYS_BEFORE_MONTH month + b2z ((2 <? month) && is_leap year).

Definition ymd2ord (year month day : Z) : Z :=
  days_before_year year + days_before_month year month + day.

Definition DI400Y : Z := days_before_year 401.
Definition DI100Y : Z := days_before_year 101.
Definition DI4Y : Z := days_before_year 5.

(** The end of [_ord2ymd]: month and day of the [n]-th day of a year,
    counted from 0. *)
Definition month_day (n : Z) (leapyear : bool) : Z * Z :=
  let month := Z.shiftr (n + 50) 5 in
  let preceding := table DAYS_BEFORE_MONTH month + b2z ((2 <? month) && leapyear) in
  let '(month, preceding) :=
    if n <? preceding
    then (month - 1,
          preceding - (table DAYS_IN_MONTH (month - 1)
                       + b2z ((month - 1 =? 2) && leapyear)))
    else (month, preceding) in
  (month, n - preceding + 1).

(** [_ord2ymd]: ordinal to (year, month, day), 0001-01-01 being day 1. *)
Definition ord2ymd (n : Z) : Z * Z * Z :=
  let n := n - 1 in
  let n400 := n / DI400Y in
  let n := n mod DI400Y in
  let year := n400 * 400 + 1 in
  let n100 := n / DI100Y in
  let n := n mod DI100Y in
  let n4 := n / DI4Y in
  let n := n mod DI4Y in
  let n1 := n / 365 in
  let n := n mod 365 in
  let year := year + n100 * 100 + n4 * 4 + n1 in
  if (n1 =? 4) || (n100 =? 4) then (year - 1, 12, 31)
  else
    let leapyear := (n1 =? 3) && (negb (n4 =? 24) || (n100 =? 3)) in
    let '(month, day) := month_day n leapyear in
    (year, month, day).

End Calendar.

(** ** [datetime]

    The fields of a [datetime] without its zone, which is that of the
    context: +09:00 for the window and for what [to_kst] returns, the
    offset read from the text for what [fromisoformat] returns. *)

Record datetime : Type := mkdt {
  ordinal : Z;
  hour : Z;
  minute : Z;
  second : Z;
  microsecond : Z
}.

(** The values the library can hold: years 1 to 9999. *)
Definition valid_datetime (d : datetime) : Prop :=
  1 <= ordinal d <= Calendar.MAXORDINAL /\
  0 <= hour d < 24 /\ 0 <= minute d < 60 /\ 0 <= second d < 60 /\
  0 <= microsecond d < 1000000.

(** [datetime(year, month, day, hour, minute, second, microsecond)] for
    a date of the calendar. *)
Definition make_datetime (year month day h m s us : Z) : datetime :=
  mkdt (Calendar.ymd2ord year month day) h m s us.

(** The same with [tzinfo=KST]. *)
Definition kst : Z -> Z -> Z -> Z -> Z -> Z -> Z -> datetime := make_datetime.

(** [d.month] and [d.day] *)
Definition month_of (d : datetime) : Z := snd (fst (Calendar.ord2ymd (ordinal d))).
Definition day_of (d : datetime) : Z := snd (Calendar.ord2ymd (ordinal d)).

(** [d.weekday()]: Monday is 0, Sunday is 6. *)
Definition weekday (d : datetime) : Z := (ordinal d + 6) mod 7.

(** [d - timedelta(days=k)]; the library raises when the date leaves
    years 1..9999. *)
Definition sub_days (d : datetime) (k : Z) : result exn datetime :=
  let o := ordinal d - k in
  if (0 <? o) && (o <=? Calendar.MAXORDINAL)
  then Ok (mkdt o (hour d) (minute d) (second d) (microsecond d))
  else Raise OverflowError.

(** [d.replace(hour=0, minute=0, second=0, microsecond=0)] *)
Definition replace_midnight (d : datetime) : datetime :=
  mkdt (ordinal d) 0 0 0 0.

(** Comparison of two datetimes of the same zone: field by field, the
    date first. *)
Fixpoint lex_compare (a b : list Z) : comparison :=
  match a, b with
  | x :: a', y :: b' =>
      match x ?= y with
      | Eq => lex_compare a' b'
      | c => c
      end
  | [], [] => Eq
  | [], _ :: _ => Lt
  | _ :: _, [] => Gt
  end.

Definition dt_fields (d : datetime) : list Z :=
  [ordinal d; hour d; minute d; second d; microsecond d].

Definition dt_compare (a b : datetime) : comparison :=
  lex_compare (dt_fields a) (dt_fields b).

Definition dt_le (a b : datetime) : bool :=
  match dt_compare a b with Gt => false | _ => true end.

Definition dt_lt (a b : datetime) : bool :=
  match dt_compare a b with Lt => true | _ => false end.

(** ** [last_week_range_kst] *)

Definition last_week_range_kst (now_kst : datetime)
  : result exn (datetime * datetime) :=
  d <- sub_days now_kst (weekday now_kst) ;;
  let this_monday := replace_midnight d in
  start <- sub_days this_monday 7 ;;
  let end_ := this_monday in
  Ok (start, end_).

(** ** Strings *)

Definition nl : string := String "010"%char EmptyString.

Definition bytes (l : list N) : string :=
  fold_right (fun n s => String (ascii_of_N n) s) EmptyString l.

(** [str(n)] for an [int]. *)
Definition str_int (z : Z) : string := NilZero.string_of_int (Z.to_int z).

(** [sep.join(parts)] *)
Fixpoint join (sep : string) (parts : list string) : string :=
  match parts with
  | [] => EmptyString
  | [s] => s
  | s :: rest => (s ++ sep ++ join sep rest)%string
  end.

(** [s.rjust(width)], what [{i:>2}] does to the digits of [i]. *)
Definition rjust (width : nat) (s : string) : string :=
  (string_of_list_ascii (repeat " "%char (width - String.length s)) ++ s)%string.

(** Two digits, zero padded: [%m] and [%d] of [strftime]. *)
Definition two_digits (z : Z) : string :=
  if z <? 10 then ("0" ++ str_int z)%string else str_int z.

Definition rev_string (s : string) : string :=
  string_of_list_ascii (rev (list_ascii_of_string s)).

(** [Some rest] when [s] is [p] followed by [rest]. *)
Fixpoint strip_prefix (p s : string) : option string :=
  match p, s with
  | EmptyString, _ => Some s
  | String a p', String b s' => if Ascii.eqb a b then strip_prefix p' s' else None
  | String _ _, EmptyString => None
  end.

Fixpoint strip_any (ps : list string) (s : string) : option string :=
  match ps with
  | [] => None
  | p :: ps' =>
      match strip_prefix p s with
      | Some r => Some r
      | None => strip_any ps' s
      end
  end.

(** The characters [str.strip()] removes ([str.isspace]), in UTF-8. *)
Definition WHITESPACE : list string :=
  map bytes
    [[0x09]; [0x0a]; [0x0b]; [0x0c]; [0x0d]; [0x1c]; [0x1d]; [0x1e]; [0x1f];
     [0x20]; [0xc2; 0x85]; [0xc2; 0xa0]; [0xe1; 0x9a; 0x80];
     [0xe2; 0x80; 0x80]; [0xe2; 0x80; 0x81]; [0xe2; 0x80; 0x82];
     [0xe2; 0x80; 0x83]; [0xe2; 0x80; 0x84]; [0xe2; 0x80; 0x85];
     [0xe2; 0x80; 0x86]; [0xe2; 0x80; 0x87]; [0xe2; 0x80; 0x88];
     [0xe2; 0x80; 0x89]; [0xe2; 0x80; 0x8a]; [0xe2; 0x80; 0xa8];
     [0xe2; 0x80; 0xa9]; [0xe2; 0x80; 0xaf]; [0xe2; 0x81; 0x9f];
     [0xe3; 0x80; 0x80]]%N.

(** Drops leading members of [ps]; every drop removes a byte, so the
    length of the string is fuel enough. *)
Fixpoint lstrip_by (ps : list string) (fuel : nat) (s : string) : string :=
  match fuel with
  | O => s
  | S fuel' =>
      match strip_any ps s with
      | Some r => lstrip_by ps fuel' r
      | None => s
      end
  end.

Definition lstrip (s : string) : string :=
  lstrip_by WHITESPACE (String.length s) s.

Definition rstrip (s : string) : string :=
  rev_string (lstrip_by (map rev_string WHITESPACE) (String.length s) (rev_string s)).

(** [s.strip()] *)
Definition strip (s : string) : string := rstrip (lstrip s).

(** [s.endswith(c)] for a one-byte [c]. *)
Fixpoint endswith (s : string) (c : ascii) : bool :=
  match s with
  | EmptyString => false
  | String a EmptyString => Ascii.eqb a c
  | String _ s' => endswith s' c
  end.

(** [s.replace(c, by)] for a one-byte [c]: every occurrence. *)
Fixpoint replace (c : ascii) (by_ : string) (s : string) : string :=
  match s with
  | EmptyString => EmptyString
  | String a s' =>
      if Ascii.eqb a c then (by_ ++ replace c by_ s')%string
      else String a (replace c by_ s')
  end.

(** [x or y] on strings: the empty string is false. *)
Definition str_or (x y : string) : string :=
  match x with
  | EmptyString => y
  | _ => x
  end.

(** ** Numbers *)

(** A JSON number as the decoder delivers it. *)
Inductive number : Type :=
| PyInt (z : Z)
| PyFloat (f : float).

(** [float(z)] for an [int]: the nearest binary64, ties to even, and
    [OverflowError] past the largest finite value. *)
Definition float_of_int (z : Z) : result exn float :=
  let f := SF2Prim (binary_normalize prec emax z 0 false) in
  if is_infinity f then Raise OverflowError else Ok f.

(** [float(x)] *)
Definition py_float (x : number) : result exn float :=
  match x with
  | PyInt z => float_of_int z
  | PyFloat f => Ok f
  end.

(** ** Activities, as decoded from the feed

    A field that the JSON object lacks is [None]; a present field carries
    the type the feed documents for it. *)

Record athlete_obj : Type := mkathlete {
  id : option Z;
  firstname : option string;
  lastname : option string
}.

Record activity : Type := mkactivity {
  start_date : option string;
  athlete : option athlete_obj;
  distance : option number;
  total_elevation_gain : option number
}.

(** [d[key]]: a missing key raises. *)
Definition getitem {A} (key : string) (field : option A) : result exn A :=
  match field with
  | Some v => Ok v
  | None => Raise (KeyError key)
  end.

(** [d.get(key, default)] *)
Definition get {A} (field : option A) (default : A) : A :=
  match field with
  | Some v => v
  | None => default
  end.

(** The empty dict [{}] read as an athlete. *)
Definition no_athlete : athlete_obj := mkathlete None None None.

(** [f"{athlete_id}"]: [None] prints as [None]. *)
Definition str_id (athlete_id : option Z) : string :=
  match athlete_id with
  | Some z => str_int z
  | None => "None"
  end.

(** ** Time zone conversion *)

Definition DAY_US : Z := 86400000000.
Definition KST_OFFSET : Z := 9 * 3600000000.

(** Microseconds since midnight. *)
Definition time_of_day (d : datetime) : Z :=
  ((hour d * 60 + minute d) * 60 + second d) * 1000000 + microsecond d.

(** [d + timedelta(microseconds=delta)], carried into the date; raises
    when the date leaves years 1..9999. *)
Definition add_microseconds (d : datetime) (delta : Z) : result exn datetime :=
  let total := time_of_day d + delta in
  let o := ordinal d + total / DAY_US in
  let t := total mod DAY_US in
  if (0 <? o) && (o <=? Calendar.MAXORDINAL)
  then Ok (mkdt o (t / 3600000000) (t / 60000000 mod 60)
                  (t / 1000000 mod 60) (t mod 1000000))
  else Raise OverflowError.

(** What [datetime.fromisoformat] returns: the fields as written, and
    the UTC offset in microseconds when the text carries one. *)
Record parsed : Type := mkparsed {
  fields : datetime;
  utcoffset : option Z
}.

Section Timestamps.

(** The library's ISO-8601 parser; [ValueError] on text it rejects. *)
Variable fromisoformat : string -> result exn parsed.

(** The lookup of the system's zone at a local time, which
    [astimezone] makes for a value without offset: the UTC offset of
    that zone, or the exception of the lookup, which raises where the
    platform's clock or the calendar has no value ([ValueError] on the
    first day of year 1, whose day before the lookup probes). *)
Variable system_utcoffset : datetime -> result exn Z.

(** The offset the value stands at: its own, or the system's. *)
Definition myoffset_of (dt : parsed) : result exn Z :=
  match utcoffset dt with
  | Some offset => Ok offset
  | None => system_utcoffset (fields dt)
  end.

(** [dt.astimezone(KST)]: to UTC, then to +09:00. *)
Definition astimezone_KST (dt : parsed) : result exn datetime :=
  myoffset <- myoffset_of dt ;;
  utc <- add_microseconds (fields dt) (- myoffset) ;;
  add_microseconds utc KST_OFFSET.

Definition to_kst (dt_str : string) : result exn datetime :=
  let dt_str :=
    if endswith dt_str "Z" then replace "Z" "+00:00" dt_str else dt_str in
  dt_utc <- fromisoformat dt_str ;;
  astimezone_KST dt_utc.

(** ** [build_leaderboard] *)

(** One value of [by_athlete]. *)
Record aggregate : Type := mkagg {
  agg_name : string;
  dist_m : float;
  elev_m : float;
  agg_rides : Z
}.

(** One element of [rows]. *)
Record row : Type := mkrow {
  name : string;
  km : float;
  elev : float;
  rides : Z
}.

(** [by_athlete]: keys are athlete ids or [None], in insertion order. *)
Definition athletes : Type := list (option Z * aggregate).

Definition key_eqb (a b : option Z) : bool :=
  match a, b with
  | Some x, Some y => x =? y
  | None, None => true
  | _, _ => false
  end.

(** [k in d] *)
Fixpoint dict_mem (k : option Z) (d : athletes) : bool :=
  match d with
  | [] => false
  | (k', _) :: d' => key_eqb k k' || dict_mem k d'
  end.

(** [d[k] = v]: a new key goes last, an old one keeps its place. *)
Fixpoint dict_set (k : option Z) (v : aggregate) (d : athletes) : athletes :=
  match d with
  | [] => [(k, v)]
  | (k', v') :: d' =>
      if key_eqb k k' then (k', v) :: d' else (k', v') :: dict_set k v d'
  end.

(** [d[k]] *)
Fixpoint dict_get (k : option Z) (d : athletes) : option aggregate :=
  match d with
  | [] => None
  | (k', v) :: d' => if key_eqb k k' then Some v else dict_get k d'
  end.

(** An update in place of the value under [k], as [d[k][field] += x]. *)
Fixpoint dict_update (k : option Z) (f : aggregate -> aggregate) (d : athletes)
  : athletes :=
  match d with
  | [] => []
  | (k', v) :: d' =>
      if key_eqb k k' then (k', f v) :: d' else (k', v) :: dict_update k f d'
  end.

Definition add_dist (x : float) (v : aggregate) : aggregate :=
  mkagg (agg_name v) (dist_m v + x)%float (elev_m v) (agg_rides v).

Definition add_elev (x : float) (v : aggregate) : aggregate :=
  mkagg (agg_name v) (dist_m v) (elev_m v + x)%float (agg_rides v).

Definition add_ride (v : aggregate) : aggregate :=
  mkagg (agg_name v) (dist_m v) (elev_m v) (agg_rides v + 1).

(** [start_kst <= dt < end_kst] *)
Definition in_window (start_kst end_kst dt : datetime) : bool :=
  dt_le start_kst dt && dt_lt dt end_kst.

(** The display name computed for an activity. *)
Definition display_name (a : athlete_obj) : string :=
  let firstname := get (firstname a) "" in
  let lastname := get (lastname a) "" in
  str_or (strip (firstname ++ " " ++ lastname))
         ("athlete_" ++ str_id (id a)).

(** The loop body past the window test: one activity added to its
    athlete's aggregate. *)
Definition accumulate (by_athlete : athletes) (a : activity)
  : result exn athletes :=
  let athlete := get (athlete a) no_athlete in
  let athlete_id := id athlete in
  let name := display_name athlete in
  dist_m <- py_float (get (distance a) (PyFloat 0)) ;;
  elev_m <- py_float (get (total_elevation_gain a) (PyFloat 0)) ;;
  let by_athlete :=
    if negb (dict_mem athlete_id by_athlete)
    then dict_set athlete_id (mkagg name 0 0 0) by_athlete
    else by_athlete in
  let by_athlete := dict_update athlete_id (add_dist dist_m) by_athlete in
  let by_athlete := dict_update athlete_id (add_elev elev_m) by_athlete in
  let by_athlete := dict_update athlete_id add_ride by_athlete in
  Ok by_athlete.

(** The whole loop body: [continue] leaves [by_athlete] as it is. *)
Definition visit (start_kst end_kst : datetime) (by_athlete : athletes)
  (a : activity) : result exn athletes :=
  s <- getitem "start_date" (start_date a) ;;
  dt <- to_kst s ;;
  if negb (in_window start_kst end_kst dt) then Ok by_athlete
  else accumulate by_athlete a.

(** [for a in activities: ...] *)
Fixpoint aggregate_all (start_kst end_kst : datetime) (activities : list activity)
  (by_athlete : athletes) : result exn athletes :=
  match activities with
  | [] => Ok by_athlete
  | a :: rest =>
      by_athlete <- visit start_kst end_kst by_athlete a ;;
      aggregate_all start_kst end_kst rest by_athlete
  end.

Definition row_of (v : aggregate) : row :=
  mkrow (agg_name v) (dist_m v / 1000)%float (elev_m v) (agg_rides v).

(** [x < y] on the sort keys, as tuples compare: the first component
    that differs decides. *)
Definition key_lt (x y : row) : bool :=
  if negb (km x =? km y)%float then (km x <? km y)%float
  else if negb (elev x =? elev y)%float then (elev x <? elev y)%float
  else false.

(** [rows.sort(key=..., reverse=True)]. The sort is stable, and with
    [reverse=True] rows whose keys compare equal keep their order; when
    [<] orders the keys every such sort returns the same list, the one
    insertion builds here. A NaN among the keys is not ordered by [<]:
    the library then returns an arrangement of the same rows that
    depends on its merge strategy and need not be this one. *)
Fixpoint insert_desc (x : row) (sorted : list row) : list row :=
  match sorted with
  | [] => [x]
  | y :: rest => if key_lt x y then y :: insert_desc x rest else x :: y :: rest
  end.

Fixpoint sort_desc (rows : list row) : list row :=
  match rows with
  | [] => []
  | x :: rest => insert_desc x (sort_desc rest)
  end.

Definition build_leaderboard (activities : list activity)
  (start_kst end_kst : datetime) : result exn (list row) :=
  by_athlete <- aggregate_all start_kst end_kst activities [] ;;
  let rows := map (fun kv => row_of (snd kv)) by_athlete in
  Ok (sort_desc rows).

End Timestamps.

(** ** [format_post_text] *)

(** [l[:n]]: a negative [n] counts from the end. *)
Definition slice_to {A} (n : Z) (l : list A) : list A :=
  if n <? 0 then firstn (Z.to_nat (Z.of_nat (List.length l) + n)) l
  else firstn (Z.to_nat n) l.

(** [len(l)] *)
Definition len {A} (l : list A) : Z := Z.of_nat (List.length l).

(** [sum] over [int]s. *)
Definition sum_int (l : list Z) : Z := fold_left Z.add l 0.

(** [d.strftime("%m/%d")] *)
Definition strftime_md (d : datetime) : string :=
  (two_digits (month_of d) ++ "/" ++ two_digits (day_of d))%string.

Section Report.

(** [TOP_N], read from the environment when the module loads. *)
Variable TOP_N : Z.

(** [format(x, ".<digits>f")] of the interpreter. *)
Variable format_f : nat -> float -> string.

(** The builtin [sum] over [float]s; CPython sums left to right up to
    3.11 and with a compensation term from 3.12. *)
Variable sum_float : list float -> float.

Definition ranking_line (i : Z) (r : row) : string :=
  (rjust 2 (str_int i) ++ ". " ++ name r ++ "  |  " ++ format_f 1 (km r)
   ++ " km  |  " ++ format_f 0 (elev r) ++ " m  |  " ++ str_int (rides r)
   ++ "회")%string.

(** [for i, row in enumerate(rows, start=i)] *)
Fixpoint ranking_lines (i : Z) (rows : list row) : list string :=
  match rows with
  | [] => []
  | r :: rest => ranking_line i r :: ranking_lines (i + 1) rest
  end.

Definition format_post_text (start_kst end_kst : datetime)
  (leaderboard : list row) : result exn string :=
  let start_s := (strftime_md start_kst ++ "(월)")%string in
  last_day <- sub_days end_kst 1 ;;
  let end_s := (strftime_md last_day ++ "(일)")%string in
  let lines :=
    [("🏁 지난주 클럽 랭킹 (" ++ start_s ++ " ~ " ++ end_s ++ ")")%string;
     "";
     "📌 기준: 거리(km) / 획득고도(m) / 횟수";
     ""] in
  match leaderboard with
  | [] =>
      let lines := lines ++ ["지난주 기록된 활동이 없어요 🥲"] in
      Ok (join nl lines)
  | _ :: _ =>
      let lines :=
        lines ++ [("🏆 TOP " ++ str_int (Z.min TOP_N (len leaderboard)))%string] in
      let lines := lines ++ ranking_lines 1 (slice_to TOP_N leaderboard) in
      let lines := lines ++ [""] in
      let total_km := sum_float (map km leaderboard) in
      let total_elev := sum_float (map elev leaderboard) in
      let total_rides := sum_int (map rides leaderboard) in
      let lines :=
        lines ++ [("📊 전체 합계: " ++ format_f 1 total_km ++ " km / "
                   ++ format_f 0 total_elev ++ " m / " ++ str_int total_rides
                   ++ "회 (참여 " ++ str_int (len leaderboard) ++ "명)")%string] in
      Ok (join nl lines)
  end.

End Report.

(** ** The interpreter's builtins, for running the model *)

(** [sum] as CPython computes it up to 3.11: from [0], left to right. *)
Definition sum_sequential (l : list float) : float :=
  fold_left PrimFloat.add l 0%float.

(** [n / d] rounded to the nearest integer, ties to the even one. *)
Definition round_half_even (n d : Z) : Z :=
  let q := n / d in
  let r := n mod d in
  if (d <? 2 * r) || ((d =? 2 * r) && Z.odd q) then q + 1 else q.

(** [s.rjust(width, "0")] *)
Definition zero_pad (width : nat) (s : string) : string :=
  (string_of_list_ascii (repeat "0"%char (width - String.length s)) ++ s)%string.

(** The digits of [q / 10^digits] with [digits] decimals. *)
Definition fixed_digits (digits : nat) (q : Z) : string :=
  let scale := 10 ^ Z.of_nat digits in
  match digits with
  | O => str_int q
  | S _ => (str_int (q / scale) ++ "." ++ zero_pad digits (str_int (q mod scale)))%string
  end.

(** [format(x, ".<digits>f")]: the exact value of [x] rounded to
    [digits] decimals, ties to even. *)
Definition format_fixed (digits : nat) (x : float) : string :=
  let scale := 10 ^ Z.of_nat digits in
  let sign (s : bool) : string := if s then "-" else "" in
  match Prim2SF x with
  | S754_nan => "nan"
  | S754_infinity s => (sign s ++ "inf")%string
  | S754_zero s => (sign s ++ fixed_digits digits 0)%string
  | S754_finite s m e =>
      let q :=
        if 0 <=? e then Z.pos m * 2 ^ e * scale
        else round_half_even (Z.pos m * scale) (2 ^ (- e)) in
      (sign s ++ fixed_digits digits q)%string
  end.

(** ** The network

    A call of [requests] sends one request and gets a response or an
    exception. What the far end answers may depend on everything it was
    sent before, so a server is a function of the requests so far; the
    state threaded through the calls is that log. *)

Inductive request : Type :=
| GET (url : string) (headers : list (string * string)) (params : list (string * Z))
| POST (url : string) (data : list (string * string)).

(** A response; [payload] is what [r.json()] decodes, [None] when the
    body is not JSON. *)
Record response (B : Type) : Type := mkresponse {
  status_code : Z;
  payload : option B
}.
Arguments mkresponse {B} _ _.
Arguments status_code {B} _.
Arguments payload {B} _.

Definition server (B : Type) : Type :=
  list request -> request -> result exn (response B).

(** [requests.get(...)] and [requests.post(...)] *)
Definition send {B} (srv : server B) (rq : request) (log : list request)
  : result exn (response B) * list request :=
  (srv log rq, log ++ [rq]).

(** [r.raise_for_status()]: the library raises on 4xx and 5xx. *)
Definition raise_for_status {B} (r : response B) : result exn unit :=
  if (400 <=? status_code r) && (status_code r <? 600)
  then Raise (HTTPError (status_code r))
  else Ok tt.

(** [r.json()] *)
Definition json_of {B} (r : response B) : result exn B :=
  match payload r with
  | Some b => Ok b
  | None => Raise JSONDecodeError
  end.

(** [range(lo, hi)] *)
Definition range (lo hi : Z) : list Z :=
  map (fun i => lo + Z.of_nat i) (seq 0 (Z.to_nat (hi - lo))).

(** ** [fetch_club_activities] *)

Section Fetch.

Variable STRAVA_CLUB_ID : string.

(** The activities endpoint. *)
Variable strava : server (list activity).

Definition activities_url : string :=
  ("https://www.strava.com/api/v3/clubs/" ++ STRAVA_CLUB_ID ++ "/activities")%string.

(** One turn of the loop: the batch of [page], or the exception. *)
Definition fetch_page (url : string) (headers : list (string * string))
  (per_page page : Z) (log : list request)
  : result exn (list activity) * list request :=
  let params := [("page", page); ("per_page", per_page)] in
  let '(r, log) := send strava (GET url headers params) log in
  (r <- r ;; _ <- raise_for_status r ;; json_of r, log).

(** [for page in pages: ...]; [break] on an empty batch. *)
Fixpoint fetch_pages (url : string) (headers : list (string * string))
  (per_page : Z) (pages : list Z) (activities : list activity)
  (log : list request) : result exn (list activity) * list request :=
  match pages with
  | [] => (Ok activities, log)
  | page :: rest =>
      let '(batch, log) := fetch_page url headers per_page page log in
      match batch with
      | Raise e => (Raise e, log)
      | Ok [] => (Ok activities, log)
      | Ok ((_ :: _) as batch) =>
          fetch_pages url headers per_page rest (activities ++ batch) log
      end
  end.

Definition fetch_club_activities (access_token : string) (per_page max_pages : Z)
  (log : list request) : result exn (list activity) * list request :=
  let url := activities_url in
  let headers := [("Authorization", ("Bearer " ++ access_token)%string)] in
  fetch_pages url headers per_page (range 1 (max_pages + 1)) [] log.

End Fetch.

(** ** [post_to_band] *)

(** [d.get(key)] on a decoded object: the value, or [None]. *)
Fixpoint lookup (key : string) (members : list (string * json)) : option json :=
  match members with
  | [] => None
  | (k, v) :: rest => if String.eqb k key then Some v else lookup key rest
  end.

(** [v != 1], where [v] is a decoded value or [None]: Python holds
    [1], [1.0] and [True] equal to [1]. *)
Definition ne_1 (v : option json) : bool :=
  match v with
  | Some (JInt z) => negb (z =? 1)
  | Some (JFloat f) => negb (f =? 1)%float
  | Some (JBool b) => negb b
  | _ => true
  end.

Section Band.

Variable BAND_ACCESS_TOKEN : string.
Variable BAND_KEY : string.

(** The post endpoint. *)
Variable band : server json.

Definition post_to_band (text : string) (log : list request)
  : result exn json * list request :=
  let url := "https://openapi.band.us/v2.2/band/post/create" in
  let data :=
    [("access_token", BAND_ACCESS_TOKEN); ("band_key", BAND_KEY); ("content", text)] in
  let '(r, log) := send band (POST url data) log in
  (r <- r ;;
   _ <- raise_for_status r ;;
   j <- json_of r ;;
   match j with
   | JObj members =>
       if ne_1 (lookup "result_code" members)
       then Raise (RuntimeError "BAND API error: " j)
       else Ok j
   | _ => Raise AttributeError
   end,
   log).

End Band.

(** ** A parser for the feed's timestamps, for running the model

    [fromisoformat] on the one layout the feed uses,
    [YYYY-MM-DDTHH:MM:SS] with an optional [+HH:MM] or [-HH:MM]; any
    other text is rejected here, though the library reads more layouts. *)

Definition digit (c : ascii) : option Z :=
  let n := Z.of_N (N_of_ascii c) in
  if (48 <=? n) && (n <=? 57) then Some (n - 48) else None.

(** Reads [n] decimal digits off the front of [s]. *)
Fixpoint digits (n : nat) (acc : Z) (s : string) : option (Z * string) :=
  match n with
  | O => Some (acc, s)
  | S n' =>
      match s with
      | String c s' =>
          match digit c with
          | Some d => digits n' (acc * 10 + d) s'
          | None => None
          end
      | EmptyString => None
      end
  end.

(** Reads the byte [c] off the front of [s]. *)
Definition expect (c : ascii) (s : string) : option string :=
  match s with
  | String a s' => if Ascii.eqb a c then Some s' else None
  | EmptyString => None
  end.

Definition option_bind {A B} (m : option A) (k : A -> option B) : option B :=
  match m with
  | Some a => k a
  | None => None
  end.

Notation "x <-? m ;; k" := (option_bind m (fun x => k))
  (at level 61, m at next level, right associativity).

Definition days_in_month (year month : Z) : Z :=
  Calendar.table Calendar.DAYS_IN_MONTH month
  + Calendar.b2z ((month =? 2) && Calendar.is_leap year).

Definition parse_offset (s : string) : option (option Z) :=
  match s with
  | EmptyString => Some None
  | String c s' =>
      sign <-? (if Ascii.eqb c "+" then Some 1
                else if Ascii.eqb c "-" then Some (-1) else None) ;;
      hh <-? digits 2 0 s' ;;
      s1 <-? expect ":" (snd hh) ;;
      mm <-? digits 2 0 s1 ;;
      match snd mm with
      | EmptyString =>
          if (fst hh <? 24) && (fst mm <? 60)
          then Some (Some (sign * (fst hh * 3600000000 + fst mm * 60000000)))
          else None
      | _ => None
      end
  end.

Definition parse_iso_fields (s : string) : option parsed :=
  y <-? digits 4 0 s ;;
  s1 <-? expect "-" (snd y) ;;
  mo <-? digits 2 0 s1 ;;
  s2 <-? expect "-" (snd mo) ;;
  d <-? digits 2 0 s2 ;;
  s3 <-? expect "T" (snd d) ;;
  h <-? digits 2 0 s3 ;;
  s4 <-? expect ":" (snd h) ;;
  mi <-? digits 2 0 s4 ;;
  s5 <-? expect ":" (snd mi) ;;
  se <-? digits 2 0 s5 ;;
  off <-? parse_offset (snd se) ;;
  if (1 <=? fst y) && (1 <=? fst mo) && (fst mo <=? 12) && (1 <=? fst d)
     && (fst d <=? days_in_month (fst y) (fst mo))
     && (fst h <? 24) && (fst mi <? 60) && (fst se <? 60)
  then Some (mkparsed (make_datetime (fst y) (fst mo) (fst d)
                                     (fst h) (fst mi) (fst se) 0) off)
  else None.

Definition parse_iso (s : string) : result exn parsed :=
  match parse_iso_fields s with
  | Some p => Ok p
  | None => Raise ValueError
  end.

(** A system clock set to UTC: the lookup fails on the first day of
    the calendar, and gives the offset 0 elsewhere. *)
Definition utc_system (d : datetime) : result exn Z :=
  if ordinal d =? 1 then Raise ValueError else Ok 0.

(** ** Datetimes on the time line *)

(** Microseconds since the midnight that starts day 0. *)
Definition instant (d : datetime) : Z := ordinal d * DAY_US + time_of_day d.

(** The Monday that starts the week of [d]. *)
Definition monday_of (d : datetime) : Z := ordinal d - weekday d.

(** ** The order the leaderboard is meant to have *)

(** Row [a] may stand directly before row [b]: more km, or as many km
    and at least the climb. *)
Definition desc_ok (a b : row) : bool :=
  (km b <? km a)%float || ((km a =? km b)%float && (elev b <=? elev a)%float).

(** Every two adjacent rows are in order. *)
Fixpoint sorted_desc (rows : list row) : bool :=
  match rows with
  | a :: (b :: _) as rest => desc_ok a b && sorted_desc rest
  | _ => true
  end.

(** Neither sort key of the row is a NaN. *)
Definition ordered_keys (r : row) : bool :=
  negb (is_nan (km r)) && negb (is_nan (elev r)).

(** ** What the aggregation loop is meant to compute *)

Definition is_ok {A} (r : result exn A) : bool :=
  match r with
  | Ok _ => true
  | Raise _ => false
  end.

(** The grouping key, the display name and the two measures the loop
    reads off an activity. *)
Definition key_of (a : activity) : option Z := id (get (athlete a) no_athlete).

Definition name_of (a : activity) : string :=
  display_name (get (athlete a) no_athlete).

Definition dist_of (a : activity) : result exn float :=
  py_float (get (distance a) (PyFloat 0)).

Definition elev_of (a : activity) : result exn float :=
  py_float (get (total_elevation_gain a) (PyFloat 0)).

(** Both measures of the activity convert to [float]. *)
Definition measurable (a : activity) : bool :=
  is_ok (dist_of a) && is_ok (elev_of a).

(** One activity added to an aggregate. *)
Definition add_activity (v : aggregate) (a : activity) : result exn aggregate :=
  d <- dist_of a ;;
  e <- elev_of a ;;
  Ok (add_ride (add_elev e (add_dist d v))).

(** The activities of one athlete added up in the order given, from
    the aggregate [o] or, when there is none yet, from a fresh one that
    takes the name of the first activity. *)
Fixpoint fold_from (o : option aggregate) (g : list activity)
  : result exn (option aggregate) :=
  match g with
  | [] => Ok o
  | a :: g' =>
      v <- add_activity (get o (mkagg (name_of a) 0 0 0)) a ;;
      fold_from (Some v) g'
  end.

(** The activities of athlete [k]. *)
Definition group (k : option Z) (activities : list activity) : list activity :=
  filter (fun a => key_eqb (key_of a) k) activities.

(** The loop with its window test left out. *)
Fixpoint accumulate_all (activities : list activity) (by_athlete : athletes)
  : result exn athletes :=
  match activities with
  | [] => Ok by_athlete
  | a :: rest =>
      by_athlete <- accumulate by_athlete a ;;
      accumulate_all rest by_athlete
  end.

Section Window.

Variable fromisoformat : string -> result exn parsed.
Variable system_utcoffset : datetime -> result exn Z.

(** The start of an activity on the +09:00 clock. *)
Definition start_of (a : activity) : result exn datetime :=
  s <- getitem "start_date" (start_date a) ;;
  to_kst fromisoformat system_utcoffset s.

(** The start of the activity converts and lies in [[start, end)]. *)
Definition contributes (start_kst end_kst : datetime) (a : activity) : bool :=
  match start_of a with
  | Ok dt => dt_le start_kst dt && dt_lt dt end_kst
  | Raise _ => false
  end.

(** The loop body raises nothing on the activity. *)
Definition visitable (start_kst end_kst : datetime) (a : activity) : bool :=
  match start_of a with
  | Ok dt => if in_window start_kst end_kst dt then measurable a else true
  | Raise _ => false
  end.

End Window.

(** ** Reading the report *)

(** [needle in hay] *)
Fixpoint contains (needle hay : string) : bool :=
  match strip_prefix needle hay with
  | Some _ => true
  | None =>
      match hay with
      | EmptyString => false
      | String _ hay' => contains needle hay'
      end
  end.

(** The text up to its first line break. *)
Fixpoint first_line (s : string) : string :=
  match s with
  | EmptyString => EmptyString
  | String c s' => if Ascii.eqb c "010" then EmptyString else String c (first_line s')
  end.

Fixpoint all_chars (p : ascii -> bool) (s : string) : bool :=
  match s with
  | EmptyString => true
  | String c s' => p c && all_chars p s'
  end.

(** A decimal digit or the minus sign. *)
Definition numeric (c : ascii) : bool :=
  match digit c with
  | Some _ => true
  | None => Ascii.eqb c "-"
  end.

(** The header of the report for a window. *)
Definition header (start_kst last_day : datetime) : string :=
  ("🏁 지난주 클럽 랭킹 (" ++ strftime_md start_kst ++ "(월) ~ "
   ++ strftime_md last_day ++ "(일))")%string.

Definition legend : string := "📌 기준: 거리(km) / 획득고도(m) / 횟수".

(** The day before [d], when there is one. *)
Definition day_before (d : datetime) : datetime :=
  mkdt (ordinal d - 1) (hour d) (minute d) (second d) (microsecond d).

(** The weekday abbreviations of the report's language, Monday first. *)
Definition weekday_abbrev (wd : Z) : string :=
  nth (Z.to_nat wd) ["월"; "화"; "수"; "목"; "금"; "토"; "일"] "".

(** The header C8 describes: each date with the abbreviation of its
    own weekday. *)
Definition header_with_weekdays (start_kst last_day : datetime) : string :=
  ("🏁 지난주 클럽 랭킹 (" ++ strftime_md start_kst
   ++ "(" ++ weekday_abbrev (weekday start_kst) ++ ") ~ "
   ++ strftime_md last_day
   ++ "(" ++ weekday_abbrev (weekday last_day) ++ "))")%string.

Section ReportBody.

Variable TOP_N : Z.
Variable format_f : nat -> float -> string.
Variable sum_float : list float -> float.

(** The lines below the legend. *)
Definition body (leaderboard : list row) : list string :=
  match leaderboard with
  | [] => ["지난주 기록된 활동이 없어요 🥲"]
  | _ :: _ =>
      [("🏆 TOP " ++ str_int (Z.min TOP_N (len leaderboard)))%string]
      ++ ranking_lines format_f 1 (slice_to TOP_N leaderboard)
      ++ [""]
      ++ [("📊 전체 합계: " ++ format_f 1 (sum_float (map km leaderboard))
           ++ " km / " ++ format_f 0 (sum_float (map elev leaderboard))
           ++ " m / " ++ str_int (sum_int (map rides leaderboard))
           ++ "회 (참여 " ++ str_int (len leaderboard) ++ "명)")%string]
  end.

End ReportBody.

(** ** Reading the network calls *)

(** What a call yields once [raise_for_status] and [json] have run. *)
Definition reply {B} (r : result exn (response B)) : result exn B :=
  r <- r ;; _ <- raise_for_status r ;; json_of r.

(** The request [fetch_club_activities] sends for a page. *)
Definition page_request (club access_token : string) (per_page page : Z) : request :=
  GET (activities_url club)
      [("Authorization", ("Bearer " ++ access_token)%string)]
      [("page", page); ("per_page", per_page)].

(** The requests for pages 1 to [n]. *)
Definition pages_upto (club access_token : string) (per_page : Z) (n : nat)
  : list request :=
  map (page_request club access_token per_page) (range 1 (Z.of_nat n + 1)).

(** The batch the server returns for page [i + 1] when pages 1 to [i]
    were asked for before it, after the requests of [log]. *)
Definition page_reply (club access_token : string) (per_page : Z)
  (strava : server (list activity)) (log : list request) (i : nat)
  : result exn (list activity) :=
  reply (strava (log ++ pages_upto club access_token per_page i)
                (page_request club access_token per_page (1 + Z.of_nat i))).

(** The request [post_to_band] sends. *)
Definition band_request (token key text : string) : request :=
  POST "https://openapi.band.us/v2.2/band/post/create"
       [("access_token", token); ("band_key", key); ("content", text)].

(** The response is a JSON object whose [result_code] equals 1. *)
Definition has_result_code_1 (r : response json) : bool :=
  match payload r with
  | Some (JObj members) => negb (ne_1 (lookup "result_code" members))
  | _ => false
  end.

Definition is_2xx (status : Z) : bool := (200 <=? status) && (status <? 300).

(** [fetch_club_activities(access_token)]: the call with the default
    [per_page=200] and [max_pages=10], as [main] makes it. *)
Definition fetch_club_activities_default (club : string)
  (strava : server (list activity)) (access_token : string) (log : list request)
  : result exn (list activity) * list request :=
  fetch_club_activities club strava access_token 200 10 log.

(** ** Sample inputs *)

#[local] Set Warnings "-inexact-float".

(** The week of Monday 2026-02-02. *)
Definition week_start : datetime := kst 2026 2 2 0 0 0 0.
Definition week_end : datetime := kst 2026 2 9 0 0 0 0.

Definition member (i : Z) (first last : string) : option athlete_obj :=
  Some (mkathlete (Some i) (Some first) (Some last)).

Definition ride (t : string) (who : option athlete_obj) (d e : float) : activity :=
  mkactivity (Some t) who (Some (PyFloat d)) (Some (PyFloat e)).

(** Two athletes, three rides in the week. *)
Definition three_rides : list activity :=
  [ride "2026-02-03T01:00:00Z" (member 1 "A" "") 10000 100;
   ride "2026-02-04T01:00:00Z" (member 1 "A" "") 5000 50;
   ride "2026-02-05T01:00:00Z" (member 2 "B" "") 20000 10].

(** Rides on the two ends of the week: 15:00 UTC is midnight at +09:00. *)
Definition boundary_rides : list activity :=
  [ride "2026-02-01T14:59:59Z" (member 1 "A" "") 1000 0;
   ride "2026-02-01T15:00:00Z" (member 2 "B" "") 2000 0;
   ride "2026-02-08T14:59:59Z" (member 3 "C" "") 3000 0;
   ride "2026-02-08T15:00:00Z" (member 4 "D" "") 4000 0].

(** A ride whose distance the decoder read from the literal [NaN]. *)
Definition nan_rides : list activity :=
  [ride "2026-02-03T01:00:00Z" (member 1 "A" "") nan 0;
   ride "2026-02-04T01:00:00Z" (member 2 "B" "") 1000 0].

(** Three rides of one athlete, in two orders. *)
Definition rides_up : list activity :=
  [ride "2026-02-03T01:00:00Z" (member 1 "A" "") 10000.1 0;
   ride "2026-02-04T01:00:00Z" (member 1 "A" "") 20000.2 0;
   ride "2026-02-05T01:00:00Z" (member 1 "A" "") 30000.3 0].

Definition rides_down : list activity :=
  [ride "2026-02-05T01:00:00Z" (member 1 "A" "") 30000.3 0;
   ride "2026-02-04T01:00:00Z" (member 1 "A" "") 20000.2 0;
   ride "2026-02-03T01:00:00Z" (member 1 "A" "") 10000.1 0].

(** Two rides without athlete id: the first carries a name, the second
    has no athlete object at all. *)
Definition anonymous_rides : list activity :=
  [ride "2026-02-03T01:00:00Z" (Some (mkathlete None (Some "Kim") (Some "R."))) 1000 10;
   ride "2026-02-04T01:00:00Z" None 2000 20].

(** One ride without athlete object. *)
Definition nameless_ride : list activity :=
  [ride "2026-02-04T01:00:00Z" None 2000 20].

(** A window from a Tuesday to the next Tuesday. *)
Definition tuesday_start : datetime := kst 2026 2 3 0 0 0 0.
Definition tuesday_end : datetime := kst 2026 2 10 0 0 0 0.

(** A leaderboard of three rows. *)
Definition three_rows : list row :=
  [mkrow "B" 20 10 1; mkrow "A" 15 150 2; mkrow "C" 5 30 4].

(** Servers that answer every post alike. *)
Definition band_always (status : Z) (body : option json) : server json :=
  fun _ _ => Ok (mkresponse status body).

Definition code (v : json) : option json := Some (JObj [("result_code", v)]).

(** A feed of two pages, empty from the third on. *)
Definition two_pages : server (list activity) :=
  fun log _ =>
    Ok (mkresponse 200
          (Some (match List.length log with
                 | O => firstn 2 three_rides
                 | S O => skipn 2 three_rides
                 | _ => []
                 end))).

(** ** The module's configuration

    The assignments at the top of the module read the environment when
    it is loaded; [os.environ] is the list of its variables. *)

Record config : Type := mkconfig {
  cfg_STRAVA_CLIENT_ID : string;
  cfg_STRAVA_CLIENT_SECRET : string;
  cfg_STRAVA_REFRESH_TOKEN : string;
  cfg_STRAVA_CLUB_ID : string;
  cfg_BAND_ACCESS_TOKEN : string;
  cfg_BAND_KEY : string;
  cfg_TOP_N : Z
}.

(** [os.environ.get(name)] *)
Fixpoint environ_get (name : string) (environ : list (string * string))
  : option string :=
  match environ with
  | [] => None
  | (k, v) :: rest => if String.eqb k name then Some v else environ_get name rest
  end.

Section Configuration.

(** The builtin [int] on a string; [ValueError] on text that is no
    integer. *)
Variable int_of_str : string -> result exn Z.

(** The assignments of lines 7 to 15, in their order. *)
Definition load_config (environ : list (string * string)) : result exn config :=
  client_id <- getitem "STRAVA_CLIENT_ID" (environ_get "STRAVA_CLIENT_ID" environ) ;;
  client_secret <-
    getitem "STRAVA_CLIENT_SECRET" (environ_get "STRAVA_CLIENT_SECRET" environ) ;;
  refresh_token <-
    getitem "STRAVA_REFRESH_TOKEN" (environ_get "STRAVA_REFRESH_TOKEN" environ) ;;
  club_id <- getitem "STRAVA_CLUB_ID" (environ_get "STRAVA_CLUB_ID" environ) ;;
  band_token <- getitem "BAND_ACCESS_TOKEN" (environ_get "BAND_ACCESS_TOKEN" environ) ;;
  band_key <- getitem "BAND_KEY" (environ_get "BAND_KEY" environ) ;;
  top_n <- int_of_str (get (environ_get "TOP_N" environ) "20") ;;
  Ok (mkconfig client_id client_secret refresh_token club_id band_token band_key top_n).

End Configuration.

(** ** Calls in sequence

    A step sends requests and returns or raises; the log of requests is
    threaded through the steps, and a raise ends the sequence. *)

Definition net (A : Type) : Type := list request -> result exn A * list request.

Definition net_bind {A B} (m : net A) (k : A -> net B) : net B :=
  fun log =>
    let '(r, log) := m log in
    match r with
    | Ok a => k a log
    | Raise x => (Raise x, log)
    end.

(** A step that sends nothing. *)
Definition net_pure {A} (r : result exn A) : net A := fun log => (r, log).

Notation "x <~ m ;; k" := (net_bind m (fun x => k))
  (at level 61, m at next level, right associativity).

(** ** [refresh_strava_access_token] *)

(** The token endpoint's JSON object, read for the one field used. *)
Record token_reply : Type := mktoken_reply {
  access_token : option string
}.

Definition token_request (cfg : config) : request :=
  POST "https://www.strava.com/oauth/token"
       [("client_id", cfg_STRAVA_CLIENT_ID cfg);
        ("client_secret", cfg_STRAVA_CLIENT_SECRET cfg);
        ("grant_type", "refresh_token");
        ("refresh_token", cfg_STRAVA_REFRESH_TOKEN cfg)].

Definition refresh_strava_access_token (cfg : config) (oauth : server token_reply)
  : net string :=
  fun log =>
    let url := "https://www.strava.com/oauth/token" in
    let payload :=
      [("client_id", cfg_STRAVA_CLIENT_ID cfg);
       ("client_secret", cfg_STRAVA_CLIENT_SECRET cfg);
       ("grant_type", "refresh_token");
       ("refresh_token", cfg_STRAVA_REFRESH_TOKEN cfg)] in
    let '(r, log) := send oauth (POST url payload) log in
    (r <- r ;;
     _ <- raise_for_status r ;;
     j <- json_of r ;;
     getitem "access_token" (access_token j),
     log).

(** ** [main] *)

Section Main.

Variable iso : string -> result exn parsed.
Variable sys : datetime -> result exn Z.
Variable format_f : nat -> float -> string.
Variable sum_float : list float -> float.

(** The three endpoints. *)
Variable oauth : server token_reply.
Variable strava : server (list activity).
Variable band : server json.

(** [main], given what [kst_now()] reads off the clock; it returns the
    lines it prints. *)
Definition main (cfg : config) (now : datetime) : net (list string) :=
  window <~ net_pure (last_week_range_kst now) ;;
  let '(start_kst, end_kst) := window in
  access_token <~ refresh_strava_access_token cfg oauth ;;
  activities <~
    fetch_club_activities (cfg_STRAVA_CLUB_ID cfg) strava access_token 200 10 ;;
  leaderboard <~ net_pure (build_leaderboard iso sys activities start_kst end_kst) ;;
  text <~
    net_pure (format_post_text (cfg_TOP_N cfg) format_f sum_float
                start_kst end_kst leaderboard) ;;
  _ <~ post_to_band (cfg_BAND_ACCESS_TOKEN cfg) (cfg_BAND_KEY cfg) band text ;;
  net_pure (Ok ["✅ Posted to BAND successfully."; text]).

(** The script run on an environment: the module loads, then [main]. *)
Definition script (int_of_str : string -> result exn Z)
  (environ : list (string * string)) (now : datetime) : net (list string) :=
  cfg <~ net_pure (load_config int_of_str environ) ;;
  main cfg now.

End Main.

(** ** Further readings of the code *)

(** [d + timedelta(days=k)] when the date stays in the calendar. *)
Definition plus_days (d : datetime) (k : Z) : datetime :=
  mkdt (ordinal d + k) (hour d) (minute d) (second d) (microsecond d).

(** The instant is one the library can hold. *)
Definition representable (t : Z) : Prop :=
  DAY_US <= t < (Calendar.MAXORDINAL + 1) * DAY_US.

(** The text [to_kst] hands to the parser. *)
Definition iso_text (dt_str : string) : string :=
  if endswith dt_str "Z" then replace "Z" "+00:00" dt_str else dt_str.

(** The keys of a list in the order of their first occurrence. *)
Fixpoint first_seen (keys : list (option Z)) : list (option Z) :=
  match keys with
  | [] => []
  | k :: rest => k :: filter (fun k' => negb (key_eqb k' k)) (first_seen rest)
  end.

(** [k in keys] *)
Definition key_in (keys : list (option Z)) (k : option Z) : bool :=
  existsb (key_eqb k) keys.

(** The rides counted in [by_athlete]. *)
Definition total_rides (by_athlete : athletes) : Z :=
  sum_int (map (fun kv => agg_rides (snd kv)) by_athlete).

(** The batches up to the first empty one. *)
Fixpoint nonempty_prefix {A} (batches : list (list A)) : list (list A) :=
  match batches with
  | (_ :: _) as batch :: rest => batch :: nonempty_prefix rest
  | _ => []
  end.

(** The request is a post to the BAND endpoint. *)
Definition is_band_post (rq : request) : bool :=
  match rq with
  | POST url _ => String.eqb url "https://openapi.band.us/v2.2/band/post/create"
  | GET _ _ _ => false
  end.

(** The variables the module reads with [os.environ[...]], in the order
    of its assignments. *)
Definition required : list string :=
  ["STRAVA_CLIENT_ID"; "STRAVA_CLIENT_SECRET"; "STRAVA_REFRESH_TOKEN";
   "STRAVA_CLUB_ID"; "BAND_ACCESS_TOKEN"; "BAND_KEY"].

Definition is_unset (environ : list (string * string)) (name : string) : bool :=
  match environ_get name environ with
  | Some _ => false
  | None => true
  end.

(** The first required variable the environment lacks. *)
Definition first_missing (environ : list (string * string)) : option string :=
  find (is_unset environ) required.

(** The line the report prints when the week has no activity. *)
Definition no_activity : string := "지난주 기록된 활동이 없어요 🥲".

(** ** Sample endpoints *)

(** [params[name]] *)
Fixpoint param (name : string) (params : list (string * Z)) : option Z :=
  match params with
  | [] => None
  | (k, v) :: rest => if String.eqb k name then Some v else param name rest
  end.

(** A feed that serves the batches as pages 1, 2, ... and empty pages
    after them. *)
Definition feed (batches : list (list activity)) : server (list activity) :=
  fun _ rq =>
    match rq with
    | GET _ _ params =>
        Ok (mkresponse 200
              (Some (nth (Z.to_nat (get (param "page" params) 1 - 1)) batches [])))
    | POST _ _ => Ok (mkresponse 405 None)
    end.

Definition oauth_always (status : Z) (body : option token_reply)
  : server token_reply :=
  fun _ _ => Ok (mkresponse status body).

Definition sample_environ : list (string * string) :=
  [("STRAVA_CLIENT_ID", "1234"); ("STRAVA_CLIENT_SECRET", "s3cret");
   ("STRAVA_REFRESH_TOKEN", "r3fresh"); ("STRAVA_CLUB_ID", "club");
   ("BAND_ACCESS_TOKEN", "band-token"); ("BAND_KEY", "band-key")].

Definition sample_config : config :=
  mkconfig "1234" "s3cret" "r3fresh" "club" "band-token" "band-key" 20.

(** Wednesday 2026-02-11, 09:30 at +09:00. *)
Definition sample_now : datetime := kst 2026 2 11 9 30 0 0.

(** The report of the week of 2026-02-02 for [three_rides]. *)
Definition sample_report : string :=
  join nl ["🏁 지난주 클럽 랭킹 (02/02(월) ~ 02/08(일))"; "";
           "📌 기준: 거리(km) / 획득고도(m) / 횟수"; "";
           "🏆 TOP 2";
           " 1. B  |  20.0 km  |  10 m  |  1회";
           " 2. A  |  15.0 km  |  150 m  |  2회";
           "";
           "📊 전체 합계: 35.0 km / 160 m / 3회 (참여 2명)"].

(** The report of that week for [boundary_rides]. *)
Definition sample_boundary_report : string :=
  join nl ["🏁 지난주 클럽 랭킹 (02/02(월) ~ 02/08(일))"; "";
           "📌 기준: 거리(km) / 획득고도(m) / 횟수"; "";
           "🏆 TOP 2";
           " 1. C  |  3.0 km  |  0 m  |  1회";
           " 2. B  |  2.0 km  |  0 m  |  1회";
           "";
           "📊 전체 합계: 5.0 km / 0 m / 2회 (참여 2명)"].

(** * Properties *)

(** ** Datetimes on the time line *)

Ltac unfold_dt :=
  unfold dt_le, dt_lt, dt_compare, dt_fields, valid_datetime, instant,
    time_of_day, DAY_US in *; simpl in *.

(** Closed arithmetic facts, by evaluation. *)
Ltac ground :=
  repeat split; vm_compute; solve [reflexivity | discriminate].

Ltac split_compare :=
  repeat match goal with
         | |- context [?x ?= ?y] => destruct (Z.compare_spec x y)
         end.

Lemma dt_le_instant (a b : datetime) :
  valid_datetime a -> valid_datetime b ->
  dt_le a b = true <-> instant a <= instant b.
Proof.
  intros Ha Hb. unfold_dt. split_compare; split; intros; try lia; try reflexivity.
Qed.

Lemma dt_lt_instant (a b : datetime) :
  valid_datetime a -> valid_datetime b ->
  dt_lt a b = true <-> instant a < instant b.
Proof.
  intros Ha Hb. unfold_dt. split_compare; split; intros; try lia; try reflexivity.
Qed.

Lemma lex_compare_refl (l : list Z) : lex_compare l l = Eq.
Proof.
  induction l as [|x l IH]; simpl; [reflexivity|].
  now rewrite Z.compare_refl.
Qed.

Lemma dt_le_refl (a : datetime) : dt_le a a = true.
Proof. unfold dt_le, dt_compare. now rewrite lex_compare_refl. Qed.

Lemma dt_lt_irrefl (a : datetime) : dt_lt a a = false.
Proof. unfold dt_lt, dt_compare. now rewrite lex_compare_refl. Qed.

(** ** [last_week_range_kst] *)

Lemma weekday_bounds (d : datetime) : 0 <= weekday d < 7.
Proof. unfold weekday. apply Z.mod_pos_bound. lia. Qed.

Lemma sub_days_ok (d : datetime) (k : Z) :
  0 < ordinal d - k <= Calendar.MAXORDINAL ->
  sub_days d k = Ok (mkdt (ordinal d - k) (hour d) (minute d) (second d) (microsecond d)).
Proof.
  intros H. unfold sub_days.
  destruct (0 <? ordinal d - k) eqn:E1; [|apply Z.ltb_ge in E1; lia].
  destruct (ordinal d - k <=? Calendar.MAXORDINAL) eqn:E2; [|apply Z.leb_gt in E2; lia].
  reflexivity.
Qed.

Lemma sub_days_overflow (d : datetime) (k : Z) :
  ordinal d - k <= 0 -> sub_days d k = Raise OverflowError.
Proof.
  intros H. unfold sub_days.
  destruct (0 <? ordinal d - k) eqn:E1; [apply Z.ltb_lt in E1; lia|reflexivity].
Qed.

Lemma monday_of_weekday (d : datetime) : (monday_of d + 6) mod 7 = 0.
Proof.
  unfold monday_of, weekday.
  pose proof (Z.div_mod (ordinal d + 6) 7 ltac:(lia)) as H.
  replace (ordinal d - (ordinal d + 6) mod 7 + 6) with (((ordinal d + 6) / 7) * 7) by lia.
  apply Z.mod_mul. lia.
Qed.

(** C3, as amended: from 0001-01-08 on, [last_week_range_kst now] returns
    [(start, end)] where [end] is a Monday at 00:00:00.000000, no later
    than [now] and later than every other Monday midnight that is no
    later than [now], and [start] is the midnight exactly seven days
    before [end]; before 0001-01-08 the call raises [OverflowError]. *)
Theorem last_week_range_kst_spec (now : datetime) :
  valid_datetime now ->
  (8 <= ordinal now ->
   exists start end_,
     last_week_range_kst now = Ok (start, end_) /\
     valid_datetime start /\ valid_datetime end_ /\
     weekday end_ = 0 /\
     (hour end_, minute end_, second end_, microsecond end_) = (0, 0, 0, 0) /\
     dt_le end_ now = true /\
     (forall m, valid_datetime m -> weekday m = 0 -> time_of_day m = 0 ->
                dt_le m now = true -> dt_le m end_ = true) /\
     start = mkdt (ordinal end_ - 7) 0 0 0 0 /\
     instant end_ - instant start = 7 * DAY_US) /\
  (ordinal now < 8 -> last_week_range_kst now = Raise OverflowError).
Proof.
  intros Hv.
  pose proof (weekday_bounds now) as Hw.
  pose proof (monday_of_weekday now) as Hm. unfold monday_of in Hm.
  assert (Hmon : 1 <= ordinal now - weekday now).
  { destruct Hv as [[H1 _] _].
    assert (Hz : ordinal now - weekday now <> 0 /\ ordinal now - weekday now <> -1
                 /\ ordinal now - weekday now <> -2 /\ ordinal now - weekday now <> -3
                 /\ ordinal now - weekday now <> -4 /\ ordinal now - weekday now <> -5).
    { repeat split; intros E; rewrite E in Hm; discriminate Hm. }
    lia. }
  split.
  - intros H8.
    assert (Hmon8 : 8 <= ordinal now - weekday now).
    { assert (Hz : ordinal now - weekday now <> 1 + 0 /\ ordinal now - weekday now <> 2
                   /\ ordinal now - weekday now <> 3 /\ ordinal now - weekday now <> 4
                   /\ ordinal now - weekday now <> 5 /\ ordinal now - weekday now <> 6
                   /\ ordinal now - weekday now <> 7).
      { repeat split; intros E; try (rewrite E in Hm; discriminate Hm).
        all: lia. }
      lia. }
    unfold last_week_range_kst.
    rewrite sub_days_ok by (destruct Hv as [[? ?] _]; lia).
    unfold replace_midnight; cbn [bind ordinal].
    rewrite sub_days_ok by (cbn [ordinal]; destruct Hv as [[? ?] _]; lia).
    cbn [bind ordinal hour minute second microsecond].
    eexists _, _. split; [reflexivity|].
    assert (Hve : valid_datetime (mkdt (ordinal now - weekday now) 0 0 0 0)).
    { unfold valid_datetime in *; cbn [ordinal hour minute second microsecond]. lia. }
    assert (Hvs : valid_datetime (mkdt (ordinal now - weekday now - 7) 0 0 0 0)).
    { unfold valid_datetime in *; cbn [ordinal hour minute second microsecond]. lia. }
    split; [exact Hvs|]. split; [exact Hve|].
    split; [unfold weekday; cbn [ordinal]; exact Hm|].
    split; [reflexivity|].
    split.
    { apply dt_le_instant; [assumption..|].
      unfold instant, time_of_day, DAY_US, valid_datetime in *.
      cbn [ordinal hour minute second microsecond]. lia. }
    split.
    { intros m Hvm Hwm Htm Hle.
      apply dt_le_instant in Hle; [|assumption..].
      apply dt_le_instant; [assumption..|].
      unfold instant in *. rewrite Htm in *.
      assert (ordinal m <= ordinal now).
      { unfold time_of_day, DAY_US, valid_datetime in *. lia. }
      unfold time_of_day. cbn [ordinal hour minute second microsecond].
      unfold weekday in Hwm.
      pose proof (Z.div_mod (ordinal m + 6) 7 ltac:(lia)) as D1.
      pose proof (Z.div_mod (ordinal now - weekday now + 6) 7 ltac:(lia)) as D2.
      unfold DAY_US. lia. }
    split; [reflexivity|].
    unfold instant, time_of_day, DAY_US. cbn [ordinal hour minute second microsecond]. lia.
  - intros H8.
    assert (Hmon1 : ordinal now - weekday now = 1).
    { assert (Hz : ordinal now - weekday now <> 2
                   /\ ordinal now - weekday now <> 3 /\ ordinal now - weekday now <> 4
                   /\ ordinal now - weekday now <> 5 /\ ordinal now - weekday now <> 6
                   /\ ordinal now - weekday now <> 7).
      { repeat split; intros E; rewrite E in Hm; discriminate Hm. }
      lia. }
    unfold last_week_range_kst.
    rewrite sub_days_ok by (destruct Hv as [[? ?] _]; lia).
    unfold replace_midnight; cbn [bind ordinal].
    rewrite sub_days_overflow by (cbn [ordinal]; lia).
    reflexivity.
Qed.

(** The theorem at a Wednesday evening. *)
Lemma last_week_range_kst_spec_witness :
  valid_datetime (kst 2026 11 4 21 9 0 5) /\
  last_week_range_kst (kst 2026 11 4 21 9 0 5)
  = Ok (kst 2026 10 26 0 0 0 0, kst 2026 11 2 0 0 0 0).
Proof.
  assert (Hv : valid_datetime (kst 2026 11 4 21 9 0 5)).
  { ground. }
  split; [exact Hv|].
  destruct (last_week_range_kst_spec (kst 2026 11 4 21 9 0 5) Hv) as [H _].
  destruct (H ltac:(ground)) as (s & e & Heq & _).
  rewrite Heq. vm_compute in Heq. injection Heq as <- <-. reflexivity.
Defined.

(** C3, as stated, fails in the first week of year 1: on Wednesday
    0001-01-03 this week's Monday is 0001-01-01, and the Monday before
    it is not a date. *)
Lemma last_week_range_kst_year_one :
  valid_datetime (kst 1 1 3 12 0 0 0) /\
  weekday (kst 1 1 3 12 0 0 0) = 2 /\
  last_week_range_kst (kst 1 1 3 12 0 0 0) = Raise OverflowError.
Proof.
  ground.
Qed.

(** ** The calendar

    A date is kept as its ordinal; these lemmas show that the year,
    month and day [_ord2ymd] computes for it are a date of the
    calendar whose ordinal, by [_ymd2ord], is the one kept. *)

Lemma month_day_table :
  forallb (fun k =>
    forallb (fun leap =>
      let '(m, d) := Calendar.month_day (Z.of_nat k) leap in
      (1 <=? m) && (m <=? 12) && (1 <=? d)
      && (d <=? Calendar.table Calendar.DAYS_IN_MONTH m
                + Calendar.b2z ((m =? 2) && leap))
      && (Calendar.table Calendar.DAYS_BEFORE_MONTH m
          + Calendar.b2z ((2 <? m) && leap) + d =? Z.of_nat k + 1))
      [true; false])
    (seq 0 365) = true.
Proof. vm_compute. reflexivity. Qed.

Lemma month_day_spec (n : Z) (leap : bool) :
  0 <= n < 365 ->
  let '(m, d) := Calendar.month_day n leap in
  1 <= m <= 12 /\
  1 <= d <= Calendar.table Calendar.DAYS_IN_MONTH m + Calendar.b2z ((m =? 2) && leap) /\
  Calendar.table Calendar.DAYS_BEFORE_MONTH m + Calendar.b2z ((2 <? m) && leap) + d
  = n + 1.
Proof.
  intros Hn. pose proof month_day_table as T.
  rewrite forallb_forall in T.
  specialize (T (Z.to_nat n)). rewrite Z2Nat.id in T by lia.
  assert (Hin : In (Z.to_nat n) (seq 0 365)) by (apply in_seq; lia).
  specialize (T Hin). rewrite forallb_forall in T.
  assert (Hl : In leap [true; false]) by (destruct leap; simpl; auto).
  specialize (T leap Hl).
  destruct (Calendar.month_day n leap) as [m d].
  repeat (apply andb_prop in T as [T ?]).
  repeat match goal with
         | H : (_ <=? _) = true |- _ => apply Z.leb_le in H
         | H : (_ =? _) = true |- _ => apply Z.eqb_eq in H
         end.
  lia.
Qed.

Ltac december :=
  change (Calendar.table Calendar.DAYS_BEFORE_MONTH 12) with 334;
  change (Calendar.table Calendar.DAYS_IN_MONTH 12) with 31;
  change (2 <? 12) with true; change (3 =? 3) with true;
  change (12 =? 2) with false; change (24 =? 24) with true;
  cbn [andb orb negb Calendar.b2z].

Ltac split_eqb :=
  repeat match goal with
         | |- context [?a =? ?b] => destruct (Z.eqb_spec a b)
         end.

(** A year written in 400-, 100-, 4- and 1-year cycles is a leap year
    when it is the fourth of its 4-year cycle and that cycle is not the
    last of its century or the century is the last of its 400 years. *)
Lemma is_leap_cycles (q400 q100 q4 q1 : Z) :
  0 <= q100 < 4 -> 0 <= q4 < 25 -> 0 <= q1 < 4 ->
  Calendar.is_leap (q400 * 400 + 1 + q100 * 100 + q4 * 4 + q1)
  = (q1 =? 3) && (negb (q4 =? 24) || (q100 =? 3)).
Proof.
  intros H100 H4 H1. unfold Calendar.is_leap.
  split_eqb; cbn [andb orb negb]; try reflexivity; exfalso;
    Z.div_mod_to_equations; lia.
Qed.

Lemma days_before_year_cycles (q400 q100 q4 q1 : Z) :
  0 <= q100 < 4 -> 0 <= q4 < 25 -> 0 <= q1 < 4 ->
  Calendar.days_before_year (q400 * 400 + 1 + q100 * 100 + q4 * 4 + q1)
  = 146097 * q400 + 36524 * q100 + 1461 * q4 + 365 * q1.
Proof.
  intros H100 H4 H1. unfold Calendar.days_before_year.
  Z.div_mod_to_equations. lia.
Qed.

(** The date of an ordinal is a date of the calendar, and its ordinal
    is the one it came from. *)
Theorem ord2ymd_ymd2ord (n : Z) :
  1 <= n ->
  let '(y, m, d) := Calendar.ord2ymd n in
  Calendar.ymd2ord y m d = n /\
  1 <= y /\ 1 <= m <= 12 /\ 1 <= d <= days_in_month y m.
Proof.
  intros Hn. unfold Calendar.ord2ymd.
  change Calendar.DI400Y with 146097. change Calendar.DI100Y with 36524.
  change Calendar.DI4Y with 1461.
  pose proof (Z.div_mod (n - 1) 146097 ltac:(lia)) as D400.
  pose proof (Z.mod_pos_bound (n - 1) 146097 ltac:(lia)) as B400.
  assert (0 <= (n - 1) / 146097) as P400 by (apply Z.div_pos; lia).
  set (q400 := (n - 1) / 146097) in *. set (r400 := (n - 1) mod 146097) in *.
  pose proof (Z.div_mod r400 36524 ltac:(lia)) as D100.
  pose proof (Z.mod_pos_bound r400 36524 ltac:(lia)) as B100.
  assert (0 <= r400 / 36524) as P100 by (apply Z.div_pos; lia).
  set (q100 := r400 / 36524) in *. set (r100 := r400 mod 36524) in *.
  pose proof (Z.div_mod r100 1461 ltac:(lia)) as D4.
  pose proof (Z.mod_pos_bound r100 1461 ltac:(lia)) as B4.
  assert (0 <= r100 / 1461) as P4 by (apply Z.div_pos; lia).
  set (q4 := r100 / 1461) in *. set (r4 := r100 mod 1461) in *.
  pose proof (Z.div_mod r4 365 ltac:(lia)) as D1.
  pose proof (Z.mod_pos_bound r4 365 ltac:(lia)) as B1.
  assert (0 <= r4 / 365) as P1 by (apply Z.div_pos; lia).
  set (q1 := r4 / 365) in *. set (r1 := r4 mod 365) in *.
  clearbody q400 r400 q100 r100 q4 r4 q1 r1.
  destruct (Z.eqb_spec q1 4) as [E1|E1]; [|destruct (Z.eqb_spec q100 4) as [E100|E100]];
    cbn [orb].
  - (* the last day of a leap year that ends a 4-year cycle *)
    assert (Hq4 : q4 < 24) by lia. assert (Hq100 : q100 < 4) by lia.
    replace (q400 * 400 + 1 + q100 * 100 + q4 * 4 + q1 - 1)
      with (q400 * 400 + 1 + q100 * 100 + q4 * 4 + 3) by lia.
    unfold Calendar.ymd2ord, Calendar.days_before_month, days_in_month.
    rewrite is_leap_cycles, days_before_year_cycles by lia.
    replace (q4 =? 24) with false by (symmetry; apply Z.eqb_neq; lia).
    december. lia.
  - (* the last day of a year that ends a 400-year cycle *)
    assert (q4 = 0 /\ q1 = 0) as [-> ->] by lia.
    replace (q400 * 400 + 1 + q100 * 100 + 0 * 4 + 0 - 1)
      with (q400 * 400 + 1 + 3 * 100 + 24 * 4 + 3) by lia.
    unfold Calendar.ymd2ord, Calendar.days_before_month, days_in_month.
    rewrite is_leap_cycles, days_before_year_cycles by lia.
    december. lia.
  - assert (Hq1 : q1 < 4) by lia. assert (Hq100 : q100 < 4) by lia.
    assert (Hq4 : q4 < 25) by lia.
    pose proof (month_day_spec r1
                  ((q1 =? 3) && (negb (q4 =? 24) || (q100 =? 3))) B1) as M.
    destruct (Calendar.month_day r1 ((q1 =? 3) && (negb (q4 =? 24) || (q100 =? 3))))
      as [m d].
    unfold Calendar.ymd2ord, Calendar.days_before_month, days_in_month.
    rewrite is_leap_cycles, days_before_year_cycles by lia.
    lia.
Qed.

(** ** Comparison of floats *)

Lemma SFcompare_antisym (x y : spec_float) :
  SFcompare y x = option_map CompOpp (SFcompare x y).
Proof.
  destruct x as [sx|sx| |sx mx ex], y as [sy|sy| |sy my ey]; simpl;
    try reflexivity;
    try (destruct sx; reflexivity); try (destruct sy; reflexivity);
    try (destruct sx, sy; reflexivity).
  destruct sx, sy; try reflexivity;
    rewrite (Z.compare_antisym ex ey);
    destruct (ex ?= ey); simpl; try reflexivity;
    rewrite (Pos.compare_cont_antisym mx my Eq); simpl;
    destruct (Pos.compare_cont Eq mx my); reflexivity.
Qed.

Lemma SFcompare_None (x y : spec_float) :
  SFcompare x y = None -> x = S754_nan \/ y = S754_nan.
Proof.
  destruct x as [sx|sx| |sx mx ex], y as [sy|sy| |sy my ey]; simpl; auto;
    discriminate.
Qed.

Lemma SFcompare_refl (x : spec_float) :
  x <> S754_nan -> SFcompare x x = Some Eq.
Proof.
  destruct x as [sx|sx| |sx mx ex]; simpl; intros H;
    try reflexivity; try (destruct sx; reflexivity); try congruence.
  rewrite Z.compare_refl.
  assert (Pos.compare_cont Eq mx mx = Eq) by apply Pos.compare_refl.
  destruct sx; rewrite H0; reflexivity.
Qed.

Lemma is_nan_false (x : float) : is_nan x = false -> Prim2SF x <> S754_nan.
Proof.
  unfold is_nan. rewrite eqb_spec. unfold SFeqb. intros H E.
  rewrite E in H. discriminate H.
Qed.

Lemma float_eqb_sym (x y : float) : (x =? y)%float = (y =? x)%float.
Proof.
  rewrite !eqb_spec. unfold SFeqb.
  rewrite (SFcompare_antisym (Prim2SF x) (Prim2SF y)).
  destruct (SFcompare (Prim2SF x) (Prim2SF y)) as [[]|]; reflexivity.
Qed.

Lemma float_ltb_leb (x y : float) : (x <? y)%float = true -> (x <=? y)%float = true.
Proof.
  rewrite ltb_spec, leb_spec. unfold SFltb, SFleb.
  destruct (SFcompare (Prim2SF x) (Prim2SF y)) as [[]|]; congruence.
Qed.

Lemma float_eqb_leb (x y : float) : (x =? y)%float = true -> (x <=? y)%float = true.
Proof.
  rewrite eqb_spec, leb_spec. unfold SFeqb, SFleb.
  destruct (SFcompare (Prim2SF x) (Prim2SF y)) as [[]|]; congruence.
Qed.

(** Two floats that are not NaN are equal or one is below the other. *)
Lemma float_trichotomy (x y : float) :
  is_nan x = false -> is_nan y = false ->
  (x =? y)%float = false -> (x <? y)%float = false -> (y <? x)%float = true.
Proof.
  intros Hx%is_nan_false Hy%is_nan_false.
  rewrite eqb_spec, !ltb_spec. unfold SFeqb, SFltb.
  rewrite (SFcompare_antisym (Prim2SF x) (Prim2SF y)).
  destruct (SFcompare (Prim2SF x) (Prim2SF y)) as [[]|] eqn:E; simpl;
    try congruence.
  apply SFcompare_None in E. tauto.
Qed.

(** A NaN is neither below, nor equal to, nor above anything. *)
Lemma float_nan_compare (x y : float) :
  is_nan x = true ->
  (x <? y)%float = false /\ (y <? x)%float = false /\ (x =? y)%float = false /\
  (y =? x)%float = false /\ (x <=? y)%float = false /\ (y <=? x)%float = false.
Proof.
  unfold is_nan. rewrite !eqb_spec, !ltb_spec, !leb_spec.
  unfold SFeqb, SFltb, SFleb. intros H.
  assert (E : Prim2SF x = S754_nan).
  { destruct (Prim2SF x) as [s|s| |s m e] eqn:Ex; try reflexivity;
      rewrite SFcompare_refl in H by congruence; discriminate H. }
  rewrite E. simpl. destruct (Prim2SF y); repeat split; reflexivity.
Qed.

(** ** The sort *)

Lemma key_lt_true (x y : row) : key_lt x y = true -> desc_ok y x = true.
Proof.
  unfold key_lt, desc_ok. intros H.
  destruct (km x =? km y)%float eqn:Ek; simpl in H.
  - destruct (elev x =? elev y)%float eqn:Ee; simpl in H; [discriminate|].
    rewrite float_eqb_sym, Ek, (float_ltb_leb _ _ H). simpl.
    apply orb_true_r.
  - now rewrite H.
Qed.

Lemma key_lt_false (x y : row) :
  ordered_keys x = true -> ordered_keys y = true ->
  key_lt x y = false -> desc_ok x y = true.
Proof.
  unfold ordered_keys, key_lt, desc_ok.
  intros [Hkx Hex]%andb_prop [Hky Hey]%andb_prop H.
  apply negb_true_iff in Hkx, Hex, Hky, Hey.
  destruct (km x =? km y)%float eqn:Ek; simpl in H |- *.
  - rewrite orb_true_iff. right.
    destruct (elev x =? elev y)%float eqn:Ee; simpl in H.
    + apply float_eqb_leb. now rewrite float_eqb_sym.
    + apply float_ltb_leb. now apply float_trichotomy.
  - now rewrite (float_trichotomy _ _ Hkx Hky Ek H).
Qed.

Lemma insert_desc_perm (x : row) (l : list row) :
  Permutation (insert_desc x l) (x :: l).
Proof.
  induction l as [|y l IH]; simpl; [reflexivity|].
  destruct (key_lt x y); [|reflexivity].
  rewrite IH. apply perm_swap.
Qed.

Lemma sort_desc_perm (l : list row) : Permutation (sort_desc l) l.
Proof.
  induction l as [|x l IH]; simpl; [reflexivity|].
  rewrite insert_desc_perm. now constructor.
Qed.

Lemma sorted_desc_cons (a b : row) (l : list row) :
  sorted_desc (a :: b :: l) = desc_ok a b && sorted_desc (b :: l).
Proof. reflexivity. Qed.

Lemma insert_desc_sorted (x : row) (l : list row) :
  ordered_keys x = true -> forallb ordered_keys l = true ->
  sorted_desc l = true -> sorted_desc (insert_desc x l) = true.
Proof.
  intros Hx. induction l as [|y l IH]; intros Hl Hs; [reflexivity|].
  simpl in Hl. apply andb_prop in Hl as [Hy Hl].
  cbn [insert_desc]. destruct (key_lt x y) eqn:E.
  - assert (Hs' : sorted_desc l = true).
    { destruct l; [reflexivity|]. rewrite sorted_desc_cons in Hs.
      now apply andb_prop in Hs. }
    specialize (IH Hl Hs').
    destruct l as [|z l].
    + simpl. now rewrite (key_lt_true _ _ E).
    + cbn [insert_desc] in *. destruct (key_lt x z) eqn:E2.
      * rewrite sorted_desc_cons, IH.
        rewrite sorted_desc_cons in Hs. apply andb_prop in Hs as [Hyz _].
        now rewrite Hyz.
      * rewrite sorted_desc_cons, IH. now rewrite (key_lt_true _ _ E).
  - rewrite sorted_desc_cons, Hs. now rewrite (key_lt_false _ _ Hx Hy E).
Qed.

Lemma forallb_perm {A} (f : A -> bool) (l l' : list A) :
  Permutation l l' -> forallb f l = forallb f l'.
Proof.
  induction 1; simpl; try congruence.
  - now rewrite !andb_assoc, (andb_comm (f y)).
Qed.

Lemma sort_desc_sorted (l : list row) :
  forallb ordered_keys l = true -> sorted_desc (sort_desc l) = true.
Proof.
  induction l as [|x l IH]; intros H; [reflexivity|].
  simpl in H |- *. apply andb_prop in H as [Hx Hl].
  apply insert_desc_sorted; auto.
  now rewrite (forallb_perm _ _ _ (sort_desc_perm l)).
Qed.

(** ** The dictionary *)

Lemma key_eqb_eq (a b : option Z) : key_eqb a b = true <-> a = b.
Proof.
  destruct a as [x|], b as [y|]; simpl; split; intros H;
    try congruence; try reflexivity.
  - apply Z.eqb_eq in H. congruence.
  - apply Z.eqb_eq. congruence.
Qed.

Lemma key_eqb_refl (a : option Z) : key_eqb a a = true.
Proof. now apply key_eqb_eq. Qed.

Lemma key_eqb_sym (a b : option Z) : key_eqb a b = key_eqb b a.
Proof.
  destruct (key_eqb a b) eqn:E1, (key_eqb b a) eqn:E2; try reflexivity.
  - apply key_eqb_eq in E1. subst. now rewrite key_eqb_refl in E2.
  - apply key_eqb_eq in E2. subst. now rewrite key_eqb_refl in E1.
Qed.

Lemma key_eqb_left (a b c : option Z) :
  key_eqb a b = true -> key_eqb a c = key_eqb b c.
Proof. intros H%key_eqb_eq. now subst. Qed.

Lemma dict_mem_get (k : option Z) (d : athletes) :
  dict_mem k d = match dict_get k d with Some _ => true | None => false end.
Proof.
  induction d as [|[k' v] d IH]; simpl; [reflexivity|].
  destruct (key_eqb k k'); simpl; [reflexivity|exact IH].
Qed.

Lemma dict_get_set (k k' : option Z) (v : aggregate) (d : athletes) :
  dict_get k (dict_set k' v d)
  = if key_eqb k' k then Some v else dict_get k d.
Proof.
  induction d as [|[k0 v0] d IH]; simpl.
  - now rewrite (key_eqb_sym k k').
  - destruct (key_eqb k' k0) eqn:E0; simpl.
    + rewrite (key_eqb_left _ _ k E0), (key_eqb_sym k0 k).
      now destruct (key_eqb k k0).
    + rewrite IH. destruct (key_eqb k k0) eqn:E1; [|reflexivity].
      apply key_eqb_eq in E1. subst k0. now rewrite E0.
Qed.

Lemma dict_get_update (k k' : option Z) (f : aggregate -> aggregate) (d : athletes) :
  dict_get k (dict_update k' f d)
  = if key_eqb k' k then option_map f (dict_get k d) else dict_get k d.
Proof.
  induction d as [|[k0 v0] d IH]; simpl.
  - now destruct (key_eqb k' k).
  - destruct (key_eqb k' k0) eqn:E0; simpl.
    + rewrite (key_eqb_left _ _ k E0), (key_eqb_sym k0 k).
      now destruct (key_eqb k k0).
    + rewrite IH. destruct (key_eqb k k0) eqn:E1; [|reflexivity].
      apply key_eqb_eq in E1. subst k0. now rewrite E0.
Qed.

(** ** One pass of the loop *)

(** [accumulate] changes the aggregate under the activity's key, by
    [add_activity], and no other. *)
Lemma accumulate_get (d d' : athletes) (a : activity) (k : option Z) :
  accumulate d a = Ok d' ->
  if key_eqb (key_of a) k
  then exists v, add_activity (get (dict_get k d) (mkagg (name_of a) 0 0 0)) a = Ok v
                 /\ dict_get k d' = Some v
  else dict_get k d' = dict_get k d.
Proof.
  unfold accumulate, add_activity, dist_of, elev_of. fold (key_of a) (name_of a).
  destruct (py_float (get (distance a) (PyFloat 0))) as [x|e]; [|discriminate].
  destruct (py_float (get (total_elevation_gain a) (PyFloat 0))) as [y|e];
    [|discriminate].
  cbn [bind]. intros H. injection H as <-.
  rewrite !dict_get_update.
  destruct (key_eqb (key_of a) k) eqn:E.
  - rewrite dict_mem_get.
    apply key_eqb_eq in E. subst k.
    destruct (dict_get (key_of a) d) as [v0|] eqn:G; cbn [negb get].
    + rewrite G. eexists. split; reflexivity.
    + rewrite dict_get_set, key_eqb_refl. eexists. split; reflexivity.
  - destruct (negb (dict_mem (key_of a) d)); [|reflexivity].
    now rewrite dict_get_set, E.
Qed.

Lemma accumulate_ok (d : athletes) (a : activity) :
  is_ok (accumulate d a) = measurable a.
Proof.
  unfold accumulate, measurable, dist_of, elev_of.
  destruct (py_float (get (distance a) (PyFloat 0))); [|reflexivity].
  destruct (py_float (get (total_elevation_gain a) (PyFloat 0))); reflexivity.
Qed.

Lemma accumulate_all_ok (acts : list activity) (d : athletes) :
  is_ok (accumulate_all acts d) = forallb measurable acts.
Proof.
  revert d. induction acts as [|a acts IH]; intros d; [reflexivity|].
  simpl. rewrite <- (accumulate_ok d a).
  destruct (accumulate d a); simpl; [apply IH|reflexivity].
Qed.

(** After the loop the aggregate of athlete [k] is the fold of [k]'s
    activities, in their order, onto what [k] had before. *)
Lemma accumulate_all_get (acts : list activity) (d d' : athletes) (k : option Z) :
  accumulate_all acts d = Ok d' ->
  fold_from (dict_get k d) (group k acts) = Ok (dict_get k d').
Proof.
  revert d. induction acts as [|a acts IH]; intros d H; simpl in H.
  - injection H as <-. reflexivity.
  - destruct (accumulate d a) as [d1|e] eqn:E1; [|discriminate]. cbn [bind] in H.
    pose proof (accumulate_get _ _ _ k E1) as G.
    unfold group. cbn [filter]. fold (group k acts).
    destruct (key_eqb (key_of a) k).
    + destruct G as (v & Hv & Hd1). cbn [fold_from]. rewrite Hv. cbn [bind].
      rewrite <- Hd1. now apply IH.
    + rewrite <- G. now apply IH.
Qed.

(** The ride count of an aggregate is the number of activities folded. *)
Lemma fold_from_rides (g : list activity) (o o' : option aggregate) :
  fold_from o g = Ok o' ->
  match g with
  | [] => o' = o
  | _ :: _ =>
      exists v, o' = Some v /\
                agg_rides v = get (option_map agg_rides o) 0 + len g
  end.
Proof.
  revert o. induction g as [|a g IH]; intros o H; simpl in H.
  - congruence.
  - unfold add_activity in H.
    destruct (dist_of a) as [x|]; [|discriminate].
    destruct (elev_of a) as [y|]; [|discriminate]. cbn [bind] in H.
    specialize (IH _ H). destruct g as [|b g].
    + subst o'. eexists. split; [reflexivity|].
      destruct o; cbn; unfold len; simpl; lia.
    + destruct IH as (v & -> & Hr). exists v. split; [reflexivity|].
      rewrite Hr. unfold len. cbn [List.length option_map get agg_rides add_ride].
      destruct o; cbn [get option_map agg_rides add_ride add_elev add_dist]; lia.
Qed.

(** The name of an aggregate is that of the first activity folded. *)
Lemma fold_from_name (g : list activity) (o o' : option aggregate) :
  fold_from o g = Ok o' ->
  match g, o with
  | a :: _, None => exists v, o' = Some v /\ agg_name v = name_of a
  | _, _ => option_map agg_name o' = option_map agg_name o
  end.
Proof.
  assert (Keep : forall g o o', fold_from (Some o) g = Ok o' ->
                 option_map agg_name o' = Some (agg_name o)).
  { clear. induction g as [|a g IH]; intros o o' H; simpl in H.
    - injection H as <-. reflexivity.
    - unfold add_activity in H.
      destruct (dist_of a) as [x|]; [|discriminate].
      destruct (elev_of a) as [y|]; [|discriminate]. cbn [bind] in H.
      now rewrite (IH _ _ H). }
  intros H. destruct g as [|a g].
  - simpl in H. injection H as <-. now destruct o.
  - destruct o as [v0|].
    + now rewrite (Keep _ _ _ H).
    + simpl in H. unfold add_activity in H.
      destruct (dist_of a) as [x|]; [|discriminate].
      destruct (elev_of a) as [y|]; [|discriminate]. cbn [bind] in H.
      apply Keep in H. destruct o' as [v|]; [|discriminate].
      exists v. split; [reflexivity|]. simpl in H. congruence.
Qed.

Lemma filter_perm {A} (f : A -> bool) (l l' : list A) :
  Permutation l l' -> Permutation (filter f l) (filter f l').
Proof.
  induction 1; simpl.
  - constructor.
  - destruct (f x); [now constructor|assumption].
  - destruct (f x), (f y); try reflexivity. apply perm_swap.
  - etransitivity; eassumption.
Qed.

Section WindowFacts.

Variable iso : string -> result exn parsed.
Variable sys : datetime -> result exn Z.

(** The loop body on one activity: nothing when its start is outside
    the window, [accumulate] when inside. *)
Lemma visit_cases (s e : datetime) (d : athletes) (a : activity) :
  visit iso sys s e d a =
  match start_of iso sys a with
  | Raise x => Raise x
  | Ok _ => if contributes iso sys s e a then accumulate d a else Ok d
  end.
Proof.
  unfold visit, contributes, start_of, in_window.
  destruct (getitem "start_date" (start_date a)) as [t|x]; [|reflexivity].
  cbn [bind]. destruct (to_kst iso sys t) as [dt|x]; [|reflexivity].
  cbn [bind]. now destruct (dt_le s dt && dt_lt dt e).
Qed.

Lemma visit_ok (s e : datetime) (d : athletes) (a : activity) :
  is_ok (visit iso sys s e d a) = visitable iso sys s e a.
Proof.
  rewrite visit_cases. unfold visitable, contributes, in_window.
  destruct (start_of iso sys a) as [dt|x]; [|reflexivity].
  destruct (dt_le s dt && dt_lt dt e); [apply accumulate_ok|reflexivity].
Qed.

(** The loop raises nothing exactly when its body raises nothing on
    any activity, whatever their order. *)
Lemma aggregate_all_ok (s e : datetime) (acts : list activity) (d : athletes) :
  is_ok (aggregate_all iso sys s e acts d) = forallb (visitable iso sys s e) acts.
Proof.
  revert d. induction acts as [|a acts IH]; intros d; [reflexivity|].
  simpl. rewrite <- (visit_ok s e d a).
  destruct (visit iso sys s e d a); simpl; [apply IH|reflexivity].
Qed.

(** When it raises nothing, the loop is [accumulate_all] over the
    activities that start inside the window. *)
Lemma aggregate_all_filter (s e : datetime) (acts : list activity) (d d' : athletes) :
  aggregate_all iso sys s e acts d = Ok d' ->
  accumulate_all (filter (contributes iso sys s e) acts) d = Ok d'.
Proof.
  revert d. induction acts as [|a acts IH]; intros d H; simpl in H |- *.
  - exact H.
  - rewrite visit_cases in H.
    destruct (start_of iso sys a) as [dt|x]; [|discriminate].
    destruct (contributes iso sys s e a).
    + simpl. destruct (accumulate d a) as [d1|x]; [|discriminate].
      cbn [bind] in *. now apply IH.
    + cbn [bind] in H. now apply IH.
Qed.

Lemma aggregate_all_starts (s e : datetime) (acts : list activity) (d : athletes) :
  forallb (fun a => is_ok (start_of iso sys a)) acts = true ->
  aggregate_all iso sys s e acts d
  = accumulate_all (filter (contributes iso sys s e) acts) d.
Proof.
  revert d. induction acts as [|a acts IH]; intros d H; simpl in H |- *.
  - reflexivity.
  - apply andb_prop in H as [Ha H]. rewrite visit_cases.
    destruct (start_of iso sys a) as [dt|x]; [|discriminate].
    destruct (contributes iso sys s e a).
    + simpl. destruct (accumulate d a) as [d1|x]; [|reflexivity].
      cbn [bind]. now apply IH.
    + cbn [bind]. now apply IH.
Qed.

End WindowFacts.

(** ** The leaderboard *)

Lemma build_leaderboard_rows (iso : string -> result exn parsed)
  (sys : datetime -> result exn Z) (acts : list activity) (s e : datetime) (rows : list row) :
  build_leaderboard iso sys acts s e = Ok rows ->
  exists d, aggregate_all iso sys s e acts [] = Ok d /\
            rows = sort_desc (map (fun kv => row_of (snd kv)) d).
Proof.
  unfold build_leaderboard.
  destruct (aggregate_all iso sys s e acts []) as [d|x]; [|discriminate].
  cbn [bind]. intros H. injection H as <-. now exists d.
Qed.

(** C1, as amended: the rows [build_leaderboard] returns are in
    descending order of (km, elev), each row having more km than the
    next or as many km and at least its climb, whenever no km and no
    climb among them is a NaN. *)
Theorem build_leaderboard_sorted (iso : string -> result exn parsed)
  (sys : datetime -> result exn Z) (acts : list activity) (s e : datetime) (rows : list row) :
  build_leaderboard iso sys acts s e = Ok rows ->
  forallb ordered_keys rows = true ->
  sorted_desc rows = true.
Proof.
  intros (d & _ & ->)%build_leaderboard_rows Hk.
  apply sort_desc_sorted.
  now rewrite <- (forallb_perm _ _ _ (sort_desc_perm _)).
Qed.

(** The theorem on the three rides of two athletes: B's 20 km come
    before A's 15 km. *)
Lemma build_leaderboard_sorted_witness :
  build_leaderboard parse_iso utc_system three_rides week_start week_end
  = Ok [mkrow "B" 20 10 1; mkrow "A" 15 150 2] /\
  sorted_desc [mkrow "B" 20 10 1; mkrow "A" 15 150 2] = true.
Proof.
  assert (H : build_leaderboard parse_iso utc_system three_rides week_start week_end
              = Ok [mkrow "B" 20 10 1; mkrow "A" 15 150 2])
    by (vm_compute; reflexivity).
  split; [exact H|].
  apply (build_leaderboard_sorted parse_iso utc_system three_rides
           week_start week_end _ H).
  vm_compute; reflexivity.
Defined.

(** No list of two or more rows that holds a NaN for km is in order,
    however it is arranged. *)
Lemma nan_unsorted (l : list row) :
  (2 <= List.length l)%nat ->
  existsb (fun r => is_nan (km r)) l = true ->
  sorted_desc l = false.
Proof.
  induction l as [|a [|b l] IH]; simpl List.length; intros Hlen Hnan; try lia.
  rewrite sorted_desc_cons.
  destruct (is_nan (km a)) eqn:Ea.
  - unfold desc_ok.
    destruct (float_nan_compare (km a) (km b) Ea) as (_ & -> & -> & _).
    reflexivity.
  - destruct (is_nan (km b)) eqn:Eb.
    + unfold desc_ok.
      destruct (float_nan_compare (km b) (km a) Eb) as (-> & _ & _ & -> & _).
      reflexivity.
    + destruct l as [|c l].
      * simpl in Hnan. rewrite Ea, Eb in Hnan. discriminate.
      * rewrite IH; [apply andb_false_r|simpl; lia|].
        simpl in Hnan |- *. now rewrite Ea in Hnan.
Qed.

(** C1, as stated, fails when a distance is a NaN: the two rows come
    back with the NaN first, which is not above 1 km, and the other
    arrangement is out of order as well. *)
Lemma build_leaderboard_nan_unsorted :
  build_leaderboard parse_iso utc_system nan_rides week_start week_end
  = Ok [mkrow "A" nan 0 1; mkrow "B" 1 0 1] /\
  sorted_desc [mkrow "A" nan 0 1; mkrow "B" 1 0 1] = false /\
  sorted_desc [mkrow "B" 1 0 1; mkrow "A" nan 0 1] = false.
Proof.
  repeat split; vm_compute; reflexivity.
Qed.

(** C2: for every list of activities and every window,
    [build_leaderboard] aggregates exactly the activities whose start
    [t] at +09:00 has [start <= t < end]: the rows it returns are those
    of the loop run without window test on these activities alone, each
    athlete's aggregate being the fold of those of the athlete's
    activities; a start equal to [start] is inside a window that is not
    empty, and a start equal to [end] is outside. It returns rows
    exactly when the loop body raises on no activity. *)
Theorem build_leaderboard_window (iso : string -> result exn parsed)
  (sys : datetime -> result exn Z) (acts : list activity) (s e : datetime) :
  is_ok (build_leaderboard iso sys acts s e) = forallb (visitable iso sys s e) acts /\
  (forall rows, build_leaderboard iso sys acts s e = Ok rows ->
     exists d,
       accumulate_all (filter (contributes iso sys s e) acts) [] = Ok d /\
       rows = sort_desc (map (fun kv => row_of (snd kv)) d) /\
       forall k, fold_from None (group k (filter (contributes iso sys s e) acts))
                 = Ok (dict_get k d)) /\
  (forall a, In a (filter (contributes iso sys s e) acts) <->
     In a acts /\ exists t, start_of iso sys a = Ok t /\
                            dt_le s t = true /\ dt_lt t e = true) /\
  (forall a, start_of iso sys a = Ok s -> dt_lt s e = true ->
     contributes iso sys s e a = true) /\
  (forall a, start_of iso sys a = Ok e -> contributes iso sys s e a = false).
Proof.
  split; [|split; [|split; [|split]]].
  - rewrite <- (aggregate_all_ok iso sys s e acts []). unfold build_leaderboard.
    now destruct (aggregate_all iso sys s e acts []).
  - intros rows (d & Hd & ->)%build_leaderboard_rows.
    apply aggregate_all_filter in Hd. exists d.
    split; [exact Hd|]. split; [reflexivity|].
    intros k. now apply (accumulate_all_get _ [] d k).
  - intros a. rewrite filter_In. unfold contributes.
    split; intros [Hin H]; (split; [exact Hin|]).
    + destruct (start_of iso sys a) as [t|x]; [|discriminate].
      apply andb_prop in H. exists t. tauto.
    + destruct H as (t & -> & -> & ->). reflexivity.
  - intros a Ha Hlt. unfold contributes. now rewrite Ha, dt_le_refl, Hlt.
  - intros a Ha. unfold contributes. rewrite Ha, dt_lt_irrefl. apply andb_false_r.
Qed.

(** The theorem on four rides at the ends of the week: the ride at
    Monday 00:00:00 counts, the one a week later at 00:00:00 does not. *)
Lemma build_leaderboard_window_witness :
  build_leaderboard parse_iso utc_system boundary_rides week_start week_end
  = Ok [mkrow "C" 3 0 1; mkrow "B" 2 0 1] /\
  map (contributes parse_iso utc_system week_start week_end) boundary_rides
  = [false; true; true; false] /\
  exists d,
    accumulate_all
      (filter (contributes parse_iso utc_system week_start week_end) boundary_rides) []
    = Ok d /\
    (dict_get (Some 1) d, dict_get (Some 2) d)
    = (None, Some (mkagg "B" 2000 0 1)).
Proof.
  assert (Hb : build_leaderboard parse_iso utc_system boundary_rides
                 week_start week_end
               = Ok [mkrow "C" 3 0 1; mkrow "B" 2 0 1])
    by (vm_compute; reflexivity).
  split; [exact Hb|]. split; [vm_compute; reflexivity|].
  destruct (build_leaderboard_window parse_iso utc_system boundary_rides
              week_start week_end) as (_ & H & _).
  destruct (H _ Hb) as (d & Hd & _). exists d. split; [exact Hd|].
  vm_compute in Hd. injection Hd as <-. reflexivity.
Defined.

(** C7, as amended: for every permutation of the activities the loop
    raises nothing if it raised nothing before, every athlete has the
    same number of rides, and an athlete whose own in-window activities
    keep their relative order has the same aggregate: the same totals
    of distance and climb, bit for bit. *)
Theorem aggregate_all_permutation (iso : string -> result exn parsed)
  (sys : datetime -> result exn Z) (s e : datetime) (acts1 acts2 : list activity)
  (d1 : athletes) :
  Permutation acts1 acts2 ->
  aggregate_all iso sys s e acts1 [] = Ok d1 ->
  exists d2,
    aggregate_all iso sys s e acts2 [] = Ok d2 /\
    forall k,
      option_map agg_rides (dict_get k d1) = option_map agg_rides (dict_get k d2) /\
      (group k (filter (contributes iso sys s e) acts1)
       = group k (filter (contributes iso sys s e) acts2) ->
       dict_get k d1 = dict_get k d2).
Proof.
  intros Hp H1.
  assert (Hok : is_ok (aggregate_all iso sys s e acts2 []) = true).
  { rewrite aggregate_all_ok, <- (forallb_perm _ _ _ Hp),
      <- (aggregate_all_ok iso sys s e acts1 []).
    now rewrite H1. }
  destruct (aggregate_all iso sys s e acts2 []) as [d2|x] eqn:H2; [|discriminate].
  exists d2. split; [reflexivity|]. intros k.
  apply aggregate_all_filter in H1, H2.
  apply (accumulate_all_get _ [] d1 k) in H1.
  apply (accumulate_all_get _ [] d2 k) in H2.
  cbn [dict_get] in H1, H2.
  split.
  - assert (Hg : Permutation (group k (filter (contributes iso sys s e) acts1))
                             (group k (filter (contributes iso sys s e) acts2)))
      by (unfold group; now do 2 apply filter_perm).
    pose proof (Permutation_length Hg) as Hl.
    apply fold_from_rides in H1, H2.
    destruct (group k (filter (contributes iso sys s e) acts1)) as [|a1 g1],
             (group k (filter (contributes iso sys s e) acts2)) as [|a2 g2];
      try discriminate Hl.
    + congruence.
    + destruct H1 as (v1 & -> & R1), H2 as (v2 & -> & R2).
      cbn [option_map]. unfold len in *. rewrite R1, R2, Hl. reflexivity.
  - intros Hg. rewrite Hg in H1. congruence.
Qed.

(** The theorem on the three rides of one athlete, forwards and
    backwards: three rides either way. *)
Lemma aggregate_all_permutation_witness :
  Permutation rides_up rides_down /\
  exists d2,
    aggregate_all parse_iso utc_system week_start week_end rides_down [] = Ok d2 /\
    option_map agg_rides (dict_get (Some 1) d2) = Some 3.
Proof.
  assert (Hp : Permutation rides_up rides_down).
  { unfold rides_up, rides_down.
    eapply perm_trans; [apply perm_skip, perm_swap|].
    eapply perm_trans; [apply perm_swap|].
    apply perm_skip, perm_swap. }
  split; [exact Hp|].
  destruct (aggregate_all_permutation parse_iso utc_system week_start week_end
              rides_up rides_down _ Hp eq_refl) as (d2 & Hd2 & H).
  exists d2. split; [exact Hd2|].
  destruct (H (Some 1)) as [<- _]. vm_compute. reflexivity.
Defined.

(** C7, as stated, fails: the same three rides summed forwards and
    backwards give totals of distance that differ in the last bit, and
    so do the km of the two rows. *)
Lemma aggregate_all_order_matters :
  Permutation rides_up rides_down /\
  aggregate_all parse_iso utc_system week_start week_end rides_up []
  = Ok [(Some 1, mkagg "A" 0x1.d4c1333333334p+15 0 3)] /\
  aggregate_all parse_iso utc_system week_start week_end rides_down []
  = Ok [(Some 1, mkagg "A" 0x1.d4c1333333333p+15 0 3)] /\
  (0x1.d4c1333333334p+15 =? 0x1.d4c1333333333p+15)%float = false /\
  build_leaderboard parse_iso utc_system rides_up week_start week_end
  = Ok [mkrow "A" 0x1.e0013a92a3056p+5 0 3] /\
  build_leaderboard parse_iso utc_system rides_down week_start week_end
  = Ok [mkrow "A" 0x1.e0013a92a3055p+5 0 3] /\
  (0x1.e0013a92a3056p+5 =? 0x1.e0013a92a3055p+5)%float = false.
Proof.
  split.
  { unfold rides_up, rides_down.
    eapply perm_trans; [apply perm_skip, perm_swap|].
    eapply perm_trans; [apply perm_swap|].
    apply perm_skip, perm_swap. }
  repeat split; vm_compute; reflexivity.
Qed.

(** ** Strings *)

Lemma join_cons (sep x y : string) (l : list string) :
  join sep (x :: y :: l) = (x ++ sep ++ join sep (y :: l))%string.
Proof. reflexivity. Qed.

Lemma append_assoc (a b c : string) : ((a ++ b) ++ c = a ++ (b ++ c))%string.
Proof. induction a as [|x a IH]; simpl; [reflexivity|now rewrite IH]. Qed.

Lemma join_snoc (sep x : string) (l : list string) :
  l <> [] -> join sep (l ++ [x]) = (join sep l ++ sep ++ x)%string.
Proof.
  induction l as [|y l IH]; intros H; [congruence|].
  destruct l as [|z l].
  - reflexivity.
  - change ((y :: z :: l) ++ [x]) with (y :: z :: (l ++ [x])).
    rewrite !join_cons. change (z :: l ++ [x]) with ((z :: l) ++ [x]).
    rewrite IH by discriminate. now rewrite !append_assoc.
Qed.

Lemma all_chars_app (p : ascii -> bool) (a b : string) :
  all_chars p (a ++ b) = all_chars p a && all_chars p b.
Proof.
  induction a as [|c a IH]; simpl; [reflexivity|].
  now rewrite IH, andb_assoc.
Qed.

Lemma all_chars_weaken (p q : ascii -> bool) (s : string) :
  (forall c, p c = true -> q c = true) ->
  all_chars p s = true -> all_chars q s = true.
Proof.
  intros Hpq. induction s as [|c s IH]; simpl; [reflexivity|].
  intros [Hc Hs]%andb_prop. now rewrite (Hpq _ Hc), IH.
Qed.

Lemma string_of_uint_numeric (d : Decimal.uint) :
  all_chars numeric (NilEmpty.string_of_uint d) = true.
Proof. induction d; simpl; try reflexivity; exact IHd. Qed.

Lemma str_int_numeric (z : Z) : all_chars numeric (str_int z) = true.
Proof.
  unfold str_int, NilZero.string_of_int, NilZero.string_of_uint.
  destruct (Z.to_int z) as [d|d]; destruct d; simpl; try reflexivity;
    apply string_of_uint_numeric.
Qed.

Lemma two_digits_numeric (z : Z) : all_chars numeric (two_digits z) = true.
Proof.
  unfold two_digits. destruct (z <? 10); [|apply str_int_numeric].
  simpl. apply str_int_numeric.
Qed.

Lemma strftime_md_chars (p : ascii -> bool) (d : datetime) :
  (forall c, numeric c = true -> p c = true) -> p "/"%char = true ->
  all_chars p (strftime_md d) = true.
Proof.
  intros Hp Hs. unfold strftime_md.
  rewrite !all_chars_app. simpl. rewrite Hs.
  rewrite !(all_chars_weaken numeric p _ Hp) by apply two_digits_numeric.
  reflexivity.
Qed.

(** A needle whose first byte is no digit, minus or slash does not
    begin inside a date. *)
Lemma contains_skip (c : ascii) (needle s rest : string) :
  all_chars (fun a => negb (Ascii.eqb c a)) s = true ->
  contains (String c needle) (s ++ rest) = contains (String c needle) rest.
Proof.
  induction s as [|a s IH]; intros H; [reflexivity|].
  simpl in H. apply andb_prop in H as [Ha Hs].
  change (String a s ++ rest)%string with (String a (s ++ rest)).
  cbn [contains strip_prefix].
  apply negb_true_iff in Ha. rewrite Ha. now apply IH.
Qed.

Lemma first_line_app (h rest : string) :
  all_chars (fun a => negb (Ascii.eqb a "010")) h = true ->
  first_line (h ++ nl ++ rest) = h.
Proof.
  induction h as [|a h IH]; intros H; [reflexivity|].
  simpl in H. apply andb_prop in H as [Ha Hh].
  change (String a h ++ nl ++ rest)%string with (String a (h ++ nl ++ rest)).
  cbn [first_line]. apply negb_true_iff in Ha. rewrite Ha. now rewrite IH.
Qed.

Lemma numeric_not (c a : ascii) :
  numeric c = false -> numeric a = true -> negb (Ascii.eqb c a) = true.
Proof.
  intros Hc Ha. apply negb_true_iff. destruct (Ascii.eqb c a) eqn:E; [|reflexivity].
  apply Ascii.eqb_eq in E. congruence.
Qed.

Lemma header_one_line (s l : datetime) :
  all_chars (fun a => negb (Ascii.eqb a "010")) (header s l) = true.
Proof.
  unfold header. rewrite !all_chars_app.
  rewrite !strftime_md_chars; try reflexivity;
    intros c Hc; rewrite Ascii.eqb_sym; now apply numeric_not.
Qed.

(** ** The report *)

(** [d - timedelta(days=1)] is the day before, or raises at the first
    date of the calendar. *)
Lemma sub_days_1 (d : datetime) :
  match sub_days d 1 with
  | Ok d' => d' = day_before d
  | Raise x => x = OverflowError /\ ~ 1 < ordinal d <= Calendar.MAXORDINAL + 1
  end.
Proof.
  unfold sub_days, day_before.
  destruct ((0 <? ordinal d - 1) && (ordinal d - 1 <=? Calendar.MAXORDINAL)) eqn:E.
  - reflexivity.
  - split; [reflexivity|]. intros [H1 H2].
    assert ((0 <? ordinal d - 1) = true) as Ha by (apply Z.ltb_lt; lia).
    assert ((ordinal d - 1 <=? Calendar.MAXORDINAL) = true) as Hb
      by (apply Z.leb_le; lia).
    now rewrite Ha, Hb in E.
Qed.

Section ReportFacts.

Variable TOP_N : Z.
Variable format_f : nat -> float -> string.
Variable sum_float : list float -> float.

Lemma format_post_text_lines (s e : datetime) (lb : list row) :
  format_post_text TOP_N format_f sum_float s e lb
  = (last_day <- sub_days e 1 ;;
     Ok (join nl (header s last_day :: "" :: legend :: ""
                  :: body TOP_N format_f sum_float lb))).
Proof.
  unfold format_post_text. destruct (sub_days e 1) as [d|x]; [|reflexivity].
  cbn [bind]. unfold body, header, legend. destruct lb as [|r lb].
  - rewrite !append_assoc. reflexivity.
  - cbn [app]. rewrite <- !app_assoc. cbn [app]. rewrite !append_assoc. reflexivity.
Qed.

End ReportFacts.

Ltac numeric_chars :=
  apply (all_chars_weaken numeric);
  [intros ? ?; now apply numeric_not | apply two_digits_numeric].

(** Looks for a needle in a text made of literal pieces and dates. *)
Ltac scan :=
  repeat first
    [ rewrite contains_skip by numeric_chars
    | progress cbn [contains strip_prefix append Ascii.eqb Bool.eqb] ].

(** C4: for every window, when the leaderboard is empty the text
    returned is the header, the legend and the sentence that nothing
    was recorded, and ends there, with no TOP heading and no line of
    totals. The call raises only at the edge of the calendar, when the
    window's end has no day before it. *)
Theorem format_post_text_empty (TOP_N : Z) (format_f : nat -> float -> string)
  (sum_float : list float -> float) (s e : datetime) :
  match format_post_text TOP_N format_f sum_float s e [] with
  | Ok text =>
      text = join nl [header s (day_before e); ""; legend; "";
                      "지난주 기록된 활동이 없어요 🥲"] /\
      contains "🏆 TOP" text = false /\
      contains "📊 전체 합계" text = false
  | Raise x => x = OverflowError /\ ~ 1 < ordinal e <= Calendar.MAXORDINAL + 1
  end.
Proof.
  rewrite format_post_text_lines. pose proof (sub_days_1 e) as H.
  destruct (sub_days e 1) as [d|x]; cbn [bind]; [subst d|exact H].
  split; [reflexivity|].
  unfold body, header, legend, strftime_md, nl. cbn [join].
  rewrite !append_assoc.
  split; scan; reflexivity.
Qed.

(** The week of 2026-02-02 without activities. *)
Lemma format_post_text_empty_week :
  format_post_text 20 format_fixed sum_sequential week_start week_end []
  = Ok (join nl ["🏁 지난주 클럽 랭킹 (02/02(월) ~ 02/08(일))"; "";
                 "📌 기준: 거리(km) / 획득고도(m) / 횟수"; "";
                 "지난주 기록된 활동이 없어요 🥲"]).
Proof. vm_compute. reflexivity. Qed.

(** For a [TOP_N] that is not negative, [leaderboard[:TOP_N]] is the
    first [min(TOP_N, len(leaderboard))] rows. *)
Lemma slice_to_min {A} (n : Z) (l : list A) :
  0 <= n -> slice_to n l = firstn (Z.to_nat (Z.min n (len l))) l.
Proof.
  intros Hn. unfold slice_to, len.
  destruct (n <? 0) eqn:E; [apply Z.ltb_lt in E; lia|].
  destruct (Z.min_spec n (Z.of_nat (List.length l))) as [[Hlt ->]|[Hge ->]];
    [reflexivity|].
  rewrite Nat2Z.id, firstn_all. apply firstn_all2. lia.
Qed.

(** C5: for every window and every leaderboard that is not empty, the
    text returned ends with the line of totals, which carries the sums
    of km, of climb and of rides over every row and the number of rows,
    while the ranking above it lists only the rows
    [leaderboard[:TOP_N]], the first [min(TOP_N, len(leaderboard))]
    when [TOP_N] is not negative. The call raises only at the edge of
    the calendar, when the window's end has no day before it. *)
Theorem format_post_text_totals (TOP_N : Z) (format_f : nat -> float -> string)
  (sum_float : list float -> float) (s e : datetime) (r : row) (rest : list row) :
  let lb := r :: rest in
  match format_post_text TOP_N format_f sum_float s e lb with
  | Ok text =>
      text
      = (join nl ([header s (day_before e); ""; legend; "";
                   ("🏆 TOP " ++ str_int (Z.min TOP_N (len lb)))%string]
                  ++ ranking_lines format_f 1 (slice_to TOP_N lb) ++ [""])
         ++ nl
         ++ "📊 전체 합계: " ++ format_f 1%nat (sum_float (map km lb))
         ++ " km / " ++ format_f 0%nat (sum_float (map elev lb))
         ++ " m / " ++ str_int (sum_int (map rides lb))
         ++ "회 (참여 " ++ str_int (len lb) ++ "명)")%string /\
      (0 <= TOP_N ->
       slice_to TOP_N lb = firstn (Z.to_nat (Z.min TOP_N (len lb))) lb)
  | Raise x => x = OverflowError /\ ~ 1 < ordinal e <= Calendar.MAXORDINAL + 1
  end.
Proof.
  intros lb. rewrite format_post_text_lines. pose proof (sub_days_1 e) as H.
  destruct (sub_days e 1) as [d|x]; cbn [bind]; [subst d|exact H].
  split; [|apply slice_to_min].
  unfold body, lb. rewrite <- join_snoc by discriminate.
  cbn [app]. now rewrite <- !app_assoc.
Qed.

(** Three rows with [TOP_N = 1]: one row is ranked, and the totals are
    those of the three. *)
Lemma format_post_text_top_1 :
  format_post_text 1 format_fixed sum_sequential week_start week_end three_rows
  = Ok (join nl ["🏁 지난주 클럽 랭킹 (02/02(월) ~ 02/08(일))"; "";
                 "📌 기준: 거리(km) / 획득고도(m) / 횟수"; "";
                 "🏆 TOP 1";
                 " 1. B  |  20.0 km  |  10 m  |  1회";
                 "";
                 "📊 전체 합계: 40.0 km / 190 m / 7회 (참여 3명)"]).
Proof. vm_compute. reflexivity. Qed.

Lemma weekday_day_before (d : datetime) :
  weekday d = 0 -> weekday (day_before d) = 6.
Proof.
  unfold weekday, day_before. cbn [ordinal]. intros H.
  pose proof (Z.div_mod (ordinal d + 6) 7 ltac:(lia)) as D. rewrite H in D.
  replace (ordinal d - 1 + 6) with (6 + ((ordinal d + 6) / 7 - 1) * 7) by lia.
  now rewrite Z.mod_add by lia.
Qed.

(** A window that [last_week_range_kst] returns starts and ends on a
    Monday. *)
Lemma last_week_range_kst_mondays (now s e : datetime) :
  last_week_range_kst now = Ok (s, e) -> weekday s = 0 /\ weekday e = 0.
Proof.
  intros Hnow. unfold last_week_range_kst, sub_days in Hnow.
  destruct ((0 <? ordinal now - weekday now)
            && (ordinal now - weekday now <=? Calendar.MAXORDINAL)); [|discriminate].
  cbn [bind] in Hnow. unfold replace_midnight in Hnow. cbn [ordinal] in Hnow.
  destruct ((0 <? ordinal now - weekday now - 7)
            && (ordinal now - weekday now - 7 <=? Calendar.MAXORDINAL)); [|discriminate].
  cbn [bind] in Hnow. injection Hnow as <- <-.
  pose proof (monday_of_weekday now) as Hm. unfold monday_of in Hm.
  split; unfold weekday at 1; cbn [ordinal]; [|exact Hm].
  replace (ordinal now - weekday now - 7 + 6)
    with (ordinal now - weekday now + 6 + (-1) * 7) by lia.
  now rewrite Z.mod_add by lia.
Qed.

(** C8: the first line of the text returned names the window's start
    and the day before its end as MM/DD, each followed by a weekday in
    parentheses, 월 for the first and 일 for the second; for a time
    window, which starts and ends on a Monday as every window that
    [last_week_range_kst] returns does, these are the weekdays of the
    two dates. The call raises only at the edge of the calendar, when
    the window's end has no day before it. *)
Theorem format_post_text_header (TOP_N : Z) (format_f : nat -> float -> string)
  (sum_float : list float -> float) (s e : datetime) (lb : list row) :
  match format_post_text TOP_N format_f sum_float s e lb with
  | Ok text =>
      first_line text
      = ("🏁 지난주 클럽 랭킹 (" ++ strftime_md s ++ "(월) ~ "
         ++ strftime_md (day_before e) ++ "(일))")%string /\
      (weekday s = 0 -> weekday e = 0 ->
       first_line text = header_with_weekdays s (day_before e)) /\
      (forall now, last_week_range_kst now = Ok (s, e) ->
       first_line text = header_with_weekdays s (day_before e))
  | Raise x => x = OverflowError /\ ~ 1 < ordinal e <= Calendar.MAXORDINAL + 1
  end.
Proof.
  rewrite format_post_text_lines. pose proof (sub_days_1 e) as H.
  destruct (sub_days e 1) as [d|x]; cbn [bind]; [subst d|exact H].
  rewrite join_cons, first_line_app by apply header_one_line.
  assert (Hmon : weekday s = 0 -> weekday e = 0 ->
                 header s (day_before e) = header_with_weekdays s (day_before e)).
  { intros Hs He. unfold header_with_weekdays.
    rewrite Hs, (weekday_day_before _ He). reflexivity. }
  split; [reflexivity|]. split; [exact Hmon|].
  intros now [Hs He]%last_week_range_kst_mondays. now apply Hmon.
Qed.

(** The theorem on the window computed on Wednesday 2026-02-11, the
    week of Monday 2026-02-02. *)
Lemma format_post_text_header_witness :
  last_week_range_kst (kst 2026 2 11 9 30 0 0) = Ok (week_start, week_end) /\
  option_map first_line
    (match format_post_text 20 format_fixed sum_sequential
             week_start week_end three_rows with
     | Ok text => Some text
     | Raise _ => None
     end)
  = Some (header_with_weekdays week_start (day_before week_end)) /\
  header_with_weekdays week_start (day_before week_end)
  = "🏁 지난주 클럽 랭킹 (02/02(월) ~ 02/08(일))".
Proof.
  assert (Hw : last_week_range_kst (kst 2026 2 11 9 30 0 0)
               = Ok (week_start, week_end)) by (vm_compute; reflexivity).
  split; [exact Hw|]. split; [|vm_compute; reflexivity].
  pose proof (format_post_text_header 20 format_fixed sum_sequential
                week_start week_end three_rows) as H.
  destruct (format_post_text 20 format_fixed sum_sequential
              week_start week_end three_rows) as [text|x].
  - destruct H as (_ & _ & H). cbn [option_map]. f_equal. exact (H _ Hw).
  - destruct H as (_ & H). exfalso. apply H. ground.
Defined.

Lemma dict_get_In (k : option Z) (v : aggregate) (d : athletes) :
  dict_get k d = Some v -> exists k', In (k', v) d.
Proof.
  induction d as [|[k0 v0] d IH]; simpl; [discriminate|].
  destruct (key_eqb k k0).
  - intros H. injection H as ->. exists k0. now left.
  - intros H. destruct (IH H) as (k' & Hin). exists k'. now right.
Qed.

(** C10, as amended: when no activity raises for another reason, an
    in-window activity without athlete object or without athlete id
    raises nothing and is not skipped; it is counted in the single
    aggregate kept under [None], whose rides are all such activities,
    whose name is that of the first of them, [athlete_None] when that
    first one has no name, and whose row is among the rows returned. *)
Theorem build_leaderboard_anonymous (iso : string -> result exn parsed)
  (sys : datetime -> result exn Z) (acts : list activity) (s e : datetime) (a : activity) :
  forallb (visitable iso sys s e) acts = true ->
  In a acts -> contributes iso sys s e a = true -> key_of a = None ->
  exists rows v first rest,
    build_leaderboard iso sys acts s e = Ok rows /\
    group None (filter (contributes iso sys s e) acts) = first :: rest /\
    In a (first :: rest) /\
    fold_from None (first :: rest) = Ok (Some v) /\
    agg_rides v = len (first :: rest) /\
    agg_name v = name_of first /\
    (strip (get (firstname (get (athlete first) no_athlete)) ""
            ++ " " ++ get (lastname (get (athlete first) no_athlete)) "")
     = EmptyString -> agg_name v = "athlete_None") /\
    In (row_of v) rows.
Proof.
  intros Hvis Hin Hc Hk.
  destruct (aggregate_all iso sys s e acts []) as [d|x] eqn:Hd.
  2:{ pose proof (aggregate_all_ok iso sys s e acts []) as Hok.
      rewrite Hd, Hvis in Hok. discriminate. }
  assert (Hg : In a (group None (filter (contributes iso sys s e) acts))).
  { unfold group. rewrite !filter_In. repeat split; try assumption.
    now apply key_eqb_eq. }
  pose proof (accumulate_all_get _ [] d None (aggregate_all_filter _ _ _ _ _ _ _ Hd))
    as Hfold.
  cbn [dict_get] in Hfold.
  destruct (group None (filter (contributes iso sys s e) acts)) as [|first rest] eqn:G;
    [contradiction|].
  pose proof (fold_from_rides _ _ _ Hfold) as (v & Hv & Hr).
  pose proof (fold_from_name _ _ _ Hfold) as (v' & Hv' & Hn).
  assert (v' = v) as -> by congruence. clear Hv'.
  exists (sort_desc (map (fun kv => row_of (snd kv)) d)), v, first, rest.
  split; [unfold build_leaderboard; now rewrite Hd|].
  split; [reflexivity|]. split; [exact Hg|].
  split; [congruence|].
  split; [rewrite Hr; cbn; lia|].
  split; [exact Hn|].
  split.
  - intros Hempty. rewrite Hn. unfold name_of, display_name. rewrite Hempty.
    cbn [str_or]. assert (Hkf : key_of first = None).
    { assert (Hf : In first (group None (filter (contributes iso sys s e) acts)))
        by (rewrite G; now left).
      unfold group in Hf. apply filter_In in Hf as [_ Hf]. now apply key_eqb_eq. }
    unfold key_of in Hkf. now rewrite Hkf.
  - destruct (dict_get_In _ _ _ Hv) as (k' & Hin').
    apply (Permutation_in _ (Permutation_sym (sort_desc_perm _))).
    apply in_map_iff. now exists (k', v).
Qed.

(** The theorem on one ride without athlete object. *)
Lemma build_leaderboard_anonymous_witness :
  exists rows v,
    build_leaderboard parse_iso utc_system nameless_ride week_start week_end
    = Ok rows /\
    agg_name v = "athlete_None" /\ In (row_of v) rows.
Proof.
  destruct (build_leaderboard_anonymous parse_iso utc_system nameless_ride
              week_start week_end
              (ride "2026-02-04T01:00:00Z" None 2000 20))
    as (rows & v & first & rest & Hb & Hg & _ & _ & _ & _ & Hname & Hin);
    [reflexivity|now left|reflexivity|reflexivity|].
  exists rows, v. split; [exact Hb|]. split; [|exact Hin].
  apply Hname. vm_compute in Hg. injection Hg as <- <-. reflexivity.
Defined.

(** C10, as stated, fails when a named activity without id comes
    first: the second ride has no athlete object, so no names, and is
    in the window, yet the one row that pools both is named after the
    first ride and no row is named [athlete_None]. *)
Lemma build_leaderboard_anonymous_named :
  map (contributes parse_iso utc_system week_start week_end) anonymous_rides
  = [true; true] /\
  map key_of anonymous_rides = [None; None] /\
  map name_of anonymous_rides = ["Kim R."; "athlete_None"] /\
  build_leaderboard parse_iso utc_system anonymous_rides week_start week_end
  = Ok [mkrow "Kim R." 3 30 2].
Proof.
  repeat split; vm_compute; reflexivity.
Qed.

(** ** [post_to_band] *)

(** C6, as amended: [post_to_band] sends one request and passes on an
    exception of the request itself; given a response, it raises
    exactly when the status is 4xx or 5xx or the response is not a JSON
    object whose [result_code] equals 1; a 2xx response whose
    [result_code] is another value or absent raises a [RuntimeError]
    that carries the decoded payload, and a 2xx response whose
    [result_code] is 1 returns the decoded payload. *)
Theorem post_to_band_spec (token key : string) (band : server json)
  (text : string) (log : list request) :
  let res := fst (post_to_band token key band text log) in
  snd (post_to_band token key band text log) = log ++ [band_request token key text] /\
  match band log (band_request token key text) with
  | Raise x => res = Raise x
  | Ok r =>
      (is_ok res = false <->
       400 <= status_code r < 600 \/ has_result_code_1 r = false) /\
      (forall j, res = Ok j -> payload r = Some j) /\
      (is_2xx (status_code r) = true ->
       forall members, payload r = Some (JObj members) ->
         ne_1 (lookup "result_code" members) = true ->
         res = Raise (RuntimeError "BAND API error: " (JObj members))) /\
      (is_2xx (status_code r) = true -> has_result_code_1 r = true ->
       is_ok res = true)
  end.
Proof.
  unfold post_to_band, send. fold (band_request token key text).
  cbn [fst snd]. split; [reflexivity|].
  destruct (band log (band_request token key text)) as [r|x]; [|reflexivity].
  cbn [bind]. unfold raise_for_status, json_of, has_result_code_1, is_2xx.
  destruct ((400 <=? status_code r) && (status_code r <? 600)) eqn:E;
    cbn [bind is_ok].
  - apply andb_prop in E as [E1%Z.leb_le E2%Z.ltb_lt].
    repeat split; try discriminate; try tauto; try lia.
  - assert (Hs : ~ 400 <= status_code r < 600).
    { intros [H1%Z.leb_le H2%Z.ltb_lt]. now rewrite H1, H2 in E. }
    destruct (payload r) as [[| | | | | |members]|] eqn:P; cbn [bind is_ok];
      try (repeat split; try discriminate; try tauto; fail).
    destruct (ne_1 (lookup "result_code" members)) eqn:N; cbn [is_ok negb].
    + repeat split; try discriminate; try tauto.
      intros _ m Hm _. now injection Hm as <-.
    + repeat split; try discriminate; try tauto; try congruence.
Qed.

(** The theorem on a 200 response: [result_code] 1 returns the
    payload, [result_code] 0 raises with it. *)
Lemma post_to_band_spec_witness :
  fst (post_to_band "token" "key" (band_always 200 (code (JInt 0))) "text" [])
  = Raise (RuntimeError "BAND API error: " (JObj [("result_code", JInt 0)])) /\
  is_ok (fst (post_to_band "token" "key" (band_always 200 (code (JInt 1))) "text" []))
  = true.
Proof.
  split.
  - destruct (post_to_band_spec "token" "key" (band_always 200 (code (JInt 0)))
                "text" []) as (_ & _ & _ & H & _).
    apply H; reflexivity.
  - destruct (post_to_band_spec "token" "key" (band_always 200 (code (JInt 1)))
                "text" []) as (_ & _ & _ & _ & H).
    apply H; reflexivity.
Defined.

(** C6, as stated, fails on a response that is not 2xx and not an
    error status either: with status 300 and [result_code] 1 nothing
    is raised and the payload is returned. *)
Lemma post_to_band_status_300 :
  is_2xx 300 = false /\
  fst (post_to_band "token" "key" (band_always 300 (code (JInt 1))) "text" [])
  = Ok (JObj [("result_code", JInt 1)]).
Proof.
  split; reflexivity.
Qed.

(** ** [fetch_club_activities] *)

Section FetchFacts.

Variable club : string.
Variable strava : server (list activity).
Variable access_token : string.
Variable per_page : Z.
Variable log : list request.

Lemma range_seq (m : Z) :
  range 1 (m + 1) = map (fun i => 1 + Z.of_nat i) (seq 0 (Z.to_nat m)).
Proof. unfold range. now rewrite Z.add_simpl_r. Qed.

Lemma pages_upto_seq (n : nat) :
  pages_upto club access_token per_page n
  = map (fun i => page_request club access_token per_page (1 + Z.of_nat i)) (seq 0 n).
Proof.
  unfold pages_upto. now rewrite range_seq, Nat2Z.id, map_map.
Qed.

Lemma pages_upto_S (n : nat) :
  pages_upto club access_token per_page (S n)
  = pages_upto club access_token per_page n
    ++ [page_request club access_token per_page (1 + Z.of_nat n)].
Proof. now rewrite !pages_upto_seq, seq_S, map_app. Qed.

Lemma pages_upto_0 : pages_upto club access_token per_page 0 = [].
Proof. reflexivity. Qed.

(** The loop from page [j + 1] on, [k] pages to go. *)
Lemma fetch_pages_run (k j : nat) (acts0 : list activity) :
  exists (n : nat) (batches : list (list activity)),
    (n <= k)%nat /\
    snd (fetch_pages strava (activities_url club)
           [("Authorization", ("Bearer " ++ access_token)%string)] per_page
           (map (fun i => 1 + Z.of_nat i) (seq j k)) acts0
           (log ++ pages_upto club access_token per_page j))
    = log ++ pages_upto club access_token per_page (j + n) /\
    (forall i, (i < List.length batches)%nat ->
       page_reply club access_token per_page strava log (j + i)
       = Ok (nth i batches []) /\ nth i batches [] <> []) /\
    match fst (fetch_pages strava (activities_url club)
                 [("Authorization", ("Bearer " ++ access_token)%string)] per_page
                 (map (fun i => 1 + Z.of_nat i) (seq j k)) acts0
                 (log ++ pages_upto club access_token per_page j)) with
    | Ok acts =>
        acts = acts0 ++ List.concat batches /\
        ((n = List.length batches /\ n = k) \/
         (n = S (List.length batches) /\
          page_reply club access_token per_page strava log (j + List.length batches)
          = Ok []))
    | Raise x =>
        n = S (List.length batches) /\
        page_reply club access_token per_page strava log (j + List.length batches)
        = Raise x
    end.
Proof.
  revert j acts0. induction k as [|k IH]; intros j acts0.
  - exists O, []. cbn. rewrite Nat.add_0_r, app_nil_r. repeat split; lia.
  - cbn [seq map fetch_pages]. unfold fetch_page, send.
    rewrite <- app_assoc.
    fold (page_request club access_token per_page (1 + Z.of_nat j)).
    rewrite <- pages_upto_S.
    fold (reply (strava (log ++ pages_upto club access_token per_page j)
                   (page_request club access_token per_page (1 + Z.of_nat j)))).
    fold (page_reply club access_token per_page strava log j).
    destruct (page_reply club access_token per_page strava log j)
      as [[|b0 bs]|x] eqn:R.
    + exists 1%nat, []. cbn. rewrite Nat.add_0_r, Nat.add_1_r, app_nil_r.
      repeat split; try lia. right. now split.
    + destruct (IH (S j) (acts0 ++ b0 :: bs)) as (n & batches & Hn & Hlog & Hb & Hres).
      exists (S n), ((b0 :: bs) :: batches).
      split; [lia|]. split; [now rewrite Hlog, Nat.add_succ_r|]. split.
      * intros [|i] Hi; cbn [nth].
        -- rewrite Nat.add_0_r. split; [exact R|discriminate].
        -- rewrite Nat.add_succ_r. apply Hb. cbn in Hi. lia.
      * destruct (fst (fetch_pages strava (activities_url club)
                         [("Authorization", ("Bearer " ++ access_token)%string)]
                         per_page (map (fun i => 1 + Z.of_nat i) (seq (S j) k))
                         (acts0 ++ b0 :: bs)
                         (log ++ pages_upto club access_token per_page (S j))))
          as [acts|x]; cbn [List.length List.concat].
        -- destruct Hres as (-> & Hend). split; [now rewrite <- app_assoc|].
           rewrite Nat.add_succ_r. destruct Hend as [[-> ->]|[-> Hr]]; [now left|].
           right. now split.
        -- rewrite Nat.add_succ_r. destruct Hres as (-> & Hr). now split.
    + exists 1%nat, []. cbn. rewrite Nat.add_0_r, Nat.add_1_r. now repeat split; try lia.
Qed.

End FetchFacts.

(** C9: [fetch_club_activities] sends the requests for pages 1 to [n]
    and no other, [n] being at most [max_pages]; every batch before
    the last request was received and not empty; the call returns
    their concatenation in that order when it stopped at the page cap
    or at an empty batch for page [n], and raises what the request for
    page [n] raised otherwise. *)
Theorem fetch_club_activities_spec (club : string) (strava : server (list activity))
  (access_token : string) (per_page max_pages : Z) (log : list request) :
  exists (n : nat) (batches : list (list activity)),
    Z.of_nat n <= Z.max 0 max_pages /\
    snd (fetch_club_activities club strava access_token per_page max_pages log)
    = log ++ map (page_request club access_token per_page) (range 1 (Z.of_nat n + 1)) /\
    (forall i, (i < List.length batches)%nat ->
       page_reply club access_token per_page strava log i = Ok (nth i batches []) /\
       nth i batches [] <> []) /\
    match fst (fetch_club_activities club strava access_token per_page max_pages log) with
    | Ok activities =>
        activities = List.concat batches /\
        ((n = List.length batches /\ Z.of_nat n = Z.max 0 max_pages) \/
         (n = S (List.length batches) /\
          page_reply club access_token per_page strava log (List.length batches)
          = Ok []))
    | Raise x =>
        n = S (List.length batches) /\
        page_reply club access_token per_page strava log (List.length batches)
        = Raise x
    end.
Proof.
  unfold fetch_club_activities. rewrite range_seq.
  destruct (fetch_pages_run club strava access_token per_page log
              (Z.to_nat max_pages) 0 []) as (n & batches & Hn & Hlog & Hb & Hres).
  rewrite pages_upto_0, app_nil_r in Hlog, Hres.
  cbn [Nat.add app] in Hlog, Hres, Hb.
  exists n, batches. split; [lia|]. split; [exact Hlog|]. split; [exact Hb|].
  destruct (fst (fetch_pages strava (activities_url club)
                   [("Authorization", ("Bearer " ++ access_token)%string)] per_page
                   (map (fun i => 1 + Z.of_nat i) (seq 0 (Z.to_nat max_pages))) [] log))
    as [acts|x].
  - destruct Hres as (-> & Hend). split; [reflexivity|].
    destruct Hend as [[Hl Hk]|H]; [left; split; [exact Hl|lia]|now right].
  - exact Hres.
Qed.

(** On a feed of two pages the third request finds an empty batch. *)
Lemma fetch_club_activities_two_pages :
  fetch_club_activities_default "club" two_pages "token" []
  = (Ok three_rides, map (page_request "club" "token" 200) [1; 2; 3]).
Proof. reflexivity. Qed.

(** The theorem on that feed with the default cap: no more than ten
    requests, for pages 1 to [n]. *)
Lemma fetch_club_activities_spec_witness :
  exists n : nat,
    (n <= 10)%nat /\
    snd (fetch_club_activities_default "club" two_pages "token" [])
    = map (page_request "club" "token" 200) (range 1 (Z.of_nat n + 1)).
Proof.
  destruct (fetch_club_activities_spec "club" two_pages "token" 200 10 [])
    as (n & _ & Hn & Hlog & _).
  exists n. split; [lia|exact Hlog].
Defined.

(** * Further properties *)

(** ** The window from week to week *)

Lemma last_week_range_kst_ok (now s e : datetime) :
  last_week_range_kst now = Ok (s, e) ->
  7 < ordinal now - weekday now <= Calendar.MAXORDINAL /\
  e = mkdt (ordinal now - weekday now) 0 0 0 0 /\
  s = mkdt (ordinal now - weekday now - 7) 0 0 0 0.
Proof.
  unfold last_week_range_kst, sub_days.
  destruct ((0 <? ordinal now - weekday now)
            && (ordinal now - weekday now <=? Calendar.MAXORDINAL)) eqn:E1;
    [|discriminate].
  cbn [bind]. unfold replace_midnight. cbn [ordinal hour minute second microsecond].
  destruct ((0 <? ordinal now - weekday now - 7)
            && (ordinal now - weekday now - 7 <=? Calendar.MAXORDINAL)) eqn:E2;
    [|discriminate].
  cbn [bind]. intros H. injection H as <- <-.
  apply andb_prop in E1 as [_ H1%Z.leb_le], E2 as [H2%Z.ltb_lt _].
  repeat split; lia.
Qed.

Lemma last_week_range_kst_of_monday (now : datetime) (monday : Z) :
  7 < monday <= Calendar.MAXORDINAL ->
  ordinal now - weekday now = monday ->
  last_week_range_kst now
  = Ok (mkdt (monday - 7) 0 0 0 0, mkdt monday 0 0 0 0).
Proof.
  intros Hm Hw. unfold last_week_range_kst.
  rewrite sub_days_ok by lia. cbn [bind]. unfold replace_midnight.
  cbn [ordinal]. rewrite sub_days_ok by (cbn [ordinal]; lia).
  cbn [bind ordinal hour minute second microsecond]. now rewrite Hw.
Qed.

(** X1: the window does not change during a week: a run at any time
    of the seven days that start at [end] gets the window [(start,
    end)] again. *)
Theorem last_week_range_kst_same_week (now now' s e : datetime) :
  last_week_range_kst now = Ok (s, e) ->
  ordinal e <= ordinal now' < ordinal e + 7 ->
  last_week_range_kst now' = Ok (s, e).
Proof.
  intros (Hm & -> & ->)%last_week_range_kst_ok. cbn [ordinal]. intros Hd.
  apply last_week_range_kst_of_monday; [exact Hm|].
  pose proof (monday_of_weekday now) as Hmon. unfold monday_of in Hmon.
  unfold weekday at 1. Z.div_mod_to_equations. lia.
Qed.

(** The theorem on a Wednesday evening and the Sunday that follows. *)
Lemma last_week_range_kst_same_week_witness :
  last_week_range_kst (kst 2026 11 8 23 59 59 999999)
  = Ok (kst 2026 10 26 0 0 0 0, kst 2026 11 2 0 0 0 0).
Proof.
  apply (last_week_range_kst_same_week (kst 2026 11 4 21 9 0 5)).
  - vm_compute. reflexivity.
  - ground.
Defined.

(** X2: the windows of consecutive weeks tile the time line: a run
    seven days later gets the window that starts where this one ends
    and ends seven days after. *)
Theorem last_week_range_kst_next_week (now s e : datetime) :
  ordinal now + 7 <= Calendar.MAXORDINAL ->
  last_week_range_kst now = Ok (s, e) ->
  last_week_range_kst (plus_days now 7) = Ok (e, plus_days e 7).
Proof.
  intros Hmax (Hm & -> & ->)%last_week_range_kst_ok.
  pose proof (weekday_bounds now) as Hw.
  assert (Hwd : weekday (plus_days now 7) = weekday now).
  { unfold weekday, plus_days. cbn [ordinal].
    replace (ordinal now + 7 + 6) with (ordinal now + 6 + 1 * 7) by lia.
    apply Z.mod_add. lia. }
  rewrite (last_week_range_kst_of_monday _ (ordinal now - weekday now + 7)).
  - unfold plus_days. cbn [ordinal hour minute second microsecond].
    do 3 f_equal. lia.
  - lia.
  - rewrite Hwd. unfold plus_days. cbn [ordinal]. lia.
Qed.

(** The theorem on two Wednesdays. *)
Lemma last_week_range_kst_next_week_witness :
  last_week_range_kst (kst 2026 11 11 21 9 0 5)
  = Ok (kst 2026 11 2 0 0 0 0, kst 2026 11 9 0 0 0 0).
Proof.
  apply (last_week_range_kst_next_week (kst 2026 11 4 21 9 0 5)
           (kst 2026 10 26 0 0 0 0) (kst 2026 11 2 0 0 0 0)).
  - ground.
  - vm_compute. reflexivity.
Defined.

(** ** Conversion to +09:00 *)

Lemma add_microseconds_instant (d : datetime) (delta : Z) :
  valid_datetime d ->
  match add_microseconds d delta with
  | Ok d' => valid_datetime d' /\ instant d' = instant d + delta
  | Raise x => x = OverflowError /\ ~ representable (instant d + delta)
  end.
Proof.
  intros (Ho & Hh & Hm & Hs & Hu).
  unfold add_microseconds, representable, instant, time_of_day, valid_datetime, DAY_US.
  set (total := ((hour d * 60 + minute d) * 60 + second d) * 1000000
                + microsecond d + delta).
  destruct ((0 <? ordinal d + total / 86400000000)
            && (ordinal d + total / 86400000000 <=? Calendar.MAXORDINAL)) eqn:E.
  - apply andb_prop in E as [E1%Z.ltb_lt E2%Z.leb_le].
    cbn [ordinal hour minute second microsecond].
    unfold Calendar.MAXORDINAL in *. subst total.
    Z.div_mod_to_equations. lia.
  - split; [reflexivity|]. intros [H1 H2].
    assert (Ha : (0 <? ordinal d + total / 86400000000) = true).
    { apply Z.ltb_lt. subst total. Z.div_mod_to_equations. lia. }
    assert (Hb : (ordinal d + total / 86400000000 <=? Calendar.MAXORDINAL) = true).
    { apply Z.leb_le. unfold Calendar.MAXORDINAL in *. subst total.
      Z.div_mod_to_equations. lia. }
    now rewrite Ha, Hb in E.
Qed.

Lemma valid_representable (d : datetime) :
  valid_datetime d -> representable (instant d).
Proof.
  intros (Ho & Hh & Hm & Hs & Hu).
  unfold representable, instant, time_of_day, DAY_US, Calendar.MAXORDINAL in *.
  lia.
Qed.

(** X3: [to_kst] keeps the instant. For a text the parser reads, the
    offset is the text's own, or for a text without one the offset the
    lookup of the system's zone gives; an exception of that lookup is
    raised as it is. Given the offset, the value returned is a datetime
    of the calendar that stands, on the +09:00 clock, for the instant
    the text names at that offset, and [to_kst] raises, with
    [OverflowError], exactly when that instant is outside years 1 to
    9999 on the UTC clock or on the +09:00 clock. *)
Theorem to_kst_instant (iso : string -> result exn parsed)
  (sys : datetime -> result exn Z) (dt_str : string) (p : parsed) :
  iso (iso_text dt_str) = Ok p ->
  valid_datetime (fields p) ->
  match myoffset_of sys p with
  | Raise x => to_kst iso sys dt_str = Raise x
  | Ok offset =>
      let utc := instant (fields p) - offset in
      match to_kst iso sys dt_str with
      | Ok d =>
          valid_datetime d /\ instant d = utc + KST_OFFSET /\
          representable utc /\ representable (utc + KST_OFFSET)
      | Raise x =>
          x = OverflowError /\
          ~ (representable utc /\ representable (utc + KST_OFFSET))
      end
  end.
Proof.
  intros Hp Hv. unfold to_kst. fold (iso_text dt_str). rewrite Hp.
  cbn [bind]. unfold astimezone_KST.
  destruct (myoffset_of sys p) as [offset|x]; cbn [bind]; [|reflexivity].
  cbv zeta. set (utc := instant (fields p) - offset).
  pose proof (add_microseconds_instant (fields p) (- offset) Hv) as H1.
  destruct (add_microseconds (fields p) (- offset)) as [u|x]; cbn [bind].
  - destruct H1 as [Hu Hi].
    pose proof (add_microseconds_instant u KST_OFFSET Hu) as H2.
    assert (Hutc : instant u = utc) by (rewrite Hi; unfold utc; lia).
    destruct (add_microseconds u KST_OFFSET) as [k|x].
    + destruct H2 as [Hk Hik].
      split; [exact Hk|]. split; [rewrite Hik, Hutc; reflexivity|].
      rewrite <- Hutc at 1. rewrite <- Hutc, <- Hik.
      split; now apply valid_representable.
    + destruct H2 as [-> H2]. split; [reflexivity|]. intros [_ H].
      apply H2. now rewrite Hutc.
  - destruct H1 as [-> H1]. split; [reflexivity|]. intros [H _].
    apply H1. unfold utc in H.
    now replace (instant (fields p) + - offset)
      with (instant (fields p) - offset) by lia.
Qed.

(** The theorem on a time of the afternoon, UTC: past midnight at
    +09:00. *)
Lemma to_kst_instant_witness :
  to_kst parse_iso utc_system "2026-02-01T15:12:34Z" = Ok (kst 2026 2 2 0 12 34 0) /\
  instant (kst 2026 2 2 0 12 34 0)
  = instant (make_datetime 2026 2 1 15 12 34 0) + KST_OFFSET.
Proof.
  pose proof (to_kst_instant parse_iso utc_system "2026-02-01T15:12:34Z"
                (mkparsed (make_datetime 2026 2 1 15 12 34 0) (Some 0))
                eq_refl ltac:(ground)) as H.
  cbn [myoffset_of utcoffset] in H. cbv zeta in H.
  destruct (to_kst parse_iso utc_system "2026-02-01T15:12:34Z") as [d|x] eqn:E.
  - destruct H as (_ & H & _). vm_compute in E. injection E as <-.
    split; vm_compute; reflexivity.
  - vm_compute in E. discriminate E.
Defined.

(** On a clock set to UTC a text without offset is read at offset 0,
    and on the first day of the calendar the lookup of the zone
    raises. *)
Lemma to_kst_naive :
  to_kst parse_iso utc_system "2026-02-01T15:12:34" = Ok (kst 2026 2 2 0 12 34 0) /\
  to_kst parse_iso utc_system "0001-01-01T12:00:00" = Raise ValueError /\
  to_kst parse_iso utc_system "0001-01-01T08:59:59+09:00" = Raise OverflowError.
Proof. repeat split; vm_compute; reflexivity. Qed.

Lemma endswith_app (s : string) (c : ascii) :
  endswith (s ++ String c EmptyString) c = true.
Proof.
  induction s as [|a s IH]; simpl; [apply Ascii.eqb_refl|].
  destruct (s ++ String c EmptyString)%string eqn:E; [|exact IH].
  destruct s; discriminate E.
Qed.

Lemma endswith_app_other (s t : string) (c a : ascii) :
  Ascii.eqb a c = false ->
  endswith (s ++ t ++ String a EmptyString) c = false.
Proof.
  intros Ha. induction s as [|b s IH]; simpl.
  - induction t as [|b t IHt]; simpl; [exact Ha|].
    destruct (t ++ String a EmptyString)%string eqn:E; [|exact IHt].
    destruct t; discriminate E.
  - destruct (s ++ t ++ String a EmptyString)%string eqn:E; [|exact IH].
    destruct s; [destruct t|]; discriminate E.
Qed.

Lemma replace_absent (c : ascii) (by_ s : string) :
  all_chars (fun a => negb (Ascii.eqb a c)) s = true -> replace c by_ s = s.
Proof.
  induction s as [|a s IH]; simpl; [reflexivity|].
  intros [Ha Hs]%andb_prop. apply negb_true_iff in Ha. rewrite Ha.
  now rewrite IH.
Qed.

Lemma replace_app (c : ascii) (by_ s t : string) :
  replace c by_ (s ++ t) = (replace c by_ s ++ replace c by_ t)%string.
Proof.
  induction s as [|a s IH]; simpl; [reflexivity|].
  destruct (Ascii.eqb a c); rewrite IH; [now rewrite append_assoc|reflexivity].
Qed.

(** X4: a trailing [Z] is read as the offset [+00:00]: for a text with
    no other [Z], [to_kst] of the text with [Z] is [to_kst] of the text
    with [+00:00]. *)
Theorem to_kst_zulu (iso : string -> result exn parsed) (sys : datetime -> result exn Z)
  (s : string) :
  all_chars (fun a => negb (Ascii.eqb a "Z")) s = true ->
  to_kst iso sys (s ++ "Z") = to_kst iso sys (s ++ "+00:00").
Proof.
  intros Hs. unfold to_kst.
  rewrite endswith_app, replace_app, (replace_absent _ _ _ Hs).
  change (replace "Z" "+00:00" "Z") with "+00:00".
  pose proof (endswith_app_other s "+00:0" "Z" "0" eq_refl) as H.
  cbn [append] in H. now rewrite H.
Qed.

(** The theorem on a timestamp of the feed. *)
Lemma to_kst_zulu_witness :
  to_kst parse_iso utc_system "2026-02-01T03:12:34Z"
  = to_kst parse_iso utc_system "2026-02-01T03:12:34+00:00".
Proof.
  apply (to_kst_zulu parse_iso utc_system "2026-02-01T03:12:34"). reflexivity.
Defined.

(** ** The rows of the leaderboard *)

Lemma key_in_app (l1 l2 : list (option Z)) (k : option Z) :
  key_in (l1 ++ l2) k = key_in l1 k || key_in l2 k.
Proof. apply existsb_app. Qed.

Lemma dict_mem_key_in (k : option Z) (d : athletes) :
  dict_mem k d = key_in (map fst d) k.
Proof.
  induction d as [|[k' v] d IH]; simpl; [reflexivity|]. now rewrite IH.
Qed.

Lemma dict_update_keys (k : option Z) (f : aggregate -> aggregate) (d : athletes) :
  map fst (dict_update k f d) = map fst d.
Proof.
  induction d as [|[k' v] d IH]; simpl; [reflexivity|].
  destruct (key_eqb k k'); simpl; [reflexivity|now rewrite IH].
Qed.

Lemma dict_set_keys (k : option Z) (v : aggregate) (d : athletes) :
  dict_mem k d = false -> map fst (dict_set k v d) = map fst d ++ [k].
Proof.
  induction d as [|[k' v'] d IH]; simpl; [reflexivity|].
  destruct (key_eqb k k'); simpl; [discriminate|]. intros H. now rewrite IH.
Qed.

(** The keys after one activity: the activity's key goes last when it
    is new. *)
Lemma accumulate_keys (d d' : athletes) (a : activity) :
  accumulate d a = Ok d' ->
  map fst d' = if key_in (map fst d) (key_of a) then map fst d
               else map fst d ++ [key_of a].
Proof.
  unfold accumulate. fold (key_of a) (name_of a).
  destruct (py_float (get (distance a) (PyFloat 0))) as [x|e]; [|discriminate].
  destruct (py_float (get (total_elevation_gain a) (PyFloat 0))) as [y|e];
    [|discriminate].
  cbn [bind]. intros H. injection H as <-.
  rewrite !dict_update_keys, <- dict_mem_key_in.
  destruct (dict_mem (key_of a) d) eqn:E; cbn [negb]; [reflexivity|].
  now apply dict_set_keys.
Qed.

Lemma filter_filter {A} (f g : A -> bool) (l : list A) :
  filter f (filter g l) = filter (fun x => g x && f x) l.
Proof.
  induction l as [|x l IH]; simpl; [reflexivity|].
  destruct (g x); simpl; [destruct (f x)|]; now rewrite IH.
Qed.

Lemma filter_same {A} (f g : A -> bool) (l : list A) :
  (forall x, In x l -> f x = g x) -> filter f l = filter g l.
Proof.
  induction l as [|x l IH]; intros H; simpl; [reflexivity|].
  rewrite (H x) by now left. rewrite IH; [reflexivity|].
  intros y Hy. apply H. now right.
Qed.

Lemma key_in_eqb (keys : list (option Z)) (k k' : option Z) :
  key_eqb k' k = true -> key_in keys k' = key_in keys k.
Proof. intros H%key_eqb_eq. now subst. Qed.

(** The keys of the dictionary after the loop: those it had, then the
    new ones in the order of their first activity. *)
Lemma accumulate_all_keys (acts : list activity) (d d' : athletes) :
  accumulate_all acts d = Ok d' ->
  map fst d'
  = map fst d
    ++ filter (fun k => negb (key_in (map fst d) k)) (first_seen (map key_of acts)).
Proof.
  revert d. induction acts as [|a acts IH]; intros d H; simpl in H.
  - injection H as <-. simpl. now rewrite app_nil_r.
  - destruct (accumulate d a) as [d1|e] eqn:E1; [|discriminate]. cbn [bind] in H.
    rewrite (IH _ H), (accumulate_keys _ _ _ E1). cbn [map first_seen filter].
    destruct (key_in (map fst d) (key_of a)) eqn:Hin; cbn [negb].
    + f_equal. rewrite filter_filter. apply filter_same. intros k _.
      destruct (key_eqb k (key_of a)) eqn:Ek; cbn [negb andb]; [|reflexivity].
      now rewrite (key_in_eqb _ _ _ Ek), Hin.
    + rewrite <- app_assoc. cbn [app]. do 2 f_equal.
      rewrite filter_filter. apply filter_same. intros k _.
      rewrite key_in_app. unfold key_in at 2. cbn [existsb].
      rewrite orb_false_r, negb_orb. apply andb_comm.
Qed.

Lemma first_seen_in (keys : list (option Z)) (k : option Z) :
  In k (first_seen keys) <-> In k keys.
Proof.
  induction keys as [|k0 keys IH]; simpl; [tauto|].
  rewrite filter_In, IH. split.
  - intros [H|[H _]]; auto.
  - intros [H|H]; [now left|].
    destruct (key_eqb k k0) eqn:E.
    + left. symmetry. now apply key_eqb_eq.
    + right. now split.
Qed.

Lemma first_seen_nodup (keys : list (option Z)) : NoDup (first_seen keys).
Proof.
  induction keys as [|k0 keys IH]; simpl; constructor.
  - rewrite filter_In. intros [_ H]. now rewrite key_eqb_refl in H.
  - now apply NoDup_filter.
Qed.

Lemma sum_int_from (l : list Z) (a : Z) : fold_left Z.add l a = a + sum_int l.
Proof.
  unfold sum_int. revert a. induction l as [|x l IH]; intros a; simpl; [lia|].
  rewrite (IH (a + x)), (IH x). lia.
Qed.

Lemma sum_int_cons (x : Z) (l : list Z) : sum_int (x :: l) = x + sum_int l.
Proof. unfold sum_int at 1. simpl. apply sum_int_from. Qed.

Lemma sum_int_app (l1 l2 : list Z) : sum_int (l1 ++ l2) = sum_int l1 + sum_int l2.
Proof.
  induction l1 as [|x l IH]; [reflexivity|].
  cbn [app]. rewrite !sum_int_cons, IH. lia.
Qed.

Lemma sum_int_perm (l l' : list Z) : Permutation l l' -> sum_int l = sum_int l'.
Proof.
  induction 1; rewrite ?sum_int_cons; lia.
Qed.

Lemma total_rides_update (k : option Z) (f : aggregate -> aggregate) (c : Z)
  (d : athletes) :
  (forall v, agg_rides (f v) = agg_rides v + c) ->
  dict_mem k d = true ->
  total_rides (dict_update k f d) = total_rides d + c.
Proof.
  intros Hf. unfold total_rides.
  induction d as [|[k' v] d IH]; simpl; [discriminate|].
  destruct (key_eqb k k'); simpl; intros H.
  - rewrite !sum_int_cons. cbn [snd]. rewrite Hf. lia.
  - rewrite !sum_int_cons, IH by assumption. lia.
Qed.

Lemma dict_mem_update (k k' : option Z) (f : aggregate -> aggregate) (d : athletes) :
  dict_mem k (dict_update k' f d) = dict_mem k d.
Proof. now rewrite !dict_mem_key_in, dict_update_keys. Qed.

Lemma total_rides_set (k : option Z) (v : aggregate) (d : athletes) :
  dict_mem k d = false ->
  total_rides (dict_set k v d) = total_rides d + agg_rides v.
Proof.
  unfold total_rides.
  induction d as [|[k' v'] d IH]; simpl.
  - intros _. rewrite !sum_int_cons. unfold sum_int. simpl. lia.
  - destruct (key_eqb k k'); simpl; [discriminate|]. intros H.
    rewrite !sum_int_cons, IH by assumption. lia.
Qed.

Lemma dict_mem_set (k : option Z) (v : aggregate) (d : athletes) :
  dict_mem k (dict_set k v d) = true.
Proof.
  rewrite dict_mem_get, dict_get_set, key_eqb_refl. reflexivity.
Qed.

(** One activity adds one ride. *)
Lemma accumulate_rides (d d' : athletes) (a : activity) :
  accumulate d a = Ok d' -> total_rides d' = total_rides d + 1.
Proof.
  unfold accumulate. fold (key_of a) (name_of a).
  destruct (py_float (get (distance a) (PyFloat 0))) as [x|e]; [|discriminate].
  destruct (py_float (get (total_elevation_gain a) (PyFloat 0))) as [y|e];
    [|discriminate].
  cbn [bind]. intros H. injection H as <-.
  assert (Hm : dict_mem (key_of a)
                 (if negb (dict_mem (key_of a) d)
                  then dict_set (key_of a) (mkagg (name_of a) 0 0 0) d else d) = true).
  { destruct (dict_mem (key_of a) d) eqn:E; cbn [negb]; [exact E|apply dict_mem_set]. }
  rewrite (total_rides_update _ add_ride 1) by (try reflexivity; now rewrite !dict_mem_update).
  rewrite (total_rides_update _ (add_elev y) 0)
    by (try (intros; cbn; lia); now rewrite !dict_mem_update).
  rewrite (total_rides_update _ (add_dist x) 0) by (try (intros; cbn; lia); exact Hm).
  destruct (dict_mem (key_of a) d) eqn:E; cbn [negb]; [lia|].
  rewrite total_rides_set by exact E. cbn [agg_rides]. lia.
Qed.

Lemma accumulate_all_rides (acts : list activity) (d d' : athletes) :
  accumulate_all acts d = Ok d' -> total_rides d' = total_rides d + len acts.
Proof.
  revert d. induction acts as [|a acts IH]; intros d H; simpl in H.
  - injection H as <-. unfold len. simpl. lia.
  - destruct (accumulate d a) as [d1|e] eqn:E1; [|discriminate]. cbn [bind] in H.
    rewrite (IH _ H), (accumulate_rides _ _ _ E1). unfold len.
    cbn [List.length]. lia.
Qed.

(** X5: the leaderboard has one row for each athlete id, [None]
    included, found among the activities inside the window, and no
    other row: before sorting, the rows stand in the order in which the
    ids first occur. *)
Theorem build_leaderboard_one_row_per_athlete (iso : string -> result exn parsed)
  (sys : datetime -> result exn Z) (acts : list activity) (s e : datetime) (rows : list row) :
  build_leaderboard iso sys acts s e = Ok rows ->
  let ids := first_seen (map key_of (filter (contributes iso sys s e) acts)) in
  List.length rows = List.length ids /\
  NoDup ids /\
  (forall k, In k ids <->
     exists a, In a acts /\ contributes iso sys s e a = true /\ key_of a = k) /\
  exists d,
    aggregate_all iso sys s e acts [] = Ok d /\
    map fst d = ids /\
    Permutation rows (map (fun kv => row_of (snd kv)) d).
Proof.
  intros (d & Hd & ->)%build_leaderboard_rows ids.
  pose proof (accumulate_all_keys _ _ _ (aggregate_all_filter _ _ _ _ _ _ _ Hd))
    as Hk.
  cbn [map app] in Hk.
  rewrite (filter_same _ (fun _ => true)) in Hk by reflexivity.
  assert (Hall : forall l : list (option Z), filter (fun _ => true) l = l).
  { induction l as [|x l IH]; simpl; [reflexivity|now rewrite IH]. }
  rewrite Hall in Hk. fold ids in Hk.
  split; [|split; [|split]].
  - rewrite (Permutation_length (sort_desc_perm _)), length_map, <- Hk.
    now rewrite length_map.
  - apply first_seen_nodup.
  - intros k. unfold ids. rewrite first_seen_in, in_map_iff. split.
    + intros (a & Ha & Hin). apply filter_In in Hin as [Hin Hc]. now exists a.
    + intros (a & Hin & Hc & Ha). exists a. split; [exact Ha|].
      apply filter_In. now split.
  - exists d. split; [exact Hd|]. split; [exact Hk|]. apply sort_desc_perm.
Qed.

(** The theorem on three rides of two athletes: two rows. *)
Lemma build_leaderboard_one_row_per_athlete_witness :
  exists rows,
    build_leaderboard parse_iso utc_system three_rides week_start week_end = Ok rows /\
    List.length rows = 2%nat.
Proof.
  destruct (build_leaderboard parse_iso utc_system three_rides week_start
              week_end) as [rows|x] eqn:E; [|vm_compute in E; discriminate E].
  exists rows. split; [reflexivity|].
  destruct (build_leaderboard_one_row_per_athlete _ _ _ _ _ _ E) as (H & _).
  rewrite H. vm_compute. reflexivity.
Defined.

(** X6: no ride is lost and none is counted twice: the ride counts of
    the rows add up to the number of activities inside the window. *)
Theorem build_leaderboard_rides (iso : string -> result exn parsed)
  (sys : datetime -> result exn Z) (acts : list activity) (s e : datetime) (rows : list row) :
  build_leaderboard iso sys acts s e = Ok rows ->
  sum_int (map rides rows) = len (filter (contributes iso sys s e) acts).
Proof.
  intros (d & Hd & ->)%build_leaderboard_rows.
  rewrite (sum_int_perm _ _ (Permutation_map rides (sort_desc_perm _))), map_map.
  pose proof (accumulate_all_rides _ _ _ (aggregate_all_filter _ _ _ _ _ _ _ Hd))
    as H.
  unfold total_rides in H. exact H.
Qed.

(** The theorem on four rides of which two are inside the window. *)
Lemma build_leaderboard_rides_witness :
  exists rows,
    build_leaderboard parse_iso utc_system boundary_rides week_start week_end
    = Ok rows /\
    sum_int (map rides rows) = 2.
Proof.
  destruct (build_leaderboard parse_iso utc_system boundary_rides week_start
              week_end) as [rows|x] eqn:E; [|vm_compute in E; discriminate E].
  exists rows. split; [reflexivity|].
  rewrite (build_leaderboard_rides _ _ _ _ _ _ E).
  vm_compute. reflexivity.
Defined.

Lemma display_name_nonempty (a : athlete_obj) : display_name a <> EmptyString.
Proof.
  unfold display_name.
  destruct (strip (get (firstname a) "" ++ " " ++ get (lastname a) "")) eqn:E;
    cbn [str_or]; discriminate.
Qed.

Lemma dict_set_forall (P : aggregate -> Prop) (k : option Z) (v : aggregate)
  (d : athletes) :
  P v -> Forall (fun kv => P (snd kv)) d ->
  Forall (fun kv => P (snd kv)) (dict_set k v d).
Proof.
  intros Hv. induction 1 as [|[k' v'] d Hx Hd IH]; simpl.
  - now repeat constructor.
  - destruct (key_eqb k k'); constructor; auto.
Qed.

Lemma dict_update_forall (P : aggregate -> Prop) (k : option Z)
  (f : aggregate -> aggregate) (d : athletes) :
  (forall v, P v -> P (f v)) -> Forall (fun kv => P (snd kv)) d ->
  Forall (fun kv => P (snd kv)) (dict_update k f d).
Proof.
  intros Hf. induction 1 as [|[k' v'] d Hx Hd IH]; simpl.
  - constructor.
  - destruct (key_eqb k k'); constructor; auto. now apply Hf.
Qed.

Lemma accumulate_all_names (acts : list activity) (d d' : athletes) :
  accumulate_all acts d = Ok d' ->
  Forall (fun kv => agg_name (snd kv) <> EmptyString) d ->
  Forall (fun kv => agg_name (snd kv) <> EmptyString) d'.
Proof.
  revert d. induction acts as [|a acts IH]; intros d H Hd; simpl in H.
  - now injection H as <-.
  - destruct (accumulate d a) as [d1|x] eqn:E1; [|discriminate]. cbn [bind] in H.
    apply (IH _ H). clear IH H. unfold accumulate in E1.
    destruct (py_float (get (distance a) (PyFloat 0))) as [x|x]; [|discriminate].
    destruct (py_float (get (total_elevation_gain a) (PyFloat 0))) as [y|y];
      [|discriminate].
    cbn [bind] in E1. injection E1 as <-.
    repeat apply (dict_update_forall (fun v => agg_name v <> EmptyString));
      try (intros v Hv; exact Hv).
    destruct (negb (dict_mem (id (get (athlete a) no_athlete)) d)); [|exact Hd].
    apply (dict_set_forall (fun v => agg_name v <> EmptyString)); [|exact Hd].
    apply display_name_nonempty.
Qed.

(** X7: no row has an empty name: a name that is empty once stripped,
    as when both names are missing, is replaced by [athlete_] and the
    id. *)
Theorem build_leaderboard_names (iso : string -> result exn parsed)
  (sys : datetime -> result exn Z) (acts : list activity) (s e : datetime) :
  (forall rows, build_leaderboard iso sys acts s e = Ok rows ->
     Forall (fun r => name r <> EmptyString) rows) /\
  (forall i, display_name (mkathlete i None None)
             = ("athlete_" ++ str_id i)%string) /\
  (forall i first last,
     strip (first ++ " " ++ last) = EmptyString ->
     display_name (mkathlete i (Some first) (Some last))
     = ("athlete_" ++ str_id i)%string).
Proof.
  split; [|split].
  - intros rows (d & Hd & ->)%build_leaderboard_rows.
    pose proof (accumulate_all_names _ _ _ (aggregate_all_filter _ _ _ _ _ _ _ Hd)
                  (Forall_nil _)) as H.
    rewrite Forall_forall in H |- *. intros r Hr.
    apply (Permutation_in _ (sort_desc_perm _)) in Hr.
    apply in_map_iff in Hr as (kv & <- & Hin). exact (H kv Hin).
  - intros i. reflexivity.
  - intros i first last H. unfold display_name. cbn [get firstname lastname id].
    now rewrite H.
Qed.

(** The theorem on the athlete with id 42 and blank names. *)
Lemma build_leaderboard_names_witness :
  display_name (mkathlete (Some 42) (Some " ") (Some "")) = "athlete_42".
Proof.
  destruct (build_leaderboard_names parse_iso utc_system [] week_start week_end)
    as (_ & _ & H).
  apply (H (Some 42) " " ""). reflexivity.
Defined.

(** X8: the leaderboard is empty exactly when no activity starts
    inside the window. *)
Theorem build_leaderboard_empty (iso : string -> result exn parsed)
  (sys : datetime -> result exn Z) (acts : list activity) (s e : datetime) (rows : list row) :
  build_leaderboard iso sys acts s e = Ok rows ->
  (rows = [] <-> filter (contributes iso sys s e) acts = []).
Proof.
  intros (d & Hd & ->)%build_leaderboard_rows.
  pose proof (accumulate_all_rides _ _ _ (aggregate_all_filter _ _ _ _ _ _ _ Hd))
    as Hr.
  pose proof (accumulate_all_keys _ _ _ (aggregate_all_filter _ _ _ _ _ _ _ Hd))
    as Hk.
  split; intros H.
  - apply (f_equal (@List.length row)) in H.
    rewrite (Permutation_length (sort_desc_perm _)), length_map in H.
    destruct d; [|discriminate H].
    unfold total_rides, len in Hr. cbn in Hr.
    destruct (filter (contributes iso sys s e) acts); [reflexivity|].
    cbn [List.length] in Hr. lia.
  - rewrite H in Hk. cbn in Hk. destruct d; [reflexivity|discriminate Hk].
Qed.

(** The theorem on rides that are all outside the window. *)
Lemma build_leaderboard_empty_witness :
  build_leaderboard parse_iso utc_system three_rides tuesday_end (kst 2026 2 17 0 0 0 0)
  = Ok [] /\
  filter (contributes parse_iso utc_system tuesday_end (kst 2026 2 17 0 0 0 0))
    three_rides = [].
Proof.
  assert (H : build_leaderboard parse_iso utc_system three_rides tuesday_end
                (kst 2026 2 17 0 0 0 0) = Ok []) by (vm_compute; reflexivity).
  split; [exact H|].
  now apply (build_leaderboard_empty parse_iso utc_system three_rides tuesday_end
               (kst 2026 2 17 0 0 0 0) [] H).
Defined.

(** ** The ranking of the report *)

Lemma ranking_lines_length (format_f : nat -> float -> string) (i : Z)
  (rows : list row) :
  List.length (ranking_lines format_f i rows) = List.length rows.
Proof.
  revert i. induction rows as [|r rows IH]; intros i; simpl;
    [reflexivity|now rewrite IH].
Qed.

Lemma ranking_lines_nth (format_f : nat -> float -> string) (rows : list row) :
  forall (i : Z) (k : nat),
    nth_error (ranking_lines format_f i rows) k
    = option_map (ranking_line format_f (i + Z.of_nat k)) (nth_error rows k).
Proof.
  induction rows as [|r rows IH]; intros i [|k]; cbn [ranking_lines nth_error option_map];
    try reflexivity.
  - now rewrite Z.add_0_r.
  - rewrite IH. now replace (i + 1 + Z.of_nat k) with (i + Z.of_nat (S k)) by lia.
Qed.

Lemma slice_to_length {A} (n : Z) (l : list A) :
  len (slice_to n l) = if n <? 0 then Z.max 0 (len l + n) else Z.min n (len l).
Proof.
  unfold slice_to, len. destruct (n <? 0) eqn:E; rewrite length_firstn.
  - apply Z.ltb_lt in E. lia.
  - apply Z.ltb_ge in E. lia.
Qed.

Lemma slice_to_firstn {A} (n : Z) (l : list A) :
  slice_to n l = firstn (List.length (slice_to n l)) l.
Proof.
  unfold slice_to. destruct (n <? 0); rewrite length_firstn;
    set (m := Z.to_nat _); destruct (Nat.min_spec m (List.length l)) as [[H ->]|[H ->]];
    try reflexivity; rewrite firstn_all; apply firstn_all2; lia.
Qed.

Lemma nth_error_firstn_some {A} (n : nat) (l : list A) :
  forall (k : nat) (x : A),
    nth_error (firstn n l) k = Some x -> nth_error l k = Some x.
Proof.
  revert l. induction n as [|n IH]; intros [|y l] [|k] x H; cbn in H |- *;
    try discriminate; [exact H|now apply IH].
Qed.

(** X9: for a leaderboard that is not empty, the text returned is the
    header, the legend, the heading [TOP min(TOP_N, len)], the ranking
    lines, a blank line and the line of totals. The ranking lists a
    prefix of the leaderboard in its order, the line at place [k]
    carrying the number [k + 1] and the row at place [k]; it has
    [min(TOP_N, len)] lines when [TOP_N] is not negative and
    [max(0, len + TOP_N)] lines when it is, so the number in the
    heading is the number of ranking lines exactly when [TOP_N] is not
    negative. The call raises only at the edge of the calendar, when
    the window's end has no day before it. *)
Theorem format_post_text_ranking (TOP_N : Z) (format_f : nat -> float -> string)
  (sum_float : list float -> float) (s e : datetime) (r : row) (rest : list row) :
  let lb := r :: rest in
  match format_post_text TOP_N format_f sum_float s e lb with
  | Ok text =>
      exists (lines : list string) (totals : string),
        text
        = join nl ([header s (day_before e); ""; legend; "";
                    ("🏆 TOP " ++ str_int (Z.min TOP_N (len lb)))%string]
                   ++ lines ++ [""; totals]) /\
        len lines
        = (if TOP_N <? 0 then Z.max 0 (len lb + TOP_N) else Z.min TOP_N (len lb)) /\
        (forall k : nat, (k < List.length lines)%nat ->
           exists shown : row,
             nth_error lb k = Some shown /\
             nth_error lines k
             = Some (ranking_line format_f (Z.of_nat k + 1) shown)) /\
        (Z.min TOP_N (len lb) = len lines <-> 0 <= TOP_N)
  | Raise x => x = OverflowError /\ ~ 1 < ordinal e <= Calendar.MAXORDINAL + 1
  end.
Proof.
  intros lb. rewrite format_post_text_lines. pose proof (sub_days_1 e) as H.
  destruct (sub_days e 1) as [d|x]; cbn [bind]; [subst d|exact H].
  set (lines := ranking_lines format_f 1 (slice_to TOP_N lb)).
  assert (Hn : len lines
               = (if TOP_N <? 0 then Z.max 0 (len lb + TOP_N)
                  else Z.min TOP_N (len lb))).
  { unfold len at 1. unfold lines. rewrite ranking_lines_length.
    apply slice_to_length. }
  exists lines, ("📊 전체 합계: " ++ format_f 1%nat (sum_float (map km lb))
                 ++ " km / " ++ format_f 0%nat (sum_float (map elev lb))
                 ++ " m / " ++ str_int (sum_int (map rides lb))
                 ++ "회 (참여 " ++ str_int (len lb) ++ "명)")%string.
  split; [|split; [exact Hn|split]].
  - unfold body, lb. fold lb. fold lines. reflexivity.
  - intros k Hk. unfold lines in Hk |- *. rewrite ranking_lines_length in Hk.
    rewrite ranking_lines_nth, (Z.add_comm 1).
    destruct (nth_error (slice_to TOP_N lb) k) as [shown|] eqn:E.
    + exists shown. split; [|reflexivity].
      rewrite slice_to_firstn in E. exact (nth_error_firstn_some _ _ _ _ E).
    + apply nth_error_None in E. lia.
  - rewrite Hn. unfold len. destruct (TOP_N <? 0) eqn:E.
    + apply Z.ltb_lt in E. lia.
    + apply Z.ltb_ge in E. split; [tauto|lia].
Qed.

(** ** The feed *)

Section FeedFacts.

Variable club : string.
Variable strava : server (list activity).
Variable access_token : string.
Variable per_page : Z.
Variable log : list request.

Lemma fetch_pages_feed (k : nat) :
  forall (j : nat) (acts0 : list activity) (batches : list (list activity)),
    (forall i, (i < k)%nat ->
       page_reply club access_token per_page strava log (j + i)
       = Ok (nth i batches [])) ->
    fetch_pages strava (activities_url club)
      [("Authorization", ("Bearer " ++ access_token)%string)] per_page
      (map (fun i => 1 + Z.of_nat i) (seq j k)) acts0
      (log ++ pages_upto club access_token per_page j)
    = (Ok (acts0 ++ List.concat (firstn k (nonempty_prefix batches))),
       log ++ pages_upto club access_token per_page
                (j + Nat.min k (S (List.length (nonempty_prefix batches))))).
Proof.
  induction k as [|k IH]; intros j acts0 batches H.
  - cbn. now rewrite Nat.add_0_r, app_nil_r.
  - cbn [seq map fetch_pages]. unfold fetch_page, send.
    rewrite <- app_assoc.
    fold (page_request club access_token per_page (1 + Z.of_nat j)).
    rewrite <- pages_upto_S.
    fold (reply (strava (log ++ pages_upto club access_token per_page j)
                   (page_request club access_token per_page (1 + Z.of_nat j)))).
    fold (page_reply club access_token per_page strava log j).
    pose proof (H O (Nat.lt_0_succ k)) as H0. rewrite Nat.add_0_r in H0.
    rewrite H0.
    destruct batches as [|[|a b] rest]; cbn [nth nonempty_prefix].
    + cbn [firstn List.concat List.length]. rewrite app_nil_r.
      now replace (j + Nat.min (S k) 1)%nat with (S j) by lia.
    + cbn [firstn List.concat List.length]. rewrite app_nil_r.
      now replace (j + Nat.min (S k) 1)%nat with (S j) by lia.
    + rewrite (IH (S j) (acts0 ++ a :: b) rest).
      * cbn [firstn List.concat List.length]. rewrite <- app_assoc.
        rewrite <- Nat.succ_min_distr, Nat.add_succ_r. reflexivity.
      * intros i Hi. specialize (H (S i) (proj1 (Nat.succ_lt_mono i k) Hi)).
        rewrite Nat.add_succ_r in H. exact H.
Qed.

End FeedFacts.

(** X10: when the server answers the request for page [i + 1] with the
    batch at place [i] of a list, an empty batch beyond its end, the
    call returns the batches before the first empty one, and no more
    than [max_pages] of them, joined in order; it asks for one page
    more than it keeps unless the cap stops it first. *)
Theorem fetch_club_activities_feed (club : string) (strava : server (list activity))
  (access_token : string) (per_page max_pages : Z) (log : list request)
  (batches : list (list activity)) :
  (forall i : nat, Z.of_nat i < max_pages ->
     page_reply club access_token per_page strava log i = Ok (nth i batches [])) ->
  fetch_club_activities club strava access_token per_page max_pages log
  = (Ok (List.concat (firstn (Z.to_nat max_pages) (nonempty_prefix batches))),
     log ++ pages_upto club access_token per_page
              (Nat.min (Z.to_nat max_pages)
                 (S (List.length (nonempty_prefix batches))))).
Proof.
  intros H. unfold fetch_club_activities. rewrite range_seq.
  pose proof (fetch_pages_feed club strava access_token per_page log
                (Z.to_nat max_pages) 0 [] batches) as F.
  rewrite pages_upto_0, app_nil_r in F. cbn [Nat.add app] in F.
  apply F. intros i Hi. apply H. lia.
Qed.

(** The theorem on a feed of two pages, with the default cap and with
    a cap of one page. *)
Lemma fetch_club_activities_feed_witness :
  fetch_club_activities "club" (feed [firstn 2 three_rides; skipn 2 three_rides])
    "token" 200 10 []
  = (Ok three_rides, map (page_request "club" "token" 200) [1; 2; 3]) /\
  fetch_club_activities "club" (feed [firstn 2 three_rides; skipn 2 three_rides])
    "token" 200 1 []
  = (Ok (firstn 2 three_rides), [page_request "club" "token" 200 1]).
Proof.
  split.
  - rewrite (fetch_club_activities_feed "club" _ "token" 200 10 []
               [firstn 2 three_rides; skipn 2 three_rides]).
    + reflexivity.
    + intros i _. unfold page_reply, reply. rewrite pages_upto_seq.
      unfold page_request, feed. cbn [param String.eqb Ascii.eqb Bool.eqb get].
      replace (Z.to_nat (1 + Z.of_nat i - 1)) with i by lia. reflexivity.
  - rewrite (fetch_club_activities_feed "club" _ "token" 200 1 []
               [firstn 2 three_rides; skipn 2 three_rides]).
    + reflexivity.
    + intros i _. unfold page_reply, reply. rewrite pages_upto_seq.
      unfold page_request, feed. cbn [param String.eqb Ascii.eqb Bool.eqb get].
      replace (Z.to_nat (1 + Z.of_nat i - 1)) with i by lia. reflexivity.
Defined.

(** ** The access token *)

(** X11: [refresh_strava_access_token] sends one request whatever
    comes of it, the post of the four fields to the token endpoint; it
    returns a token exactly when the server answers, the status is not
    4xx or 5xx and the body is a JSON object with an [access_token],
    which is the token returned; a 4xx or 5xx status raises an
    [HTTPError], and a body without the field a [KeyError]. *)
Theorem refresh_strava_access_token_spec (cfg : config) (oauth : server token_reply)
  (log : list request) :
  let res := fst (refresh_strava_access_token cfg oauth log) in
  snd (refresh_strava_access_token cfg oauth log) = log ++ [token_request cfg] /\
  (forall token,
     res = Ok token <->
     exists r, oauth log (token_request cfg) = Ok r /\
               ~ 400 <= status_code r < 600 /\
               payload r = Some (mktoken_reply (Some token))) /\
  (forall r, oauth log (token_request cfg) = Ok r ->
     (400 <= status_code r < 600 -> res = Raise (HTTPError (status_code r))) /\
     (~ 400 <= status_code r < 600 ->
      payload r = Some (mktoken_reply None) ->
      res = Raise (KeyError "access_token"))) /\
  (forall x, oauth log (token_request cfg) = Raise x -> res = Raise x).
Proof.
  unfold refresh_strava_access_token, send. fold (token_request cfg).
  cbn [fst snd]. split; [reflexivity|].
  destruct (oauth log (token_request cfg)) as [r|x]; cbn [bind].
  - unfold raise_for_status, json_of.
    destruct ((400 <=? status_code r) && (status_code r <? 600)) eqn:E; cbn [bind].
    + apply andb_prop in E as [E1%Z.leb_le E2%Z.ltb_lt].
      split; [|split].
      * intros token. split; [discriminate|].
        intros (r' & [= <-] & Hs & _). lia.
      * intros r' [= <-]. split; [reflexivity|]. intros Hs. lia.
      * discriminate.
    + assert (Hs : ~ 400 <= status_code r < 600).
      { intros [H1%Z.leb_le H2%Z.ltb_lt]. now rewrite H1, H2 in E. }
      split; [|split].
      * intros token. split.
        -- intros H. exists r. split; [reflexivity|]. split; [exact Hs|].
           destruct (payload r) as [[[t|]]|]; cbn in H; try discriminate.
           now injection H as ->.
        -- intros (r' & [= <-] & _ & ->). reflexivity.
      * intros r' [= <-]. split; [tauto|]. intros _ ->. reflexivity.
      * discriminate.
  - split; [|split].
    + intros token. split; [discriminate|]. intros (r & H & _). discriminate H.
    + discriminate.
    + intros x' [= <-]. reflexivity.
Qed.

(** ** The run *)

Lemma fetch_club_activities_requests (club : string)
  (strava : server (list activity)) (access_token : string)
  (per_page max_pages : Z) (log : list request) :
  exists n : nat,
    (n <= Z.to_nat max_pages)%nat /\
    snd (fetch_club_activities club strava access_token per_page max_pages log)
    = log ++ pages_upto club access_token per_page n.
Proof.
  unfold fetch_club_activities. rewrite range_seq.
  destruct (fetch_pages_run club strava access_token per_page log
              (Z.to_nat max_pages) 0 []) as (n & batches & Hn & Hlog & _).
  rewrite pages_upto_0, app_nil_r in Hlog. cbn [Nat.add] in Hlog.
  exists n. now split.
Qed.

Lemma refresh_strava_access_token_log (cfg : config) (oauth : server token_reply)
  (log : list request) :
  snd (refresh_strava_access_token cfg oauth log) = log ++ [token_request cfg].
Proof. reflexivity. Qed.

Lemma post_to_band_log (token key : string) (band : server json) (text : string)
  (log : list request) :
  snd (post_to_band token key band text log) = log ++ [band_request token key text].
Proof. reflexivity. Qed.

Lemma pages_upto_length (club access_token : string) (per_page : Z) (n : nat) :
  List.length (pages_upto club access_token per_page n) = n.
Proof. now rewrite pages_upto_seq, length_map, length_seq. Qed.

Lemma pages_upto_no_post (club access_token : string) (per_page : Z) (n : nat) :
  forallb (fun rq => negb (is_band_post rq))
    (pages_upto club access_token per_page n) = true.
Proof.
  rewrite pages_upto_seq. apply forallb_forall.
  intros rq (i & <- & _)%in_map_iff. reflexivity.
Qed.

Section RunFacts.

Variable iso : string -> result exn parsed.
Variable sys : datetime -> result exn Z.
Variable format_f : nat -> float -> string.
Variable sum_float : list float -> float.
Variable oauth : server token_reply.
Variable strava : server (list activity).
Variable band : server json.

(** [main] stage by stage. *)
Lemma main_stages (cfg : config) (now : datetime) (log : list request) :
  main iso sys format_f sum_float oauth strava band cfg now log
  = match last_week_range_kst now with
    | Raise x => (Raise x, log)
    | Ok (s, e) =>
        match fst (refresh_strava_access_token cfg oauth log) with
        | Raise x => (Raise x, log ++ [token_request cfg])
        | Ok token =>
            let fetched :=
              fetch_club_activities (cfg_STRAVA_CLUB_ID cfg) strava token 200 10
                (log ++ [token_request cfg]) in
            match fst fetched with
            | Raise x => (Raise x, snd fetched)
            | Ok acts =>
                match build_leaderboard iso sys acts s e with
                | Raise x => (Raise x, snd fetched)
                | Ok lb =>
                    match format_post_text (cfg_TOP_N cfg) format_f sum_float
                            s e lb with
                    | Raise x => (Raise x, snd fetched)
                    | Ok text =>
                        (_ <- fst (post_to_band (cfg_BAND_ACCESS_TOKEN cfg)
                                     (cfg_BAND_KEY cfg) band text (snd fetched)) ;;
                         Ok ["✅ Posted to BAND successfully."; text],
                         snd fetched
                         ++ [band_request (cfg_BAND_ACCESS_TOKEN cfg)
                               (cfg_BAND_KEY cfg) text])
                    end
                end
            end
        end
    end.
Proof.
  unfold main, net_bind, net_pure.
  destruct (last_week_range_kst now) as [[s e]|x]; [|reflexivity].
  pose proof (refresh_strava_access_token_log cfg oauth log) as R.
  destruct (refresh_strava_access_token cfg oauth log) as [[token|x] l1];
    cbn [fst snd] in R |- *; subst l1; [|reflexivity].
  destruct (fetch_club_activities (cfg_STRAVA_CLUB_ID cfg) strava token 200 10
              (log ++ [token_request cfg])) as [[acts|x] l2];
    cbn [fst snd]; [|reflexivity].
  destruct (build_leaderboard iso sys acts s e) as [lb|x]; [|reflexivity].
  destruct (format_post_text (cfg_TOP_N cfg) format_f sum_float s e lb)
    as [text|x]; [|reflexivity].
  pose proof (post_to_band_log (cfg_BAND_ACCESS_TOKEN cfg) (cfg_BAND_KEY cfg)
                band text l2) as P.
  destruct (post_to_band (cfg_BAND_ACCESS_TOKEN cfg) (cfg_BAND_KEY cfg) band text l2)
    as [[j|x] l3]; cbn [fst snd bind] in P |- *; subst l3; reflexivity.
Qed.

End RunFacts.

(** X12: [main] ends without an exception exactly when each stage
    does: the window is computed, the token is granted, the pages are
    fetched with that token, the leaderboard of the fetched activities
    over the window is built and formatted, and BAND accepts the post
    of that text. It then prints the notice and the text it posted,
    and the requests it sent are, in order, the token request, the
    requests for pages 1 to [n] with [n] at most 10, and the post. *)
Theorem main_success (iso : string -> result exn parsed) (sys : datetime -> result exn Z)
  (format_f : nat -> float -> string) (sum_float : list float -> float)
  (oauth : server token_reply) (strava : server (list activity))
  (band : server json) (cfg : config) (now : datetime) (log : list request)
  (out : list string) (log' : list request) :
  main iso sys format_f sum_float oauth strava band cfg now log = (Ok out, log') <->
  exists (s e : datetime) (token : string) (acts : list activity) (lb : list row)
         (text : string) (n : nat),
    last_week_range_kst now = Ok (s, e) /\
    fst (refresh_strava_access_token cfg oauth log) = Ok token /\
    fetch_club_activities (cfg_STRAVA_CLUB_ID cfg) strava token 200 10
      (log ++ [token_request cfg])
    = (Ok acts,
       (log ++ [token_request cfg])
       ++ pages_upto (cfg_STRAVA_CLUB_ID cfg) token 200 n) /\
    (n <= 10)%nat /\
    build_leaderboard iso sys acts s e = Ok lb /\
    format_post_text (cfg_TOP_N cfg) format_f sum_float s e lb = Ok text /\
    is_ok (fst (post_to_band (cfg_BAND_ACCESS_TOKEN cfg) (cfg_BAND_KEY cfg) band text
                  ((log ++ [token_request cfg])
                   ++ pages_upto (cfg_STRAVA_CLUB_ID cfg) token 200 n))) = true /\
    out = ["✅ Posted to BAND successfully."; text] /\
    log' = log ++ [token_request cfg]
           ++ pages_upto (cfg_STRAVA_CLUB_ID cfg) token 200 n
           ++ [band_request (cfg_BAND_ACCESS_TOKEN cfg) (cfg_BAND_KEY cfg) text].
Proof.
  rewrite main_stages. split.
  - destruct (last_week_range_kst now) as [[s e]|x]; [|discriminate].
    destruct (fst (refresh_strava_access_token cfg oauth log)) as [token|x];
      [|discriminate].
    cbv zeta.
    destruct (fetch_club_activities_requests (cfg_STRAVA_CLUB_ID cfg) strava token
                200 10 (log ++ [token_request cfg])) as (n & Hn & Hlog).
    destruct (fetch_club_activities (cfg_STRAVA_CLUB_ID cfg) strava token 200 10
                (log ++ [token_request cfg])) as [[acts|x] l2] eqn:F;
      cbn [fst snd] in Hlog |- *; subst l2; [|discriminate].
    destruct (build_leaderboard iso sys acts s e) as [lb|x] eqn:B; [|discriminate].
    destruct (format_post_text (cfg_TOP_N cfg) format_f sum_float s e lb)
      as [text|x] eqn:T; [|discriminate].
    destruct (fst (post_to_band (cfg_BAND_ACCESS_TOKEN cfg) (cfg_BAND_KEY cfg) band
                     text _)) as [j|x] eqn:P; cbn [bind]; [|discriminate].
    intros [= <- <-]. exists s, e, token, acts, lb, text, n.
    rewrite P. change (Z.to_nat 10) with 10%nat in Hn.
    repeat split; try reflexivity; try assumption.
    now rewrite <- !app_assoc.
  - intros (s & e & token & acts & lb & text & n
            & -> & -> & F & _ & B & T & P & -> & ->).
    cbv zeta. rewrite F. cbn [fst snd]. rewrite B, T.
    destruct (fst (post_to_band (cfg_BAND_ACCESS_TOKEN cfg) (cfg_BAND_KEY cfg) band
                     text _)) as [j|x]; [|discriminate P].
    cbn [bind]. now rewrite <- !app_assoc.
Qed.

(** The theorem on a run of Wednesday 2026-02-11 over a feed of two
    pages. *)
Lemma main_success_witness :
  exists n : nat,
    (n <= 10)%nat /\
    snd (main parse_iso utc_system format_fixed sum_sequential
           (oauth_always 200 (Some (mktoken_reply (Some "tok"))))
           (feed [firstn 2 three_rides; skipn 2 three_rides])
           (band_always 200 (code (JInt 1))) sample_config sample_now [])
    = token_request sample_config
      :: pages_upto "club" "tok" 200 n
      ++ [band_request "band-token" "band-key" sample_report].
Proof.
  assert (M : main parse_iso utc_system format_fixed sum_sequential
                (oauth_always 200 (Some (mktoken_reply (Some "tok"))))
                (feed [firstn 2 three_rides; skipn 2 three_rides])
                (band_always 200 (code (JInt 1))) sample_config sample_now []
              = (Ok ["✅ Posted to BAND successfully."; sample_report],
                 token_request sample_config
                 :: map (page_request "club" "tok" 200) [1; 2; 3]
                 ++ [band_request "band-token" "band-key" sample_report]))
    by (vm_compute; reflexivity).
  destruct (proj1 (main_success _ _ _ _ _ _ _ _ _ _ _ _) M)
    as (s & e & token & acts & lb & text & n
        & _ & R & _ & Hn & _ & _ & _ & Hout & Hlog).
  injection Hout as <-. vm_compute in R. injection R as <-.
  exists n. split; [exact Hn|]. rewrite M. exact Hlog.
Defined.

(** X13: whatever the servers answer, [main] sends at most twelve
    requests; it posts to BAND at most once, as its last request, and
    only after every earlier stage has succeeded, the text posted being
    the report of the fetched activities over the window; when a stage
    before the post raises, nothing is posted. *)
Theorem main_requests (iso : string -> result exn parsed) (sys : datetime -> result exn Z)
  (format_f : nat -> float -> string) (sum_float : list float -> float)
  (oauth : server token_reply) (strava : server (list activity))
  (band : server json) (cfg : config) (now : datetime) (log : list request) :
  let run := main iso sys format_f sum_float oauth strava band cfg now log in
  exists pre : list request,
    forallb (fun rq => negb (is_band_post rq)) pre = true /\
    (List.length pre <= 11)%nat /\
    ((snd run = log ++ pre /\ is_ok (fst run) = false) \/
     (exists (s e : datetime) (token : string) (acts : list activity)
             (lb : list row) (text : string),
        last_week_range_kst now = Ok (s, e) /\
        fst (refresh_strava_access_token cfg oauth log) = Ok token /\
        fst (fetch_club_activities (cfg_STRAVA_CLUB_ID cfg) strava token 200 10
               (log ++ [token_request cfg])) = Ok acts /\
        build_leaderboard iso sys acts s e = Ok lb /\
        format_post_text (cfg_TOP_N cfg) format_f sum_float s e lb = Ok text /\
        snd run
        = log ++ pre
          ++ [band_request (cfg_BAND_ACCESS_TOKEN cfg) (cfg_BAND_KEY cfg) text] /\
        fst run
        = (_ <- fst (post_to_band (cfg_BAND_ACCESS_TOKEN cfg) (cfg_BAND_KEY cfg)
                       band text (log ++ pre)) ;;
           Ok ["✅ Posted to BAND successfully."; text]))).
Proof.
  intros run. unfold run. rewrite main_stages.
  destruct (last_week_range_kst now) as [[s e]|x].
  2: { exists []. rewrite app_nil_r. split; [reflexivity|].
       split; [cbn; lia|]. left. now split. }
  destruct (fst (refresh_strava_access_token cfg oauth log)) as [token|x] eqn:R.
  2: { exists [token_request cfg]. split; [reflexivity|].
       split; [cbn; lia|]. left. now split. }
  cbv zeta.
  destruct (fetch_club_activities_requests (cfg_STRAVA_CLUB_ID cfg) strava token
              200 10 (log ++ [token_request cfg])) as (n & Hn & Hlog).
  change (Z.to_nat 10) with 10%nat in Hn.
  assert (Hpre : forallb (fun rq => negb (is_band_post rq))
                   (token_request cfg
                    :: pages_upto (cfg_STRAVA_CLUB_ID cfg) token 200 n) = true).
  { cbn [forallb]. rewrite pages_upto_no_post. reflexivity. }
  assert (Hlen : (List.length
                    (token_request cfg
                     :: pages_upto (cfg_STRAVA_CLUB_ID cfg) token 200 n) <= 11)%nat).
  { cbn [List.length]. rewrite pages_upto_length. lia. }
  exists (token_request cfg :: pages_upto (cfg_STRAVA_CLUB_ID cfg) token 200 n).
  split; [exact Hpre|]. split; [exact Hlen|].
  rewrite <- app_assoc in Hlog. cbn [app] in Hlog.
  destruct (fetch_club_activities (cfg_STRAVA_CLUB_ID cfg) strava token 200 10
              (log ++ [token_request cfg])) as [[acts|x] l2] eqn:F;
    cbn [fst snd] in Hlog |- *; subst l2; [|left; now split].
  destruct (build_leaderboard iso sys acts s e) as [lb|x] eqn:B;
    [|left; now split].
  destruct (format_post_text (cfg_TOP_N cfg) format_f sum_float s e lb)
    as [text|x] eqn:T; [|left; now split].
  right. exists s, e, token, acts, lb, text. cbn [fst snd].
  repeat split; try reflexivity; try assumption.
  - now rewrite F.
  - now rewrite <- app_assoc.
Qed.

(** ** The configuration *)

Lemma getitem_unset (environ : list (string * string)) (name : string) :
  is_unset environ name = true ->
  getitem name (environ_get name environ) = Raise (KeyError name).
Proof. unfold is_unset. now destruct (environ_get name environ). Qed.

Lemma getitem_set (environ : list (string * string)) (name : string) :
  is_unset environ name = false ->
  getitem name (environ_get name environ)
  = Ok (get (environ_get name environ) EmptyString).
Proof. unfold is_unset. now destruct (environ_get name environ). Qed.

(** X14: when the environment lacks a required variable the module
    fails to load with the [KeyError] of the first one missing in the
    order of the assignments, and the run ends there, before any
    request is sent; when none is missing the configuration holds the
    six values and [TOP_N] is the integer read from the variable
    [TOP_N], or from the text [20] when that variable is unset. *)
Theorem load_config_spec (int_of_str : string -> result exn Z)
  (environ : list (string * string)) :
  match first_missing environ with
  | Some name =>
      load_config int_of_str environ = Raise (KeyError name) /\
      forall iso sys format_f sum_float oauth strava band now log,
        script iso sys format_f sum_float oauth strava band int_of_str environ now log
        = (Raise (KeyError name), log)
  | None =>
      load_config int_of_str environ
      = (top_n <- int_of_str (match environ_get "TOP_N" environ with
                              | Some text => text
                              | None => "20"
                              end) ;;
         Ok (mkconfig (get (environ_get "STRAVA_CLIENT_ID" environ) "")
                      (get (environ_get "STRAVA_CLIENT_SECRET" environ) "")
                      (get (environ_get "STRAVA_REFRESH_TOKEN" environ) "")
                      (get (environ_get "STRAVA_CLUB_ID" environ) "")
                      (get (environ_get "BAND_ACCESS_TOKEN" environ) "")
                      (get (environ_get "BAND_KEY" environ) "")
                      top_n)) /\
      Forall (fun name => environ_get name environ <> None) required
  end.
Proof.
  unfold first_missing, required, script, net_bind, net_pure, load_config.
  cbn [find].
  repeat
    match goal with
    | |- context [if is_unset environ ?name then _ else _] =>
        let E := fresh "E" in
        destruct (is_unset environ name) eqn:E;
        [ rewrite ?(getitem_unset _ _ E); cbn [bind]; split; reflexivity
        | rewrite (getitem_set _ _ E); cbn [bind] ]
    end.
  split; [reflexivity|].
  repeat constructor;
    match goal with
    | |- environ_get ?name environ <> None =>
        match goal with
        | E : is_unset environ name = false |- _ =>
            unfold is_unset in E; destruct (environ_get name environ);
            [discriminate|discriminate E]
        end
    end.
Qed.

(** ** From the feed to the text *)

Lemma build_leaderboard_counts (iso : string -> result exn parsed)
  (sys : datetime -> result exn Z) (acts : list activity) (s e : datetime) (lb : list row) :
  build_leaderboard iso sys acts s e = Ok lb ->
  sum_int (map rides lb) = len (filter (contributes iso sys s e) acts) /\
  len lb = len (first_seen (map key_of (filter (contributes iso sys s e) acts))).
Proof.
  intros (d & Hd & ->)%build_leaderboard_rows.
  pose proof (aggregate_all_filter _ _ _ _ _ _ _ Hd) as Hf.
  split.
  - rewrite (sum_int_perm _ _ (Permutation_map rides (sort_desc_perm _))), map_map.
    exact (accumulate_all_rides _ _ _ Hf).
  - pose proof (accumulate_all_keys _ _ _ Hf) as Hk. cbn [map app] in Hk.
    rewrite (filter_same _ (fun _ => true)) in Hk by reflexivity.
    assert (Hall : forall l : list (option Z), filter (fun _ => true) l = l).
    { induction l as [|x l IH]; simpl; [reflexivity|now rewrite IH]. }
    rewrite Hall in Hk. unfold len.
    rewrite (Permutation_length (sort_desc_perm _)), length_map, <- Hk.
    now rewrite length_map.
Qed.

(** X15: the text made of the leaderboard counts what the feed holds
    inside the window: when no activity starts inside it, the text is
    the header, the legend and the sentence that nothing was recorded;
    otherwise its last line gives as number of rides the number of
    activities inside the window and as number of participants the
    number of distinct athlete ids among them. *)
Theorem report_of_window (iso : string -> result exn parsed) (sys : datetime -> result exn Z)
  (TOP_N : Z) (format_f : nat -> float -> string) (sum_float : list float -> float)
  (acts : list activity) (s e : datetime) (lb : list row) (text : string) :
  build_leaderboard iso sys acts s e = Ok lb ->
  format_post_text TOP_N format_f sum_float s e lb = Ok text ->
  let inside := filter (contributes iso sys s e) acts in
  match inside with
  | [] => text = join nl [header s (day_before e); ""; legend; ""; no_activity]
  | _ :: _ =>
      exists above : string,
        text
        = (above ++ nl
           ++ "📊 전체 합계: " ++ format_f 1%nat (sum_float (map km lb))
           ++ " km / " ++ format_f 0%nat (sum_float (map elev lb))
           ++ " m / " ++ str_int (len inside)
           ++ "회 (참여 " ++ str_int (len (first_seen (map key_of inside)))
           ++ "명)")%string
  end.
Proof.
  intros Hb Hf inside.
  destruct (build_leaderboard_counts _ _ _ _ _ _ Hb) as [Hrides Hlen].
  fold inside in Hrides, Hlen.
  rewrite format_post_text_lines in Hf. pose proof (sub_days_1 e) as Hd.
  destruct (sub_days e 1) as [d|x]; [subst d|discriminate Hf].
  cbn [bind] in Hf. injection Hf as <-.
  destruct inside as [|a inside'] eqn:E.
  - destruct lb; [reflexivity|discriminate Hlen].
  - rewrite <- Hrides, <- Hlen. destruct lb as [|r lb]; [discriminate Hlen|].
    exists (join nl ([header s (day_before e); ""; legend; "";
                      ("🏆 TOP " ++ str_int (Z.min TOP_N (len (r :: lb))))%string]
                     ++ ranking_lines format_f 1 (slice_to TOP_N (r :: lb))
                     ++ [""])).
    unfold body. rewrite <- join_snoc by discriminate.
    cbn [app]. now rewrite <- !app_assoc.
Qed.

(** The theorem on four rides of which two are inside the window. *)
Lemma report_of_window_witness :
  build_leaderboard parse_iso utc_system boundary_rides week_start week_end
  = Ok [mkrow "C" 3 0 1; mkrow "B" 2 0 1] /\
  exists above : string,
    sample_boundary_report
    = (above ++ nl ++ "📊 전체 합계: 5.0 km / 0 m / 2회 (참여 2명)")%string.
Proof.
  assert (B : build_leaderboard parse_iso utc_system boundary_rides week_start
                week_end = Ok [mkrow "C" 3 0 1; mkrow "B" 2 0 1])
    by (vm_compute; reflexivity).
  assert (T : format_post_text 20 format_fixed sum_sequential week_start week_end
                [mkrow "C" 3 0 1; mkrow "B" 2 0 1] = Ok sample_boundary_report)
    by (vm_compute; reflexivity).
  split; [exact B|].
  pose proof (report_of_window parse_iso utc_system 20 format_fixed sum_sequential
                boundary_rides week_start week_end _ _ B T) as H.
  vm_compute in H. destruct H as [above H]. exists above.
  vm_compute. exact H.
Defined.
